(* ===== verification/_CoqProject ===== *)
-Q . S2P
Prelude.v
PyStr.v
Advisory.v
GeminiConfig.v
ClassIndex.v
Checkpoint.v
Classifier.v
Preprocess.v
App.v
Server.v
Cors.v
Logging.v
