(* ===== verification/Prelude.v ===== *)
(** * CropCare backend: a verification development of [src/backend-api/main.py]

    The repository has one program: a FastAPI service (src/backend-api/main.py)
    that classifies a plant-leaf image with a vision transformer and asks a
    Gemini text model for advice on the predicted disease.  Its parts, and
    how they interact:

    - startup (lines 52-166): three [@app.on_event("startup")] handlers run
      in order.  [load_class_mapping] reads class_names.json into
      [app.state.idx_to_class]; [load_model] builds the network with one
      output per entry of that table, strips the ["vit."] prefix from the
      checkpoint keys and loads them non-strictly; [configure_gemini] reads
      the API key and tries four model names until one answers ["What is
      2+2?"] with a text containing ["4"].  The first two raise, which
      aborts startup; the third swallows every error and leaves
      [gemini_model = None].
    - [POST /predict] (lines 286-329): reads the upload, rejects an empty one
      with 400, opens it with PIL, [preprocess_image] (422 on failure),
      [predict_image] (softmax, top-3, class lookup, rounding; any failure
      is a [RuntimeError]), then [generate_gemini_content] on the top label
      when Gemini is configured, which never fails the request.  Every
      exception that is not an [HTTPException] becomes a 500.
    - [GET /test-gemini] (lines 169-199): a diagnostic call to the backend.
    - logging (lines 17-19 and every handler): [basicConfig] at [INFO];
      each handler writes [INFO], [WARNING] and [ERROR] records, and the
      [except] clauses of the startup handlers and of [/predict] write the
      traceback ([logger.exception]).
    - the CORS middleware (lines 331-337): Starlette's [CORSMiddleware]
      around both routes, open to every origin and header, for [POST] and
      [GET].

    Files of the development (in dependency order, as in _CoqProject), and
    the part each models:

    - [Prelude]      this header; Python exceptions as the inductive [exc],
                     the result type [res] with [try_except] and its bind
                     [let!] in [py_scope]; the hint database [py], the
                     tactic [res_simpl]; generic lemmas on results and lists.
    - [PyStr]        the Python [str] operations the program uses, on
                     [list ascii]: [in], [startswith], [split], [replace],
                     [strip], indexing; their equations, enough fuel for the
                     splitting and replacing loops, the identity
                     [s.replace(old, new) = new.join(s.split(old))], and
                     the termination of [split].
    - [Advisory]     Module [Advisory]: [generate_gemini_content] (lines
                     237-284), the prompt, the parser of the three labelled
                     sections and the placeholders, against the class
                     [GenAI] (google-generativeai), whose one global
                     setting, the key [genai.configure] records, is
                     [genai_config].
    - [GeminiConfig] Module [GeminiConfig]: [configure_gemini] (lines
                     113-166): the .env.local search, python-dotenv's
                     [load_dotenv] (the file's dict, where a later
                     assignment wins, under [os.environ]), [genai.configure]
                     with the key read, and the first-accepted model search
                     under it.
    - [ClassIndex]   Module [ClassIndex]: [load_class_mapping] (lines
                     54-71), JSON values, Python [int(str)] and [str(int)],
                     the index table as a [gmap Z json].
    - [Classifier]   Module [Classifier]: [predict_image] (lines 201-223)
                     against the class [Network] (the forward pass of the
                     model loaded at startup, with one logit per class of
                     that model as its law); softmax over an abstract
                     exponential, [torch.topk] as a sort of the indexed
                     outputs, Python [round(x, 2)], the class lookup.
    - [Preprocess]   Module [Preprocess]: [transform] (lines 32-39):
                     [ToTensor] (one channel per band of the image's mode)
                     and [Normalize] with the constants of the source
                     (refusing a tensor whose channels do not match), over
                     the class [ImageLib] (PIL: opening, mode, conversion to
                     an RGB image, decoding and resampling in the image's
                     mode).
    - [Checkpoint]   Module [Checkpoint]: the body of [load_model] (lines
                     84-102): the network's parameters, the choice of the
                     state dictionary, the key cleaning, PyTorch's
                     non-strict [load_state_dict], [DEVICE], [.to(DEVICE)]
                     and [.eval()]; the model is the record [vit_state]
                     (classes, loaded names, device, training flag).
    - [App]          Module [App]: [app.state] as the record [app_state],
                     the inputs of startup (the two files at [MODEL_PATH]
                     and [CLASS_NAMES_PATH], the hub download, CUDA, the
                     environment) as the record [startup_inputs], the three
                     startup handlers and their sequence [startup],
                     [preprocess_image], [/predict] and [/test-gemini].
    - [Server]       Module [Server]: the process lifecycle as a labelled
                     transition relation [step] on [Booting | Serving st |
                     Aborted e] (startup events, then requests, as
                     [uvicorn.run] drives them), its runs [steps], the
                     routing [handle] and the executable [run].
    - [Cors]         Module [Cors]: the middleware configuration
                     [CORS_CONFIG] and the preflight decision of
                     Starlette's [CORSMiddleware] that it installs.
    - [Logging]      Module [Logging]: [basicConfig] (lines 17-19), the
                     records, and every handler written again with its
                     [logger] calls in the monad [wres] of results with a
                     log ([startup_w], [predict_w], ...); erasure lemmas
                     prove that forgetting the log gives the definitions
                     of the other files.

    What the theorems show.  App: the end-to-end result of [/predict]
    after startup (C1); the boundary the code leaves open: a class table
    of fewer than three entries starts, and every valid upload is then
    answered 500 (C2); what a successful startup guarantees (the class
    table and the network present, one output per class, on [DEVICE], in
    evaluation mode: C3) and which exceptions abort it (C4); the status of
    [/predict] on every kind of input (C5-C8); the graceful degradation
    without Gemini (C9-C10); that the advice is asked for the top class
    (C11); that every image whose conversion to RGB and resize succeed is
    preprocessed to a [3 x 224 x 224] tensor within the normalised range
    (C12); and when [/test-gemini] succeeds (C13).  Cors: both routes pass
    the preflight from every origin and every other method is rejected
    (C14).  Logging: what the log holds when startup aborts (C15) and
    when [/predict] fails (C16), and that the model search is logged in
    the order it runs (C17).  Classifier: three predictions, sorted and
    bounded, the first the argmax, the exact failure set, and how each
    entry is read off one output (its class at that index, its confidence
    the softmax rounded half to even to two decimals) (C18-C21).
    Advisory: the function on well-formed answers with plain or bold
    labels, that it never raises, and the parser on one-line and partial
    answers (C22-C25).  ClassIndex: the loader on lists, on the
    [json.dump] of a table, on objects (as the abstract [last_value]) and
    its failure set (C26-C29).  Checkpoint: which checkpoint keys the
    cleaning loop stores under a name, the later one winning (C30), the
    round trip of a saved checkpoint (C31) and the silent load of a
    checkpoint with no matching key (C32).  GeminiConfig: the bound model
    is the first accepted one under the key read (C33), and the
    environment the handler leaves (C34).  The lemmas of Server (the
    executable [run] against the relation, the invariant on every run,
    progress) and the erasure lemmas of Logging connect the models; they
    are not claims about the program.

    Fuel.  [split] and [replace] loop over the string with fuel
    [S (length s)]: each round consumes a non-empty separator, so the
    lemmas [split_fuel_enough] and [replace_fuel_enough] show that more
    fuel changes nothing, and the definitions are total.  [str(n)] uses
    fuel [S n], more than its number of digits.

    Modelling choices.  Python strings are lists of [ascii], read as the
    Unicode code points 0-255 (the texts the program parses are handled by
    code point, so the restriction changes nothing in the logic).  Floats
    are exact rationals [Q]: the bounds and the order of the predictions
    are proved for exact arithmetic, and [round] is round-half-even of the
    exact value.  The exponential of the softmax is a parameter: the
    theorems assume only that it is positive (and increasing, for the
    argmax).  Every Python exception the code raises or catches is a
    constructor of [exc]; a function that may raise returns a [res].

    Not modelled.  Libraries the program only calls (PIL, torch,
    torchvision, google-generativeai, python-dotenv, FastAPI) are not
    verified: what the program relies on from them is a type class
    ([GenAI], [Network], [ImageLib]) or an input record, and every theorem
    about the handlers holds for every instance ([ToTensor] and
    [Normalize], two lines of arithmetic, are modelled in [Preprocess]
    from torchvision's documentation).  So PIL's decoding and
    the resampling of [Resize] are not modelled (only the laws of
    [ImageLib]: [Resize] returns the size it is asked for in the image's
    mode, [convert('RGB')] returns an RGB image; sample values are bytes,
    the 8-bit modes), nor the network's
    arithmetic (only the outputs of [forward]), nor the tensor values of
    the checkpoint (only parameter names and shapes).  The CORS
    middleware is modelled by its preflight status and body; the response
    headers it adds are not.  The Gemini backend is a function of the
    model and the prompt: each theorem is about one call, and no claim
    compares two calls, whose real answers may differ.  python-dotenv's
    variable interpolation is not modelled.  The log records are modelled
    with their level and message, not their timestamps or the traceback
    text of [logger.exception] (only that one is attached).  The host and
    port given to uvicorn have no effect on the results the handlers
    return. *)

From stdpp Require Import base list strings.
From Stdlib Require Import Ascii String ZArith.

Declare Scope py_scope.
Delimit Scope py_scope with py.

(** ** Python strings *)

(** A Python [str] is a sequence of code points; here a list of [ascii]. *)
Abbreviation pystr := (list ascii).

(** A literal of the source, written as a Rocq string. *)
Definition lit (s : string) : pystr := list_ascii_of_string s.

(** ** Exceptions *)

(** The exceptions that the modelled code raises, catches or lets escape.
    [HTTPException] carries FastAPI's status code and detail; [LibError]
    is any exception a library call raises (its message only is kept). *)
Inductive exc :=
  | ValueError (msg : pystr)
  | RuntimeError (msg : pystr)
  | KeyError
  | IndexError
  | HTTPException (status : Z) (detail : pystr)
  | LibError (msg : pystr).

#[export] Instance exc_eq_dec : EqDecision exc.
Proof. solve_decision. Qed.

(** A computation that returns an [A] or raises. *)
Inductive res (A : Type) : Type :=
  | Ok (a : A)
  | Raise (e : exc).
Arguments Ok {A} a.
Arguments Raise {A} e.

Definition res_bind {A B} (c : res A) (k : A -> res B) : res B :=
  match c with
  | Ok a => k a
  | Raise e => Raise e
  end.

(** [try: c except E as e: h(e)], for a handler that catches everything. *)
Definition try_except {A} (c : res A) (h : exc -> res A) : res A :=
  match c with
  | Ok a => Ok a
  | Raise e => h e
  end.

Notation "'let!' x ':=' c 'in' k" := (res_bind c (fun x => k))
  (at level 10, x name, c at level 100, k at level 200) : py_scope.

Definition is_ok {A} (c : res A) : bool :=
  match c with Ok _ => true | Raise _ => false end.

(** ** Generic lemmas on results *)

Create HintDb py.
Create Rewrite HintDb py.

Lemma res_bind_ok {A B} (a : A) (k : A -> res B) : res_bind (Ok a) k = k a.
Proof. reflexivity. Qed.

Lemma res_bind_raise {A B} (e : exc) (k : A -> res B) :
  res_bind (Raise e) k = Raise e.
Proof. reflexivity. Qed.

Lemma try_except_ok {A} (a : A) h : try_except (Ok a) h = Ok a.
Proof. reflexivity. Qed.

Lemma try_except_raise {A} (e : exc) (h : exc -> res A) :
  try_except (Raise e) h = h e.
Proof. reflexivity. Qed.

#[export] Hint Rewrite @res_bind_ok @res_bind_raise @try_except_ok
  @try_except_raise : py.

Lemma res_bind_Ok_inv {A B} (c : res A) (k : A -> res B) b :
  res_bind c k = Ok b -> exists a, c = Ok a /\ k a = Ok b.
Proof. destruct c; simpl; [eauto | discriminate]. Qed.

Lemma res_bind_Raise_inv {A B} (c : res A) (k : A -> res B) e :
  res_bind c k = Raise e -> c = Raise e \/ exists a, c = Ok a /\ k a = Raise e.
Proof. destruct c; simpl; intros H; [right; eauto | left; congruence]. Qed.

(** Every handler with a total [except Exception] clause returns. *)
Lemma try_except_total {A} (c : res A) (h : exc -> A) :
  exists a, try_except c (fun e => Ok (h e)) = Ok a.
Proof. destruct c; simpl; eauto. Qed.

(** A handler whose [except] clause raises a fixed exception raises
    nothing else. *)
Lemma try_except_reraise {A} (c : res A) (e0 e : exc) :
  try_except c (fun _ => Raise e0) = Raise e -> e = e0.
Proof. destruct c; simpl; congruence. Qed.

(** The value part of a result, [fmap] on [res]. *)
Definition res_map {A B} (f : A -> B) (c : res A) : res B :=
  match c with
  | Ok a => Ok (f a)
  | Raise e => Raise e
  end.

(** Destruct the results that block a [res_bind] or a [try_except] in a
    hypothesis [H : ... = Ok _] and rewrite with the [py] base. *)
Ltac res_simpl :=
  repeat match goal with
  | H : res_bind ?c _ = Ok _ |- _ =>
      let a := fresh "a" in let Hc := fresh "Hc" in
      apply res_bind_Ok_inv in H as (a & Hc & H)
  | H : Ok _ = Ok _ |- _ => injection H as H
  | H : Ok _ = Raise _ |- _ => discriminate H
  | H : Raise _ = Ok _ |- _ => discriminate H
  end;
  autorewrite with py in *.

(** ** Generic lemmas on lists *)

Lemma filter_all_true {A} (P : A -> Prop) `{forall x, Decision (P x)} (l : list A) :
  (forall x, x ∈ l -> P x) -> filter P l = l.
Proof.
  induction l as [|x l IH]; intros Hl; [done|]. rewrite filter_cons.
  rewrite decide_True by (apply Hl; apply elem_of_cons; by left).
  f_equal. apply IH. intros y Hy. apply Hl. apply elem_of_cons. by right.
Qed.

Lemma filter_all_false {A} (P : A -> Prop) `{forall x, Decision (P x)} (l : list A) :
  (forall x, x ∈ l -> ~ P x) -> filter P l = [].
Proof.
  induction l as [|x l IH]; intros Hl; [done|]. rewrite filter_cons.
  rewrite decide_False by (apply Hl; apply elem_of_cons; by left).
  apply IH. intros y Hy. apply Hl. apply elem_of_cons. by right.
Qed.
