(* ===== verification/PyStr.v ===== *)
(** * Python string operations used by main.py

    The builtins [s.startswith], [sub in s], [s.split(sep)], [s.replace(old,
    new)], [sep.join(l)], [s.strip()] and list indexing [l[i]], on [pystr]
    (lists of code points), following the Python 3 semantics: [split] and
    [replace] scan left to right for non-overlapping occurrences, [strip]
    removes the characters for which [str.isspace] holds, an empty
    separator makes [split] raise [ValueError], and an index out of range
    raises [IndexError].  The splitting loop is written with fuel; the
    lemma [split_fuel_unfold] shows that the fuel given by [py_split] is
    always enough. *)

From stdpp Require Import base list strings.
From Stdlib Require Import Ascii ZArith Lia.
From S2P Require Import Prelude.

Module PyStr.

#[local] Open Scope py_scope.

(** ** Definitions *)

(** [s.startswith(p)] *)
Fixpoint starts_with (p s : pystr) : bool :=
  match p, s with
  | [], _ => true
  | c :: p', d :: s' => if decide (c = d) then starts_with p' s' else false
  | _ :: _, [] => false
  end.

(** The first occurrence of [sep] in [s]: the text before it and the text
    after it (CPython's [find] followed by slicing). *)
Fixpoint find (sep s : pystr) : option (pystr * pystr) :=
  if starts_with sep s then Some ([], drop (length sep) s)
  else match s with
       | [] => None
       | c :: s' =>
           match find sep s' with
           | Some (b, a) => Some (c :: b, a)
           | None => None
           end
       end.

(** [sub in s] *)
Definition contains (sub s : pystr) : bool :=
  match find sub s with Some _ => true | None => false end.

(** The loop of [str.split] with a separator: cut at the first
    occurrence, go on with the rest. *)
Fixpoint split_fuel (fuel : nat) (sep s : pystr) : list pystr :=
  match fuel with
  | 0 => [s]
  | S f =>
      match find sep s with
      | None => [s]
      | Some (b, a) => b :: split_fuel f sep a
      end
  end.

(** [s.split(sep)] *)
Definition py_split (sep s : pystr) : res (list pystr) :=
  match sep with
  | [] => Raise (ValueError (lit "empty separator"))
  | _ => Ok (split_fuel (S (length s)) sep s)
  end.

(** [sep.join(l)] *)
Definition py_join (sep : pystr) (l : list pystr) : pystr :=
  match l with
  | [] => []
  | x :: xs => x ++ mjoin (map (fun y => sep ++ y) xs)
  end.

(** The loop of [str.replace] with a non-empty [old]. *)
Fixpoint replace_fuel (fuel : nat) (old new s : pystr) : pystr :=
  match fuel with
  | 0 => s
  | S f =>
      match find old s with
      | None => s
      | Some (b, a) => b ++ new ++ replace_fuel f old new a
      end
  end.

(** [s.replace(old, new)]; with an empty [old], Python inserts [new]
    before every character and at the end. *)
Definition py_replace (old new s : pystr) : pystr :=
  match old with
  | [] => new ++ mjoin (map (fun c => c :: new) s)
  | _ => replace_fuel (S (length s)) old new s
  end.

(** [c.isspace()] for the code points 0-255: \t \n \v \f \r, the
    separators 0x1c-0x1f, space, NEL (0x85) and NBSP (0xa0). *)
Definition py_isspace (c : ascii) : bool :=
  let n := nat_of_ascii c in
  ((9 <=? n) && (n <=? 13)) || ((28 <=? n) && (n <=? 32))
  || (n =? 133) || (n =? 160).

Fixpoint lstrip (s : pystr) : pystr :=
  match s with
  | [] => []
  | c :: s' => if py_isspace c then lstrip s' else s
  end.

Definition rstrip (s : pystr) : pystr := rev (lstrip (rev s)).

(** [s.strip()] *)
Definition py_strip (s : pystr) : pystr := rstrip (lstrip s).

(** [l[i]], with Python's negative indices. *)
Definition py_getitem {A} (l : list A) (i : Z) : res A :=
  let n := Z.of_nat (length l) in
  let j := if (i <? 0)%Z then (n + i)%Z else i in
  if ((0 <=? j) && (j <? n))%Z then
    match l !! Z.to_nat j with Some x => Ok x | None => Raise IndexError end
  else Raise IndexError.

(** ** Prefixes and first occurrences *)

Lemma starts_with_app (p r : pystr) : starts_with p (p ++ r) = true.
Proof. induction p; simpl; [done|]. by rewrite decide_True. Qed.

Lemma starts_with_spec (p s : pystr) :
  starts_with p s = true <-> exists r, s = p ++ r.
Proof.
  revert s; induction p as [|c p IH]; intros [|d s]; simpl;
    try (split; [eauto | done]); try (split; [done|]; intros [r ?]; done).
  case_decide; subst.
  - rewrite IH. split; intros [r Hr]; exists r; congruence.
  - split; [done|]. intros [r Hr]; congruence.
Qed.

(** A character that [sep] does not contain stops every match of [sep]. *)
Lemma starts_with_barrier (sep b a : pystr) c :
  c ∉ sep -> starts_with sep (b ++ c :: a) = starts_with sep b.
Proof.
  revert b; induction sep as [|e sep IH]; intros [|d b] Hc; simpl; [done..| |].
  - rewrite decide_False; [done|]. intros ->. apply Hc. left.
  - case_decide; [|done]. apply IH. intros Hin. apply Hc. by right.
Qed.

Lemma find_cons (sep s : pystr) c :
  find sep (c :: s) =
    if starts_with sep (c :: s) then Some ([], drop (length sep) (c :: s))
    else match find sep s with Some (b, a) => Some (c :: b, a) | None => None end.
Proof. reflexivity. Qed.

Lemma find_Some (sep s b a : pystr) :
  find sep s = Some (b, a) -> s = b ++ sep ++ a.
Proof.
  revert b; induction s as [|c s IH]; intros b; simpl.
  - destruct (starts_with sep []) eqn:E; [|done]. intros [= <- <-].
    destruct sep; [done|discriminate].
  - destruct (starts_with sep (c :: s)) eqn:E.
    + intros [= <- <-]. apply starts_with_spec in E as [r ->].
      by rewrite drop_app_length.
    + destruct (find sep s) as [[b' a']|]; [|done]. intros [= <- <-].
      simpl. f_equal. by apply IH.
Qed.

Lemma contains_cons (sep s : pystr) c :
  contains sep (c :: s) = starts_with sep (c :: s) || contains sep s.
Proof.
  unfold contains. rewrite find_cons.
  destruct (starts_with sep (c :: s)); [done|]. by destruct (find sep s) as [[]|].
Qed.

Lemma contains_nil (sep : pystr) : contains sep [] = starts_with sep [].
Proof. unfold contains. simpl. by destruct (starts_with sep []). Qed.

(** An occurrence lies on one side of a character that [sep] lacks. *)
Lemma contains_barrier (sep b a : pystr) c :
  c ∉ sep -> contains sep (b ++ c :: a) = contains sep b || contains sep a.
Proof.
  intros Hc. induction b as [|d b IH]; simpl.
  - rewrite contains_cons, contains_nil.
    rewrite (starts_with_barrier sep [] a c Hc : starts_with sep (c :: a) = _). done.
  - rewrite !contains_cons, IH.
    rewrite (starts_with_barrier sep (d :: b) a c Hc : starts_with sep (d :: b ++ c :: a) = _).
    by destruct (starts_with sep (d :: b)), (contains sep b).
Qed.

Lemma contains_app_barrier (sep b a : pystr) c :
  c ∉ sep -> contains sep b = false -> contains sep a = false ->
  contains sep (b ++ c :: a) = false.
Proof. intros Hc Hb Ha. by rewrite contains_barrier, Hb, Ha. Qed.

(** If [b] has no occurrence and is followed by a character that [sep]
    lacks, the first occurrence is the first one in the rest. *)
Lemma find_barrier (sep b a : pystr) c :
  c ∉ sep -> contains sep b = false ->
  find sep (b ++ c :: a) =
    match find sep a with
    | Some (x, y) => Some (b ++ c :: x, y)
    | None => None
    end.
Proof.
  intros Hc. induction b as [|d b IH]; intros Hb; simpl.
  - rewrite (starts_with_barrier sep [] a c Hc : starts_with sep (c :: a) = _).
    rewrite contains_nil in Hb. rewrite Hb.
    by destruct (find sep a) as [[]|].
  - rewrite contains_cons in Hb. apply orb_false_iff in Hb as [Hs Hb].
    rewrite (starts_with_barrier sep (d :: b) a c Hc : starts_with sep (d :: b ++ c :: a) = _), Hs, IH by done.
    by destruct (find sep a) as [[]|].
Qed.

Lemma find_prefix (sep a : pystr) : find sep (sep ++ a) = Some ([], a).
Proof.
  destruct (sep ++ a) as [|c s] eqn:E; simpl.
  - apply app_eq_nil in E as [-> ->]. done.
  - rewrite <- E, starts_with_app, drop_app_length. done.
Qed.

Lemma contains_prefix (sep a : pystr) : contains sep (sep ++ a) = true.
Proof. unfold contains. by rewrite find_prefix. Qed.

(** A one-character separator: the first occurrence of [c]. *)
Lemma find_char (b a : pystr) c :
  c ∉ b -> find [c] (b ++ c :: a) = Some (b, a).
Proof.
  induction b as [|d b IH]; intros Hb; simpl.
  - by rewrite decide_True.
  - rewrite decide_False by (intros ->; apply Hb; left).
    rewrite IH; [done|]. intros Hin; apply Hb; by right.
Qed.

Lemma find_None_contains (sep s : pystr) :
  contains sep s = false -> find sep s = None.
Proof. unfold contains. by destruct (find sep s). Qed.

#[export] Hint Resolve contains_app_barrier find_None_contains : py.

(** [c in s] for a one-character string. *)
Lemma contains_char (s : pystr) c : contains [c] s = false <-> c ∉ s.
Proof.
  induction s as [|d s IH]; [by rewrite contains_nil; split; [intros _ H; inversion H|]|].
  rewrite contains_cons, elem_of_cons. simpl. case_decide; subst.
  - split; [done|]. intros H; exfalso; apply H; by left.
  - rewrite IH. naive_solver.
Qed.

(** ** Termination of the splitting loop *)

Lemma find_length (sep s b a : pystr) :
  sep <> [] -> find sep s = Some (b, a) -> length a < length s.
Proof.
  intros Hsep H. apply find_Some in H as ->.
  rewrite !length_app. destruct sep; [done|]. simpl. lia.
Qed.

(** Any fuel larger than the string gives the same result. *)
Lemma split_fuel_enough (f1 f2 : nat) (sep s : pystr) :
  sep <> [] -> length s < f1 -> length s < f2 ->
  split_fuel f1 sep s = split_fuel f2 sep s.
Proof.
  intros Hsep. revert f2 s; induction f1 as [|f1 IH]; intros [|f2] s H1 H2;
    simpl; try lia.
  destruct (find sep s) as [[b a]|] eqn:E; [|done].
  pose proof (find_length sep s b a Hsep E). f_equal. apply IH; lia.
Qed.

(** The defining equation of [str.split]: the loop runs to the end. *)
Lemma split_fuel_unfold (sep s : pystr) :
  sep <> [] ->
  split_fuel (S (length s)) sep s =
    match find sep s with
    | None => [s]
    | Some (b, a) => b :: split_fuel (S (length a)) sep a
    end.
Proof.
  intros Hsep.
  change (split_fuel (S (length s)) sep s) with
    (match find sep s with
     | None => [s] | Some (b, a) => b :: split_fuel (length s) sep a end).
  destruct (find sep s) as [[b a]|] eqn:E; [|done].
  pose proof (find_length sep s b a Hsep E).
  f_equal. apply split_fuel_enough; [done|lia|lia].
Qed.

Lemma replace_fuel_enough (f1 f2 : nat) (old new s : pystr) :
  old <> [] -> length s < f1 -> length s < f2 ->
  replace_fuel f1 old new s = replace_fuel f2 old new s.
Proof.
  intros Hold. revert f2 s; induction f1 as [|f1 IH]; intros [|f2] s H1 H2;
    simpl; try lia.
  destruct (find old s) as [[b a]|] eqn:E; [|done].
  pose proof (find_length old s b a Hold E). do 2 f_equal. apply IH; lia.
Qed.

(** ** [split] and indexing *)

(** [s.split(sep)[0]]: the text before the first occurrence. *)
Definition before (sep s : pystr) : pystr :=
  match find sep s with Some (b, _) => b | None => s end.

Lemma py_split_unfold (sep s : pystr) :
  sep <> [] ->
  py_split sep s =
    match find sep s with
    | None => Ok [s]
    | Some (b, a) => let! l := py_split sep a in Ok (b :: l)
    end.
Proof.
  intros Hsep. unfold py_split. destruct sep as [|x sep]; [done|].
  rewrite split_fuel_unfold by done. by destruct (find _ s) as [[]|].
Qed.

Lemma split_fuel_not_nil (f : nat) (sep s : pystr) : split_fuel f sep s <> [].
Proof. destruct f; simpl; [done|]. by destruct (find sep s) as [[]|]. Qed.

Lemma py_split_ok (sep s : pystr) :
  sep <> [] -> exists x l, py_split sep s = Ok (x :: l).
Proof.
  intros Hsep. unfold py_split. destruct sep as [|y sep]; [done|].
  destruct (split_fuel _ _ s) as [|x l] eqn:E; [by apply split_fuel_not_nil in E|].
  eauto.
Qed.

Lemma py_getitem_0 {A} (x : A) (l : list A) : py_getitem (x :: l) 0 = Ok x.
Proof. reflexivity. Qed.

Lemma py_getitem_1 {A} (x y : A) (l : list A) : py_getitem (x :: y :: l) 1 = Ok y.
Proof.
  unfold py_getitem. cbn -[Z.of_nat].
  replace ((1 <? Z.of_nat (S (S (length l))))%Z) with true
    by (symmetry; apply Z.ltb_lt; lia).
  reflexivity.
Qed.

(** [s.split(sep)[0]] never fails: it is the text before the first
    occurrence (stated for any continuation [k] of the indexing). *)
Lemma split_get0 {B} (sep s : pystr) (k : pystr -> res B) :
  sep <> [] ->
  (let! p := py_split sep s in let! x := py_getitem p 0 in k x) = k (before sep s).
Proof.
  intros Hsep. rewrite py_split_unfold by done. unfold before.
  destruct (find sep s) as [[b a]|]; [|done].
  destruct (py_split_ok sep a Hsep) as (x & l & ->). done.
Qed.

(** [s.split(sep)[1]] is the text between the first two occurrences. *)
Lemma split_get1 {B} (sep s b a : pystr) (k : pystr -> res B) :
  sep <> [] -> find sep s = Some (b, a) ->
  (let! p := py_split sep s in let! x := py_getitem p 1 in k x) = k (before sep a).
Proof.
  intros Hsep E. rewrite py_split_unfold, E by done. unfold before.
  pose proof (py_split_unfold sep a Hsep) as Ea.
  destruct (py_split_ok sep a Hsep) as (x & l & El). rewrite El in Ea |- *.
  simpl. rewrite py_getitem_1. simpl.
  destruct (find sep a) as [[y z]|]; simpl in Ea.
  - destruct (py_split sep z); simpl in Ea; [by injection Ea as -> -> | done].
  - by injection Ea as -> ->.
Qed.

(** Without an occurrence, [s.split(sep)[1]] raises [IndexError]. *)
Lemma split_get1_none (sep s : pystr) :
  sep <> [] -> find sep s = None ->
  (let! p := py_split sep s in py_getitem p 1) = Raise IndexError.
Proof. intros Hsep E. rewrite py_split_unfold, E by done. done. Qed.

Lemma before_none (sep s : pystr) : contains sep s = false -> before sep s = s.
Proof. unfold before, contains. by destruct (find sep s). Qed.

Lemma py_join_cons (sep x y : pystr) (l : list pystr) :
  py_join sep (x :: y :: l) = x ++ sep ++ py_join sep (y :: l).
Proof. simpl. by rewrite <- app_assoc. Qed.

(** The text before the first occurrence holds no occurrence itself. *)
Lemma find_before_clean (sep s b a : pystr) :
  sep <> [] -> find sep s = Some (b, a) -> contains sep b = false.
Proof.
  intros Hsep. revert b; induction s as [|c s IH]; intros b; simpl.
  - destruct (starts_with sep []) eqn:E; [|done]. intros [= <- <-].
    rewrite contains_nil. by destruct sep.
  - destruct (starts_with sep (c :: s)) eqn:E.
    + intros [= <- <-]. rewrite contains_nil. by destruct sep.
    + destruct (find sep s) as [[b' a']|] eqn:Ef; [|done]. intros [= <- <-].
      rewrite contains_cons, (IH b' eq_refl). destruct (starts_with sep (c :: b')) eqn:Hb; [|done].
      apply starts_with_spec in Hb as [r Hr].
      apply find_Some in Ef as ->.
      enough (starts_with sep (c :: b' ++ sep ++ a') = true) by congruence.
      apply starts_with_spec. exists (r ++ sep ++ a'). by rewrite app_comm_cons, Hr, <- app_assoc.
Qed.

(** The pieces of the loop: joined with [sep] they give [s] back, and
    none of them contains [sep]. *)
Lemma split_fuel_pieces (sep s : pystr) :
  sep <> [] ->
  py_join sep (split_fuel (S (length s)) sep s) = s /\
  Forall (fun x => contains sep x = false) (split_fuel (S (length s)) sep s).
Proof.
  intros Hsep. remember (length s) as n eqn:Hn. revert s Hn.
  induction (lt_wf n) as [n _ IH]. intros s ->.
  rewrite split_fuel_unfold by done.
  destruct (find sep s) as [[b a]|] eqn:E.
  - destruct (IH (length a) (find_length sep s b a Hsep E) a eq_refl) as [Hj Hc].
    split; [|constructor; [by apply (find_before_clean sep s b a)|done]].
    destruct (split_fuel (S (length a)) sep a) as [|y l] eqn:Es;
      [by apply split_fuel_not_nil in Es|].
    rewrite py_join_cons, Hj. symmetry. by apply find_Some.
  - split; [simpl; by rewrite app_nil_r|]. constructor; [|done].
    unfold contains. by rewrite E.
Qed.

(** ** [replace] *)

Lemma py_replace_unfold (old new s : pystr) :
  old <> [] ->
  py_replace old new s =
    match find old s with
    | None => s
    | Some (b, a) => b ++ new ++ py_replace old new a
    end.
Proof.
  intros Hold. unfold py_replace. destruct old as [|x old]; [done|].
  change (replace_fuel (S (length s)) (x :: old) new s) with
    (match find (x :: old) s with
     | None => s | Some (b, a) => b ++ new ++ replace_fuel (length s) (x :: old) new a end).
  destruct (find _ s) as [[b a]|] eqn:E; [|done].
  pose proof (find_length _ s b a Hold E). do 2 f_equal.
  apply replace_fuel_enough; [done|lia|lia].
Qed.

Lemma py_replace_none (old new s : pystr) :
  old <> [] -> contains old s = false -> py_replace old new s = s.
Proof. intros Hold Hs. rewrite py_replace_unfold, find_None_contains; done. Qed.

(** Python's identity [s.replace(old, new) == new.join(s.split(old))]. *)
Lemma py_replace_join (old new s : pystr) :
  old <> [] -> py_split old s = Ok (split_fuel (S (length s)) old s) /\
  py_replace old new s = py_join new (split_fuel (S (length s)) old s).
Proof.
  intros Hold. split; [by destruct old|].
  remember (length s) as n eqn:Hn. revert s Hn.
  induction (lt_wf n) as [n _ IH]. intros s ->.
  rewrite py_replace_unfold, split_fuel_unfold by done.
  destruct (find old s) as [[b a]|] eqn:E; [|simpl; by rewrite app_nil_r].
  pose proof (find_length old s b a Hold E).
  rewrite (IH (length a)) by done.
  destruct (split_fuel (S (length a)) old a) as [|y l] eqn:Es;
    [by apply split_fuel_not_nil in Es|].
  by rewrite py_join_cons.
Qed.

(** ** Scanning past known text *)

(** A prefix [p] that lacks the first character of [sep] holds no
    occurrence of [sep], not even one that runs into the rest. *)
Lemma find_skip (sep p x : pystr) c :
  head sep = Some c -> c ∉ p ->
  find sep (p ++ x) =
    match find sep x with Some (b, a) => Some (p ++ b, a) | None => None end.
Proof.
  destruct sep as [|e sep]; [done|]. intros [= ->] Hp.
  induction p as [|d p IH]; simpl; [by destruct (find _ x) as [[]|]|].
  rewrite decide_False by (intros ->; apply Hp; left).
  rewrite IH by (intros Hin; apply Hp; by right).
  by destruct (find _ x) as [[]|].
Qed.

Lemma contains_skip (sep p x : pystr) c :
  head sep = Some c -> c ∉ p -> contains sep (p ++ x) = contains sep x.
Proof.
  intros Hh Hp. unfold contains. rewrite (find_skip sep p x c Hh Hp).
  by destruct (find sep x) as [[]|].
Qed.

Lemma contains_find (sep s b a : pystr) :
  find sep s = Some (b, a) -> contains sep s = true.
Proof. unfold contains. by intros ->. Qed.

Lemma replace_prefix (old new x : pystr) :
  old <> [] -> py_replace old new (old ++ x) = new ++ py_replace old new x.
Proof. intros Hold. by rewrite py_replace_unfold, find_prefix. Qed.

Lemma replace_skip (old new p x : pystr) c :
  old <> [] -> head old = Some c -> c ∉ p ->
  py_replace old new (p ++ x) = p ++ py_replace old new x.
Proof.
  intros Hold Hh Hp. rewrite (py_replace_unfold _ _ (p ++ x)), (find_skip _ _ _ c) by done.
  rewrite (py_replace_unfold _ _ x) by done.
  destruct (find old x) as [[b a]|]; [by rewrite <- !app_assoc | done].
Qed.

Lemma replace_barrier (old new b x : pystr) c :
  old <> [] -> c ∉ old -> contains old b = false ->
  py_replace old new (b ++ c :: x) = b ++ c :: py_replace old new x.
Proof.
  intros Hold Hc Hb. rewrite (py_replace_unfold _ _ (b ++ c :: x)), find_barrier by done.
  rewrite (py_replace_unfold _ _ x) by done.
  destruct (find old x) as [[y a]|]; [by rewrite <- !app_assoc | done].
Qed.

(** ** [strip] *)

Lemma lstrip_app (s t : pystr) :
  lstrip (s ++ t) = if decide (lstrip s = []) then lstrip t else lstrip s ++ t.
Proof.
  induction s as [|c s IH]; simpl; [done|].
  destruct (py_isspace c); [done|]. by rewrite decide_False.
Qed.

Lemma rstrip_snoc_space (s : pystr) c :
  py_isspace c = true -> rstrip (s ++ [c]) = rstrip s.
Proof. intros Hc. unfold rstrip. rewrite rev_unit. simpl. by rewrite Hc. Qed.

(** Trailing white space does not change [s.strip()]. *)
Lemma py_strip_snoc_space (s : pystr) c :
  py_isspace c = true -> py_strip (s ++ [c]) = py_strip s.
Proof.
  intros Hc. unfold py_strip. rewrite lstrip_app. case_decide as E.
  - rewrite E. simpl. by rewrite Hc.
  - by apply rstrip_snoc_space.
Qed.

Lemma lstrip_id (s : pystr) :
  (forall c r, s = c :: r -> py_isspace c = false) -> lstrip s = s.
Proof. destruct s as [|c r]; intros H; simpl; [done|]. by rewrite (H c r). Qed.

(** A string that starts and ends with a non-space is its own [strip()]. *)
Lemma py_strip_id (s : pystr) :
  (forall c r, s = c :: r -> py_isspace c = false) ->
  (forall c r, s = r ++ [c] -> py_isspace c = false) ->
  py_strip s = s.
Proof.
  intros Hh Hl. unfold py_strip, rstrip. rewrite (lstrip_id s Hh).
  rewrite lstrip_id; [apply rev_involutive|].
  intros c r E. apply (Hl c (rev r)).
  change (rev r ++ [c]) with (rev (c :: r)). by rewrite <- E, rev_involutive.
Qed.

(** ** Properties of [str.split] *)

(** [s.split(sep)] terminates: with a non-empty separator it returns
    a list, the one the loop gives with any fuel larger than the length of
    [s]; joined with [sep] its pieces give [s] back, and no piece contains
    [sep]. *)
Theorem py_split_terminates (sep s : pystr) :
  sep <> [] ->
  exists l, py_split sep s = Ok l /\ (forall f, length s < f -> split_fuel f sep s = l) /\
    py_join sep l = s /\ Forall (fun x => contains sep x = false) l.
Proof.
  intros Hsep. exists (split_fuel (S (length s)) sep s).
  split; [by destruct sep|]. split; [intros f Hf; apply split_fuel_enough; [done|lia..]|].
  by apply split_fuel_pieces.
Qed.

Lemma py_split_terminates_witness :
  exists l, py_split (lit "Treatment:") (lit "Severity: High Treatment: fungicide") = Ok l /\
    (forall f, length (lit "Severity: High Treatment: fungicide") < f ->
       split_fuel f (lit "Treatment:") (lit "Severity: High Treatment: fungicide") = l) /\
    py_join (lit "Treatment:") l = lit "Severity: High Treatment: fungicide" /\
    Forall (fun x => contains (lit "Treatment:") x = false) l.
Proof. apply py_split_terminates. discriminate. Defined.

End PyStr.
