(* ===== verification/Advisory.v ===== *)
(** * Advisory generation: [generate_gemini_content] (main.py, lines 237-284)

    The prompt built from the disease name, the call to the Gemini backend
    (through the interface [GenAI]), the parser of the three labelled
    sections of the answer, and the fallback to the three placeholder
    strings on every exception.  The theorems show what the parser returns
    on the template the prompt asks for (also with Markdown bold labels),
    that the function never raises, and what it returns on the answers
    that do not follow the template. *)

From stdpp Require Import base list strings.
From Stdlib Require Import Ascii String ZArith Lia.
From S2P Require Import Prelude PyStr.
Import PyStr.

(** ** The Gemini backend

    The module [google.generativeai] keeps one global setting the
    program changes, the API key [genai.configure(api_key=...)] records
    ([None] before the first call).  [genai.GenerativeModel(name)] makes a
    model handle under the configured key (or raises);
    [handle.generate_content(prompt).text] answers a prompt with a text,
    or raises (a network or API error, or the [ValueError] that [.text]
    raises on a blocked answer). *)
Definition genai_config : Type := option pystr.

(** [genai.configure(api_key=api_key)]: the key every later model uses. *)
Definition genai_configure (api_key : pystr) (_ : genai_config) : genai_config := Some api_key.

Class GenAI := {
  gen_model : Type;
  GenerativeModel : genai_config -> pystr -> res gen_model;
  generate_content : gen_model -> pystr -> res pystr
}.

Module Advisory.

#[local] Open Scope py_scope.

(** ** Constants of the source *)

Definition nl : ascii := "010"%char.
Definition dq : ascii := "034"%char.

Definition SEVERITY_FAIL : pystr := lit "Failed to generate severity.".
Definition TREATMENT_FAIL : pystr := lit "Failed to generate treatment advice.".
Definition PREVENTION_FAIL : pystr := lit "Failed to generate prevention tips.".

(** The tuple returned at lines 282-284. *)
Definition placeholders : pystr * pystr * pystr :=
  (SEVERITY_FAIL, TREATMENT_FAIL, PREVENTION_FAIL).

Definition SEVERITY_LABEL : pystr := lit "Severity:".
Definition TREATMENT_LABEL : pystr := lit "Treatment:".
Definition PREVENTION_LABEL : pystr := lit "Prevention:".
Definition BOLD : pystr := lit "**".

(** The lines of the f-string of lines 241-253 after the disease name. *)
Definition prompt_lines : list pystr :=
  [ lit ", provide:";
    lit "        ";
    lit "        1. SEVERITY: [Low/Medium/High] - Brief severity assessment";
    lit "        2. TREATMENT: Practical treatment recommendations (1 paragraph)";
    lit "        3. PREVENTION: Effective prevention tips (1 paragraph)";
    lit "        ";
    lit "        Use concise language suitable for home gardeners. Output exactly in this format:";
    lit "        ";
    lit "        Severity: [your severity assessment]";
    lit "        Treatment: [your treatment recommendations]";
    lit "        Prevention: [your prevention tips]";
    lit "        " ].

(** [prompt], the f-string of lines 241-253. *)
Definition build_prompt (disease_name : pystr) : pystr :=
  nl :: lit "        You are an expert plant pathologist. For the plant disease "
     ++ dq :: disease_name ++ dq :: py_join [nl] prompt_lines.

(** ** The parser (lines 263-278) *)

(** [response_text.split(label)[1].split(stop)[0].strip()] *)
Definition section_to (label stop text : pystr) : res pystr :=
  let! parts := py_split label text in
  let! rest := py_getitem parts 1 in
  let! pieces := py_split stop rest in
  let! piece := py_getitem pieces 0 in
  Ok (py_strip piece).

(** [response_text.split(label)[1].strip()] *)
Definition section_last (label text : pystr) : res pystr :=
  let! parts := py_split label text in
  let! rest := py_getitem parts 1 in
  Ok (py_strip rest).

(** Lines 271-278, on the text after the bold markers are removed. *)
Definition parse_sections (response_text : pystr) : res (pystr * pystr * pystr) :=
  let! severity :=
    if contains SEVERITY_LABEL response_text
    then section_to SEVERITY_LABEL [nl] response_text
    else Ok SEVERITY_FAIL in
  let! treatment :=
    if contains TREATMENT_LABEL response_text
    then section_to TREATMENT_LABEL PREVENTION_LABEL response_text
    else Ok TREATMENT_FAIL in
  let! prevention :=
    if contains PREVENTION_LABEL response_text
    then section_last PREVENTION_LABEL response_text
    else Ok PREVENTION_FAIL in
  Ok (severity, treatment, prevention).

(** Line 269: [response_text], the answer with every ["**"] removed. *)
Definition extract_sections (text : pystr) : res (pystr * pystr * pystr) :=
  parse_sections (py_replace BOLD [] text).

(** ** The whole function *)

Definition generate_gemini_content `{GenAI} (gemini_model : gen_model)
    (disease_name : pystr) : res (pystr * pystr * pystr) :=
  try_except
    (let! text := generate_content gemini_model (build_prompt disease_name) in
     if decide (text = []) then Raise (ValueError (lit "Empty response from Gemini"))
     else extract_sections text)
    (fun _ => Ok placeholders).

(** ** Texts the theorems talk about *)

(** A piece of answer with no label and no bold marker in it. *)
Definition plain (s : pystr) : bool :=
  negb (contains SEVERITY_LABEL s) && negb (contains TREATMENT_LABEL s)
  && negb (contains PREVENTION_LABEL s) && negb (contains BOLD s).

(** The answer the prompt asks for: ["Severity: A\nTreatment: B\nPrevention: C"]. *)
Definition template (a b c : pystr) : pystr :=
  SEVERITY_LABEL ++ a ++ nl :: TREATMENT_LABEL ++ b ++ nl :: PREVENTION_LABEL ++ c.

(** The same with the labels in Markdown bold, as Gemini often writes them. *)
Definition bold_template (a b c : pystr) : pystr :=
  BOLD ++ SEVERITY_LABEL ++ BOLD ++ a ++ nl ::
  BOLD ++ TREATMENT_LABEL ++ BOLD ++ b ++ nl ::
  BOLD ++ PREVENTION_LABEL ++ BOLD ++ c.

(** ** Lemmas on the sections *)

Lemma plain_spec (s : pystr) :
  plain s = true ->
  contains SEVERITY_LABEL s = false /\ contains TREATMENT_LABEL s = false /\
  contains PREVENTION_LABEL s = false /\ contains BOLD s = false.
Proof.
  unfold plain. intros H. repeat (apply andb_prop in H as [H ?]).
  repeat split; by apply negb_true_iff.
Qed.

Ltac plain_hyps :=
  repeat match goal with
  | H : plain ?s = true |- _ =>
      apply plain_spec in H as (? & ? & ? & ?)
  end.

(** Decide a membership of a character in a literal; a literal is not
    empty. *)
Ltac lit_decide := apply (bool_decide_unpack _); vm_compute; exact I.
Ltac use_plain :=
  repeat match goal with H : contains _ _ = false |- _ => rewrite H end;
  reflexivity.
Ltac use_plain_rewrite :=
  repeat match goal with H : contains _ _ = false |- _ => rewrite H end.
Ltac lit_ne := let H := fresh in intros H; vm_compute in H; discriminate H.
(** Push [contains sep] through literals and separators of an answer. *)
Ltac scan_contains :=
  repeat first
    [ rewrite contains_barrier by (lit_ne || lit_decide)
    | rewrite (contains_skip _ _ _ "S"%char) by (done || lit_decide)
    | rewrite (contains_skip _ _ _ "T"%char) by (done || lit_decide)
    | rewrite (contains_skip _ _ _ "P"%char) by (done || lit_decide)
    | rewrite (contains_skip _ _ _ "*"%char) by (done || lit_decide)
    | rewrite (contains_skip _ _ _ nl) by (done || lit_decide) ].

Lemma section_to_spec (label stop t b r : pystr) :
  label <> [] -> stop <> [] -> find label t = Some (b, r) ->
  section_to label stop t = Ok (py_strip (before stop (before label r))).
Proof.
  intros Hl Hs E. unfold section_to.
  rewrite (split_get1 label t b r) by done. by rewrite split_get0.
Qed.

Lemma section_last_spec (label t b r : pystr) :
  label <> [] -> find label t = Some (b, r) ->
  section_last label t = Ok (py_strip (before label r)).
Proof. intros Hl E. unfold section_last. by rewrite (split_get1 label t b r). Qed.

Lemma section_to_ok (label stop t : pystr) :
  label <> [] -> stop <> [] -> contains label t = true ->
  exists r, section_to label stop t = Ok r.
Proof.
  intros Hl Hs E. unfold contains in E.
  destruct (find label t) as [[b r]|] eqn:F; [|done].
  rewrite (section_to_spec label stop t b r) by done. eauto.
Qed.

Lemma section_last_ok (label t : pystr) :
  label <> [] -> contains label t = true -> exists r, section_last label t = Ok r.
Proof.
  intros Hl E. unfold contains in E.
  destruct (find label t) as [[b r]|] eqn:F; [|done].
  rewrite (section_last_spec label t b r) by done. eauto.
Qed.

(** When the three labels occur, each field is the text after the first
    occurrence of its label, cut as the code cuts it. *)
Lemma parse_sections_found (t b1 r1 b2 r2 b3 r3 : pystr) :
  find SEVERITY_LABEL t = Some (b1, r1) ->
  find TREATMENT_LABEL t = Some (b2, r2) ->
  find PREVENTION_LABEL t = Some (b3, r3) ->
  parse_sections t =
    Ok (py_strip (before [nl] (before SEVERITY_LABEL r1)),
        py_strip (before PREVENTION_LABEL (before TREATMENT_LABEL r2)),
        py_strip (before PREVENTION_LABEL r3)).
Proof.
  intros E1 E2 E3. unfold parse_sections.
  rewrite (contains_find _ _ _ _ E1), (contains_find _ _ _ _ E2),
    (contains_find _ _ _ _ E3).
  rewrite (section_to_spec SEVERITY_LABEL [nl] t b1 r1) by (exact E1 || lit_ne).
  rewrite (section_to_spec TREATMENT_LABEL PREVENTION_LABEL t b2 r2)
    by (exact E2 || lit_ne).
  by rewrite (section_last_spec PREVENTION_LABEL t b3 r3) by (exact E3 || lit_ne).
Qed.

Lemma template_find_severity (a b c : pystr) :
  find SEVERITY_LABEL (template a b c) =
    Some ([], a ++ nl :: TREATMENT_LABEL ++ b ++ nl :: PREVENTION_LABEL ++ c).
Proof. apply find_prefix. Qed.

Lemma template_find_treatment (a b c : pystr) :
  contains TREATMENT_LABEL a = false ->
  find TREATMENT_LABEL (template a b c) =
    Some (SEVERITY_LABEL ++ a ++ [nl], b ++ nl :: PREVENTION_LABEL ++ c).
Proof.
  intros Ha. unfold template.
  rewrite (find_skip _ _ _ "T"%char), find_barrier, find_prefix by (done || lit_ne || lit_decide).
  done.
Qed.

Lemma template_find_prevention (a b c : pystr) :
  contains PREVENTION_LABEL a = false -> contains PREVENTION_LABEL b = false ->
  exists p, find PREVENTION_LABEL (template a b c) = Some (p, c).
Proof.
  intros Ha Hb. unfold template.
  rewrite (find_skip _ _ _ "P"%char), find_barrier, (find_skip _ _ _ "P"%char),
    find_barrier, find_prefix by (done || lit_ne || lit_decide).
  eauto.
Qed.

Lemma template_no_bold (a b c : pystr) :
  contains BOLD a = false -> contains BOLD b = false -> contains BOLD c = false ->
  contains BOLD (template a b c) = false.
Proof.
  intros Ha Hb Hc. unfold template.
  rewrite (contains_skip _ _ _ "*"%char), contains_barrier,
    (contains_skip _ _ _ "*"%char), contains_barrier, (contains_skip _ _ _ "*"%char)
    by (done || lit_ne || lit_decide).
  by rewrite Ha, Hb, Hc.
Qed.

(** The parser on the template: the three texts, stripped. *)
Lemma parse_sections_template (a b c : pystr) :
  plain a = true -> plain b = true -> plain c = true -> nl ∉ a ->
  parse_sections (template a b c) = Ok (py_strip a, py_strip b, py_strip c).
Proof.
  intros Ha Hb Hc Hnl. plain_hyps.
  destruct (template_find_prevention a b c) as [p Ep]; [done..|].
  rewrite (parse_sections_found _ _ _ _ _ _ _ (template_find_severity a b c)
             (template_find_treatment a b c ltac:(assumption)) Ep).
  rewrite (before_none SEVERITY_LABEL).
  2: { rewrite contains_barrier, (contains_skip _ _ _ "S"%char), contains_barrier,
         (contains_skip _ _ _ "S"%char) by (done || lit_ne || lit_decide).
       use_plain. }
  rewrite (before_none TREATMENT_LABEL).
  2: { rewrite contains_barrier, (contains_skip _ _ _ "T"%char)
         by (done || lit_ne || lit_decide). use_plain. }
  rewrite (before_none PREVENTION_LABEL c) by done.
  unfold before. rewrite find_char by done.
  rewrite find_barrier, find_prefix by (done || lit_ne || lit_decide).
  by rewrite py_strip_snoc_space.
Qed.

Lemma extract_sections_template (a b c : pystr) :
  plain a = true -> plain b = true -> plain c = true -> nl ∉ a ->
  extract_sections (template a b c) = Ok (py_strip a, py_strip b, py_strip c).
Proof.
  intros Ha Hb Hc Hnl. unfold extract_sections.
  rewrite py_replace_none;
    [by apply parse_sections_template | lit_ne |].
  plain_hyps. by apply template_no_bold.
Qed.

(** Removing the bold markers of [bold_template] gives [template]. *)
Lemma bold_template_replace (a b c : pystr) :
  plain a = true -> plain b = true -> plain c = true ->
  py_replace BOLD [] (bold_template a b c) = template a b c.
Proof.
  intros Ha Hb Hc. plain_hyps. unfold bold_template, template.
  repeat first
    [ rewrite replace_prefix by lit_ne
    | rewrite (replace_skip _ _ _ _ "*"%char) by (lit_ne || done || lit_decide)
    | rewrite replace_barrier by (lit_ne || done || lit_decide) ].
  by rewrite py_replace_none by (lit_ne || done).
Qed.

(** Labels written in Markdown bold, ["**Severity:** A"] and so on,
    are parsed as the plain ones: the bold markers are removed first. *)
Lemma extract_sections_bold (a b c : pystr) :
  plain a = true -> plain b = true -> plain c = true -> nl ∉ a ->
  extract_sections (bold_template a b c) = Ok (py_strip a, py_strip b, py_strip c).
Proof.
  intros Ha Hb Hc Hnl. unfold extract_sections.
  rewrite bold_template_replace by done. by apply parse_sections_template.
Qed.

Lemma template_nonempty (a b c : pystr) : template a b c <> [].
Proof. unfold template. lit_ne. Qed.

(** A backend that gives the same answer to every prompt. *)
Definition fixed_backend (answer : res pystr) : GenAI :=
  {| gen_model := unit; GenerativeModel := fun _ _ => Ok tt;
     generate_content := fun _ _ => answer |}.

(** ** Properties of [generate_gemini_content] *)

(** C22. When the backend answers in the format the prompt asks for,
    ["Severity: A\nTreatment: B\nPrevention: C"], or in the same format
    with the labels in Markdown bold (["**Severity:** A"] and so on), with
    no label, bold marker or (in A) newline inside the three texts, the
    function returns exactly the three texts with their surrounding white
    space removed. *)
Theorem generate_gemini_content_template `{GenAI} (gm : gen_model)
    (disease a b c : pystr) :
  generate_content gm (build_prompt disease) = Ok (template a b c) \/
  generate_content gm (build_prompt disease) = Ok (bold_template a b c) ->
  plain a = true -> plain b = true -> plain c = true -> nl ∉ a ->
  generate_gemini_content gm disease = Ok (py_strip a, py_strip b, py_strip c).
Proof.
  intros Hgen Ha Hb Hc Hnl. unfold generate_gemini_content.
  destruct Hgen as [Hgen|Hgen]; rewrite Hgen; cbn [res_bind].
  - rewrite decide_False by apply template_nonempty. by rewrite extract_sections_template.
  - rewrite decide_False by (unfold bold_template; lit_ne). by rewrite extract_sections_bold.
Qed.

Lemma generate_gemini_content_template_witness :
  @generate_gemini_content
    (fixed_backend (Ok (template (lit " High") (lit " Spray copper.") (lit " Rotate crops."))))
    tt (lit "Tomato___Late_blight") =
  Ok (py_strip (lit " High"), py_strip (lit " Spray copper."), py_strip (lit " Rotate crops.")).
Proof.
  apply (@generate_gemini_content_template (fixed_backend _) tt);
    [left; reflexivity | vm_compute; reflexivity.. | lit_decide].
Defined.

(** C23. [generate_gemini_content] never raises: whatever the backend
    does, it returns a triple of strings. *)
Theorem generate_gemini_content_total `{GenAI} (gm : gen_model) (disease : pystr) :
  exists r, generate_gemini_content gm disease = Ok r.
Proof.
  unfold generate_gemini_content.
  destruct (res_bind _ _) as [r|e]; simpl; eauto.
Qed.

(** When the backend raises, or answers with an empty text, the
    function returns the three placeholder strings. *)
Theorem generate_gemini_content_failure `{GenAI} (gm : gen_model) (disease : pystr) :
  (exists e, generate_content gm (build_prompt disease) = Raise e) \/
  generate_content gm (build_prompt disease) = Ok [] ->
  generate_gemini_content gm disease = Ok placeholders.
Proof.
  unfold generate_gemini_content. intros [[e He] | He]; rewrite He; reflexivity.
Qed.

Lemma generate_gemini_content_failure_witness :
  @generate_gemini_content (fixed_backend (Raise (LibError (lit "429 quota exceeded"))))
    tt (lit "Apple___Apple_scab") = Ok placeholders.
Proof.
  apply (@generate_gemini_content_failure (fixed_backend _) tt).
  left. eexists. reflexivity.
Defined.

(** C24. An answer on one line, ["Severity: A Treatment: B Prevention: C"],
    puts everything after ["Severity:"] into the severity: the code cuts
    the severity at the end of the line, not at the next label.  The
    treatment and the prevention are still B and C. *)
Theorem extract_sections_one_line (a b c : pystr) :
  plain a = true -> plain b = true -> plain c = true ->
  nl ∉ a -> nl ∉ b -> nl ∉ c ->
  extract_sections
    (SEVERITY_LABEL ++ a ++ " "%char :: TREATMENT_LABEL ++ b ++ " "%char ::
     PREVENTION_LABEL ++ c) =
  Ok (py_strip (a ++ " "%char :: TREATMENT_LABEL ++ b ++ " "%char :: PREVENTION_LABEL ++ c),
      py_strip b, py_strip c).
Proof.
  intros Ha Hb Hc Hna Hnb Hnc. plain_hyps.
  apply contains_char in Hna, Hnb, Hnc. unfold extract_sections.
  rewrite (py_replace_none BOLD); [| lit_ne |].
  2: { rewrite (contains_skip _ _ _ "*"%char), contains_barrier,
         (contains_skip _ _ _ "*"%char), contains_barrier, (contains_skip _ _ _ "*"%char)
         by (done || lit_ne || lit_decide). use_plain. }
  rewrite (parse_sections_found _ []
             (a ++ " "%char :: TREATMENT_LABEL ++ b ++ " "%char :: PREVENTION_LABEL ++ c)
             (SEVERITY_LABEL ++ a ++ [" "%char]) (b ++ " "%char :: PREVENTION_LABEL ++ c)
             (SEVERITY_LABEL ++ a ++ " "%char :: TREATMENT_LABEL ++ b ++ [" "%char]) c).
  - rewrite (before_none SEVERITY_LABEL), (before_none [nl]),
      (before_none TREATMENT_LABEL), (before_none PREVENTION_LABEL c).
    1: { unfold before. rewrite find_barrier, find_prefix by (done || lit_ne || lit_decide).
         by rewrite py_strip_snoc_space. }
    all: scan_contains; use_plain.
  - apply find_prefix.
  - rewrite (find_skip _ _ _ "T"%char), find_barrier, find_prefix
      by (done || lit_ne || lit_decide). done.
  - rewrite (find_skip _ _ _ "P"%char), find_barrier, (find_skip _ _ _ "P"%char),
      find_barrier, find_prefix by (done || lit_ne || lit_decide). done.
Qed.

Lemma extract_sections_one_line_witness :
  extract_sections
    (SEVERITY_LABEL ++ lit " High." ++ " "%char :: TREATMENT_LABEL ++ lit " Spray." ++ " "%char ::
     PREVENTION_LABEL ++ lit " Rotate.") =
  Ok (py_strip (lit " High." ++ " "%char :: TREATMENT_LABEL ++ lit " Spray." ++ " "%char ::
                PREVENTION_LABEL ++ lit " Rotate."),
      py_strip (lit " Spray."), py_strip (lit " Rotate.")).
Proof. apply extract_sections_one_line; first [lit_decide | vm_compute; reflexivity]. Defined.

(** C25. The fields fall back one by one: an answer with a ["Severity:"]
    line and neither of the two other labels gives the parsed severity
    with the treatment and prevention placeholders, not the three
    placeholders. *)
Theorem extract_sections_partial (a : pystr) :
  plain a = true ->
  extract_sections (SEVERITY_LABEL ++ a) =
    Ok (py_strip (before [nl] a), TREATMENT_FAIL, PREVENTION_FAIL).
Proof.
  intros Ha. plain_hyps. unfold extract_sections.
  rewrite (py_replace_none BOLD); [| lit_ne | scan_contains; use_plain].
  unfold parse_sections. rewrite contains_prefix.
  rewrite (section_to_spec SEVERITY_LABEL [nl] _ [] a) by (apply find_prefix || lit_ne).
  rewrite (before_none SEVERITY_LABEL a) by done.
  cbn [res_bind].
  replace (contains TREATMENT_LABEL (SEVERITY_LABEL ++ a)) with false
    by (symmetry; scan_contains; use_plain).
  replace (contains PREVENTION_LABEL (SEVERITY_LABEL ++ a)) with false
    by (symmetry; scan_contains; use_plain).
  reflexivity.
Qed.

Lemma extract_sections_partial_witness :
  extract_sections (SEVERITY_LABEL ++ lit " Medium") =
    Ok (py_strip (before [nl] (lit " Medium")), TREATMENT_FAIL, PREVENTION_FAIL).
Proof. apply extract_sections_partial. vm_compute. reflexivity. Defined.

(** An answer with none of the three labels (after the bold markers
    are removed) gives the three placeholders. *)
Theorem extract_sections_no_label (t : pystr) :
  plain t = true -> extract_sections t = Ok placeholders.
Proof.
  intros Ht. plain_hyps. unfold extract_sections.
  rewrite (py_replace_none BOLD) by (lit_ne || done).
  unfold parse_sections. use_plain_rewrite. reflexivity.
Qed.

Lemma extract_sections_no_label_witness :
  extract_sections (lit "I cannot identify this disease.") = Ok placeholders.
Proof. apply extract_sections_no_label. vm_compute. reflexivity. Defined.

(** The parser never raises: every [split(label)[1]] runs only after
    [label in response_text] has held, so the list has a second item. *)
Theorem extract_sections_total (t : pystr) :
  exists r, extract_sections t = Ok r.
Proof.
  unfold extract_sections, parse_sections.
  set (rt := py_replace BOLD [] t).
  destruct (contains SEVERITY_LABEL rt) eqn:E1;
    [destruct (section_to_ok SEVERITY_LABEL [nl] rt ltac:(lit_ne) ltac:(lit_ne) E1)
       as [x1 ->] |];
  cbn [res_bind];
  (destruct (contains TREATMENT_LABEL rt) eqn:E2;
    [destruct (section_to_ok TREATMENT_LABEL PREVENTION_LABEL rt ltac:(lit_ne)
                 ltac:(lit_ne) E2) as [x2 ->] |]);
  cbn [res_bind];
  (destruct (contains PREVENTION_LABEL rt) eqn:E3;
    [destruct (section_last_ok PREVENTION_LABEL rt ltac:(lit_ne) E3) as [x3 ->] |]);
  cbn [res_bind]; eauto.
Qed.

End Advisory.
