(* ===== verification/GeminiConfig.v ===== *)
(** * Gemini configuration: [configure_gemini] (main.py, lines 111-166)

    The handler loads the first [.env.local] that exists with
    python-dotenv, reads [GEMINI_API_KEY], and tries four model names in
    order, keeping the first whose answer to ["What is 2+2?"] is a
    non-empty text containing ["4"].  Every failure is caught and leaves
    [app.state.gemini_model = None]: the handler never raises.
    [load_dotenv] is modelled with its default [override=False]: the
    file is read into a dict, where a later assignment of a key wins, and
    a variable already in the environment keeps its value.
    [genai.configure(api_key=...)] sets the library's global key
    ([genai_configure]), under which every model of the search is built. *)

From stdpp Require Import base list gmap strings.
From Stdlib Require Import Ascii ZArith Lia.
From S2P Require Import Prelude PyStr Advisory.
Import PyStr.

Module GeminiConfig.

#[local] Open Scope py_scope.

(** What the handler reads: [os.environ], and for a path whether it
    exists and the assignments python-dotenv parses from it. *)
Record world := {
  environ : gmap pystr pystr;
  env_file : pystr -> option (list (pystr * pystr))
}.

Definition ENV_PATHS : list pystr := [lit ".env.local"; lit "../.env.local"].
Definition GEMINI_API_KEY : pystr := lit "GEMINI_API_KEY".
Definition TEST_PROMPT : pystr := lit "What is 2+2?".

Definition MODEL_NAMES : list pystr :=
  [lit "gemini-1.5-flash-latest"; lit "gemini-1.5-pro-latest";
   lit "gemini-pro"; lit "models/gemini-pro"].

(** Lines 122-127: the first path that exists. *)
Fixpoint first_env_file (files : pystr -> option (list (pystr * pystr)))
    (paths : list pystr) : option (list (pystr * pystr)) :=
  match paths with
  | [] => None
  | p :: ps => match files p with Some kv => Some kv | None => first_env_file files ps end
  end.

(** python-dotenv's [DotEnv.dict()]: the assignments of the file as a
    dict, in which a later assignment of a key overwrites an earlier one
    (stdpp's [list_to_map] keeps the first binding, hence the [rev]). *)
Definition dotenv_dict (kv : list (pystr * pystr)) : gmap pystr pystr :=
  list_to_map (rev kv).

(** [load_dotenv(dotenv_path=path)] with its default [override=False]:
    [set_as_environment_variables] skips every key already in
    [os.environ] and sets the others, which is the union biased towards
    the environment.  Variable interpolation ([${VAR}]) is not modelled. *)
Definition load_dotenv (kv : list (pystr * pystr)) (env : gmap pystr pystr)
    : gmap pystr pystr :=
  env ∪ dotenv_dict kv.

(** Line 152: [test_response.text and "4" in test_response.text]. *)
Definition accepts (answer : res pystr) : bool :=
  match answer with
  | Ok text => negb (bool_decide (text = [])) && contains (lit "4") text
  | Raise _ => false
  end.

(** Lines 147-159: the first model name that builds and passes the test. *)
Fixpoint try_models `{GenAI} (cfg : genai_config) (names : list pystr) : option gen_model :=
  match names with
  | [] => None
  | name :: names' =>
      match GenerativeModel cfg name with
      | Ok model =>
          if accepts (generate_content model TEST_PROMPT) then Some model
          else try_models cfg names'
      | Raise _ => try_models cfg names'
      end
  end.

(** Lines 116-130: the environment after the [.env.local] file is loaded. *)
Definition loaded_environ (w : world) : gmap pystr pystr :=
  match first_env_file (env_file w) ENV_PATHS with
  | Some kv => load_dotenv kv (environ w)
  | None => environ w
  end.

(** The whole handler: the new environment and [app.state.gemini_model].
    The library starts unconfigured; line 136 configures it with the key. *)
Definition configure_gemini `{GenAI} (w : world) : gmap pystr pystr * option gen_model :=
  let env := loaded_environ w in
  let outcome :=
    match env !! GEMINI_API_KEY with
    | None | Some [] => Raise (ValueError (lit "GEMINI_API_KEY not found in environment"))
    | Some api_key =>
        let cfg := genai_configure api_key None in
        match try_models cfg MODEL_NAMES with
        | Some model => Ok (Some model)
        | None => Raise (RuntimeError (lit "All Gemini models failed to initialize"))
        end
    end in
  match try_except outcome (fun _ => Ok None) with
  | Ok gm => (env, gm)
  | Raise _ => (env, None)
  end.

(** ** The model search *)

(** A model name the search skips: it does not build, or its answer to
    the test prompt is rejected. *)
Definition rejected `{GenAI} (cfg : genai_config) (name : pystr) : Prop :=
  match GenerativeModel cfg name with
  | Ok model => accepts (generate_content model TEST_PROMPT) = false
  | Raise _ => True
  end.

(** The abstract contract: the bound model is the first one accepted
    under the configuration [cfg]. *)
Definition first_accepted `{GenAI} (cfg : genai_config) (names : list pystr)
    (model : gen_model) : Prop :=
  exists pre name post, names = pre ++ name :: post /\ Forall (rejected cfg) pre /\
    GenerativeModel cfg name = Ok model /\ accepts (generate_content model TEST_PROMPT) = true.

Lemma try_models_spec `{GenAI} (cfg : genai_config) (names : list pystr) (model : gen_model) :
  try_models cfg names = Some model <-> first_accepted cfg names model.
Proof.
  unfold first_accepted. induction names as [|n names IH]; simpl.
  - split; [done|]. intros (pre & ? & ? & E & _). by destruct pre.
  - assert (Hskip : rejected cfg n -> (try_models cfg names = Some model <->
                    exists pre name post, n :: names = pre ++ name :: post /\
                      Forall (rejected cfg) pre /\ GenerativeModel cfg name = Ok model /\
                      accepts (generate_content model TEST_PROMPT) = true)).
    { intros Hr. rewrite IH. split.
      - intros (pre & name & post & -> & Hpre & Hm & Ha). exists (n :: pre), name, post.
        repeat split; try done. by constructor.
      - intros ([|p pre] & name & post & E & Hpre & Hm & Ha); simpl in E; injection E as <- E.
        + unfold rejected in Hr. rewrite Hm, Ha in Hr. done.
        + inversion Hpre; subst. exists pre, name, post. by repeat split. }
    destruct (GenerativeModel cfg n) as [m|e] eqn:Hn.
    + destruct (accepts (generate_content m TEST_PROMPT)) eqn:Ha.
      * split.
        -- intros [= <-]. exists [], n, names. by repeat split.
        -- intros ([|p pre] & name & post & E & Hpre & Hm & Ha'); simpl in E;
             injection E as <- E; [congruence|].
           inversion Hpre as [|? ? Hr _]; subst. unfold rejected in Hr.
           rewrite Hn, Ha in Hr. done.
      * apply Hskip. unfold rejected. by rewrite Hn.
    + apply Hskip. unfold rejected. by rewrite Hn.
Qed.

(** ** The environment *)

(** The value python-dotenv reads for [k], independently of the dict:
    the value of its last assignment in the file. *)
Fixpoint dotenv_last (k : pystr) (kv : list (pystr * pystr)) : option pystr :=
  match kv with
  | [] => None
  | (k', v) :: kv' =>
      match dotenv_last k kv' with
      | Some w => Some w
      | None => if decide (k' = k) then Some v else None
      end
  end.

Lemma dotenv_dict_lookup (kv : list (pystr * pystr)) (k : pystr) :
  dotenv_dict kv !! k = dotenv_last k kv.
Proof.
  unfold dotenv_dict. induction kv as [|[k' v] kv IH]; [done|].
  cbn [rev dotenv_last]. rewrite list_to_map_app, lookup_union, IH. cbn [list_to_map foldr].
  cbn [fst snd]. rewrite lookup_insert, lookup_empty.
  destruct (dotenv_last k kv); case_decide; reflexivity.
Qed.

Lemma load_dotenv_lookup (kv : list (pystr * pystr)) (env : gmap pystr pystr) (k : pystr) :
  load_dotenv kv env !! k =
    match env !! k with Some v => Some v | None => dotenv_last k kv end.
Proof.
  unfold load_dotenv. rewrite lookup_union, dotenv_dict_lookup.
  by destruct (env !! k), (dotenv_last k kv).
Qed.

(** ** Properties of [configure_gemini] *)

(** The handler's result, without its [try]. *)
Lemma configure_gemini_unfold `{GenAI} (w : world) :
  configure_gemini w =
    (loaded_environ w,
     match loaded_environ w !! GEMINI_API_KEY with
     | None | Some [] => None
     | Some api_key => try_models (genai_configure api_key None) MODEL_NAMES
     end).
Proof.
  unfold configure_gemini. cbn zeta.
  destruct (loaded_environ w !! GEMINI_API_KEY) as [[|c key]|]; [done| |done].
  by destruct (try_models _ MODEL_NAMES).
Qed.

(** C33. The handler binds a model exactly when the API key it ends up
    with is set and not empty and some model name is accepted with the
    library configured with that key; the bound model is then the first
    accepted one, in the order of the list. *)
Theorem configure_gemini_first `{GenAI} (w : world) (model : gen_model) :
  (configure_gemini w).2 = Some model <->
  exists key, (configure_gemini w).1 !! GEMINI_API_KEY = Some key /\ key <> [] /\
    first_accepted (Some key) MODEL_NAMES model.
Proof.
  rewrite configure_gemini_unfold. cbn [fst snd].
  destruct (loaded_environ w !! GEMINI_API_KEY) as [[|c key]|] eqn:Ek.
  - split; [done|]. by intros (k & [= <-] & Hne & _).
  - rewrite (try_models_spec _ MODEL_NAMES model). split.
    + intros Hm. by exists (c :: key).
    + by intros (k & [= <-] & _ & Hm).
  - split; [done|]. by intros (k & ? & _).
Qed.

(** C34. The environment the handler ends up with: a variable already in
    [os.environ] keeps its value; otherwise it takes the value of its last
    assignment in the first of [.env.local] and [../.env.local] that
    exists, and the other file is not read. *)
Theorem configure_gemini_env `{GenAI} (w : world) (k : pystr) :
  (configure_gemini w).1 !! k =
    match environ w !! k with
    | Some v => Some v
    | None =>
        match first_env_file (env_file w) ENV_PATHS with
        | Some kv => dotenv_last k kv
        | None => None
        end
    end.
Proof.
  rewrite configure_gemini_unfold. cbn [fst]. unfold loaded_environ.
  destruct (first_env_file (env_file w) ENV_PATHS) as [kv|]; [apply load_dotenv_lookup|].
  by destruct (environ w !! k).
Qed.

End GeminiConfig.
