(* ===== verification/ClassIndex.v ===== *)
(** * The class table: [load_class_mapping] (main.py, lines 52-71)

    [class_names.json] is read with [json.load] into a JSON value; a list
    becomes [{i: name for i, name in enumerate(class_data)}], an object
    becomes [{int(k): v for k, v in class_data.items()}], anything else
    raises [ValueError]; every exception is turned into
    [RuntimeError("Could not load class names")], which aborts startup.
    The table is a [gmap Z json]: the code checks neither that the values
    are strings nor that the keys are [0..N-1].  Python's [int(str)] is
    modelled in full for the code points 0-255 (white space, sign, digits
    and single underscores between digits), with [str(int)] and their
    round trip. *)

From stdpp Require Import base list gmap strings.
From Stdlib Require Import Ascii ZArith Lia.
From S2P Require Import Prelude PyStr.
Import PyStr.

(** ** JSON values, as [json.load] returns them *)

(** An object is the list of its items in the order of the file (the
    order of [dict.items()]). *)
Inductive json :=
  | JNull
  | JBool (b : bool)
  | JNum (n : Z)
  | JStr (s : pystr)
  | JList (l : list json)
  | JDict (kv : list (pystr * json)).

Module ClassIndex.

#[local] Open Scope py_scope.

(** ** Python [int(s)] and [str(n)] *)

Definition digit_val (c : ascii) : option Z :=
  let n := nat_of_ascii c in
  if (48 <=? n) && (n <=? 57) then Some (Z.of_nat (n - 48)) else None.

(** The digits of a base-10 literal; [prev] says that the last character
    read was a digit, which an underscore and the end both require. *)
Fixpoint parse_digits (s : pystr) (acc : Z) (prev : bool) : option Z :=
  match s with
  | [] => if prev then Some acc else None
  | c :: s' =>
      match digit_val c with
      | Some d => parse_digits s' (acc * 10 + d) true
      | None =>
          if bool_decide (c = "_"%char) && prev then parse_digits s' acc false
          else None
      end
  end.

(** [int(s)]: white space around, then an optional sign, then digits. *)
Definition py_int (s : pystr) : res Z :=
  let t := py_strip s in
  let '(neg, body) :=
    match t with
    | c :: r =>
        if decide (c = "-"%char) then (true, r)
        else if decide (c = "+"%char) then (false, r) else (false, t)
    | [] => (false, t)
    end in
  match parse_digits body 0 false with
  | Some n => Ok (if neg then (- n)%Z else n)
  | None => Raise (ValueError (lit "invalid literal for int() with base 10"))
  end.

Definition digit_char (d : nat) : ascii := ascii_of_nat (48 + d).

Fixpoint nat_digits_fuel (fuel n : nat) : pystr :=
  match fuel with
  | 0 => []
  | S f =>
      (if n <? 10 then [] else nat_digits_fuel f (n / 10)) ++ [digit_char (n mod 10)]
  end.

(** [str(n)] *)
Definition py_str_Z (z : Z) : pystr :=
  let n := Z.to_nat (Z.abs z) in
  (if (z <? 0)%Z then ["-"%char] else []) ++ nat_digits_fuel (S n) n.

(** ** The loader *)

Definition CLASS_LOAD_ERROR : exc := RuntimeError (lit "Could not load class names").

(** [{i: name for i, name in enumerate(class_data)}], inserting in order. *)
Fixpoint enumerate_into (i : Z) (l : list json) (m : gmap Z json) : gmap Z json :=
  match l with
  | [] => m
  | x :: l' => enumerate_into (i + 1) l' (<[i := x]> m)
  end.

(** [{int(k): v for k, v in class_data.items()}]: a later key with the
    same integer value overwrites an earlier one. *)
Fixpoint int_keys_into (kv : list (pystr * json)) (m : gmap Z json)
    : res (gmap Z json) :=
  match kv with
  | [] => Ok m
  | (k, v) :: kv' => let! i := py_int k in int_keys_into kv' (<[i := v]> m)
  end.

(** [class_data] is the outcome of [open] and [json.load]: a JSON value,
    or the exception they raise (missing file, invalid JSON). *)
Definition load_class_mapping (class_data : res json) : res (gmap Z json) :=
  try_except
    (let! data := class_data in
     match data with
     | JList l => Ok (enumerate_into 0 l ∅)
     | JDict kv => int_keys_into kv ∅
     | _ => Raise (ValueError (lit "Invalid class names format"))
     end)
    (fun _ => Raise CLASS_LOAD_ERROR).

(** ** The list form *)

Lemma enumerate_into_lookup (l : list json) (i k : Z) (m : gmap Z json) :
  enumerate_into i l m !! k =
    if decide (i <= k < i + Z.of_nat (length l))%Z then l !! Z.to_nat (k - i)
    else m !! k.
Proof.
  revert i m. induction l as [|x l IH]; intros i m; simpl.
  - by rewrite decide_False by lia.
  - rewrite IH, lookup_insert. simpl length.
    repeat case_decide; try lia.
    + replace (Z.to_nat (k - i)) with (S (Z.to_nat (k - (i + 1)))) by lia. done.
    + subst k. by rewrite Z.sub_diag.
    + done.
Qed.

Lemma enumerate_into_size (l : list json) (i : Z) (m : gmap Z json) :
  (forall k, is_Some (m !! k) -> (k < i)%Z) ->
  size (enumerate_into i l m) = size m + length l.
Proof.
  revert i m. induction l as [|x l IH]; intros i m Hm; simpl; [lia|].
  rewrite IH.
  - rewrite map_size_insert_None; [lia|].
    destruct (m !! i) eqn:E; [|done]. specialize (Hm i ltac:(eauto)). lia.
  - intros k [v Hv]. rewrite lookup_insert in Hv. case_decide; [lia|].
    specialize (Hm k ltac:(eauto)). lia.
Qed.

(** ** [int(str(z)) = z] *)

Definition digits_value (acc : Z) (ds : pystr) : Z :=
  fold_left (fun a c => match digit_val c with Some d => a * 10 + d | None => a end)%Z ds acc.

Lemma digit_val_char (d : nat) : d < 10 -> digit_val (digit_char d) = Some (Z.of_nat d).
Proof.
  intros Hd. unfold digit_val, digit_char.
  rewrite nat_ascii_embedding by lia.
  replace ((48 <=? 48 + d) && (48 + d <=? 57)) with true
    by (symmetry; apply andb_true_iff; split; apply Nat.leb_le; lia).
  do 2 f_equal. lia.
Qed.

Definition is_digit (c : ascii) : Prop := exists d, digit_val c = Some d.

Lemma parse_digits_app (ds rest : pystr) (acc : Z) (prev : bool) :
  Forall is_digit ds ->
  parse_digits (ds ++ rest) acc prev =
    parse_digits rest (digits_value acc ds) (if ds is [] then prev else true).
Proof.
  revert acc prev. induction ds as [|c ds IH]; intros acc prev Hds; [done|].
  inversion Hds as [|? ? [d Hd] Hds']; subst. cbn [app parse_digits].
  rewrite Hd, IH by done. unfold digits_value. cbn [fold_left].
  rewrite Hd. by destruct ds.
Qed.

Lemma nat_digits_spec (f n : nat) :
  n < f -> nat_digits_fuel f n <> [] /\ Forall is_digit (nat_digits_fuel f n) /\
  digits_value 0 (nat_digits_fuel f n) = Z.of_nat n.
Proof.
  revert n. induction f as [|f IH]; intros n Hn; [lia|]. cbn [nat_digits_fuel].
  assert (Hdig : digit_val (digit_char (n mod 10)) = Some (Z.of_nat (n mod 10)))
    by (apply digit_val_char, Nat.mod_upper_bound; lia).
  assert (Hd : Forall is_digit [digit_char (n mod 10)])
    by (constructor; [eexists; exact Hdig | constructor]).
  split; [intros Hnil; apply app_eq_nil in Hnil as [_ Hnil]; discriminate Hnil|].
  destruct (Nat.ltb_spec n 10) as [Hlt|Hge].
  - split; [done|]. unfold digits_value. cbn [app fold_left]. rewrite Hdig.
    rewrite Nat.mod_small by done. lia.
  - destruct (IH (n / 10)) as (_ & Hall & Hval); [apply Nat.Div0.div_lt_upper_bound; lia|].
    split; [by apply Forall_app|].
    unfold digits_value in *. rewrite fold_left_app, Hval. cbn [fold_left]. rewrite Hdig.
    pose proof (Nat.div_mod n 10 ltac:(lia)). lia.
Qed.

Lemma digit_not_space (c : ascii) : is_digit c -> py_isspace c = false.
Proof.
  intros [d Hd]. unfold digit_val in Hd. unfold py_isspace.
  destruct ((48 <=? nat_of_ascii c) && (nat_of_ascii c <=? 57)) eqn:E; [|done].
  apply andb_true_iff in E as [E1 E2]. apply Nat.leb_le in E1, E2.
  repeat match goal with |- context [?a <=? ?b] => destruct (Nat.leb_spec a b) end;
  repeat match goal with |- context [?a =? ?b] => destruct (Nat.eqb_spec a b) end;
  simpl; lia.
Qed.

Lemma nat_digits_last (n : nat) :
  exists r, nat_digits_fuel (S n) n = r ++ [digit_char (n mod 10)].
Proof. eexists. reflexivity. Qed.

(** [str] then [int] gives back the integer. *)
Lemma py_int_str (z : Z) : py_int (py_str_Z z) = Ok z.
Proof.
  unfold py_int, py_str_Z. set (n := Z.to_nat (Z.abs z)).
  destruct (nat_digits_spec (S n) n ltac:(lia)) as (Hne & Hall & Hval).
  destruct (nat_digits_last n) as [r Er].
  set (D := nat_digits_fuel (S n) n) in *.
  assert (Hlast : forall c r', D = r' ++ [c] -> py_isspace c = false).
  { intros c r' E. rewrite E in Hall. apply Forall_app in Hall as [_ Hc].
    inversion Hc. by apply digit_not_space. }
  destruct D as [|c0 D'] eqn:ED; [done|].
  inversion Hall as [|? ? Hc0 _]; subst.
  assert (Hneq : forall c, is_digit c -> c <> "-"%char /\ c <> "+"%char)
    by (intros c [d Hd]; split; intros ->; discriminate Hd).
  rewrite py_strip_id.
  2: { intros c r' E. destruct (z <? 0)%Z; simpl in E; injection E as <- _;
       [done | by apply digit_not_space]. }
  2: { intros c r' E. destruct (z <? 0)%Z; simpl in E.
       - destruct r' as [|x r']; [discriminate E|]. injection E as _ E.
         by apply (Hlast c r').
       - by apply (Hlast c r'). }
  assert (Hp : parse_digits (c0 :: D') 0 false = Some (Z.of_nat n)).
  { rewrite <- (app_nil_r (c0 :: D')), parse_digits_app by done.
    cbn [parse_digits]. by rewrite Hval. }
  destruct (Z.ltb_spec z 0) as [Hz|Hz]; cbn [app].
  - rewrite decide_True by done. rewrite Hp. f_equal. lia.
  - destruct (Hneq c0 Hc0) as [H1 H2]. rewrite !decide_False by done.
    rewrite Hp. f_equal. lia.
Qed.

(** ** The object form *)

(** [int(k) == z]: the key [k] denotes the index [z]. *)
Definition denotes (k : pystr) (z : Z) : bool :=
  match py_int k with Ok z' => bool_decide (z' = z) | Raise _ => false end.

(** The abstract meaning of the comprehension of line 63: index [z] is
    bound to the value of the last item whose key denotes [z]. *)
Fixpoint last_value (z : Z) (kv : list (pystr * json)) : option json :=
  match kv with
  | [] => None
  | (k, v) :: kv' =>
      match last_value z kv' with
      | Some w => Some w
      | None => if denotes k z then Some v else None
      end
  end.

(** [int(k)] raises on a key. *)
Definition bad_key (k : pystr) : bool :=
  match py_int k with Ok _ => false | Raise _ => true end.

Lemma int_keys_into_spec (kv : list (pystr * json)) (acc m : gmap Z json) :
  int_keys_into kv acc = Ok m ->
  forall z, m !! z = match last_value z kv with Some w => Some w | None => acc !! z end.
Proof.
  revert acc. induction kv as [|[k v] kv IH]; intros acc H z; simpl in *.
  - by injection H as ->.
  - unfold denotes. destruct (py_int k) as [i|e]; [|done]. simpl in H.
    rewrite (IH _ H z). destruct (last_value z kv); [done|].
    rewrite lookup_insert. case_bool_decide; case_decide; subst; done.
Qed.

Lemma int_keys_into_raise (kv : list (pystr * json)) (acc : gmap Z json) :
  (exists e, int_keys_into kv acc = Raise e) <-> exists k, k ∈ kv.*1 /\ bad_key k = true.
Proof.
  revert acc. induction kv as [|[k v] kv IH]; intros acc; simpl.
  - split; [by intros [e ?] | intros (k & Hk & _); inversion Hk].
  - destruct (py_int k) as [i|e] eqn:E; simpl.
    + rewrite IH. split.
      * intros (k' & Hk' & Hb). exists k'. split; [apply elem_of_cons; by right|done].
      * intros (k' & Hk' & Hb). apply elem_of_cons in Hk' as [->|Hk'].
        -- unfold bad_key in Hb. by rewrite E in Hb.
        -- eauto.
    + split; [|eauto]. intros _. exists k.
      split; [apply elem_of_cons; by left | unfold bad_key; by rewrite E].
Qed.

Lemma int_keys_into_dump (l : list (Z * json)) (acc : gmap Z json) :
  NoDup l.*1 -> (forall k, k ∈ l.*1 -> acc !! k = None) ->
  int_keys_into (map (fun '(k, v) => (py_str_Z k, v)) l) acc = Ok (list_to_map l ∪ acc).
Proof.
  revert acc. induction l as [|[k v] l IH]; intros acc Hnd Hacc; simpl.
  - by rewrite (left_id_L ∅ union).
  - rewrite py_int_str. simpl. apply NoDup_cons in Hnd as [Hk Hnd].
    rewrite IH; [|done|].
    + rewrite <- insert_union_r by (by apply not_elem_of_list_to_map_1).
      by rewrite insert_union_l.
    + intros k' Hk'. rewrite lookup_insert_ne by (intros ->; done).
      apply Hacc. by right.
Qed.

(** The loader raises [CLASS_LOAD_ERROR] and nothing else. *)
Lemma load_class_mapping_raise (c : res json) (e : exc) :
  load_class_mapping c = Raise e -> e = CLASS_LOAD_ERROR.
Proof. apply try_except_reraise. Qed.

(** The table of a list of labels, and its size. *)
Lemma load_class_mapping_JList (l : list json) :
  load_class_mapping (Ok (JList l)) = Ok (enumerate_into 0 l ∅) /\
  size (enumerate_into 0 l ∅) = length l.
Proof.
  split; [reflexivity|]. rewrite enumerate_into_size; [by rewrite map_size_empty|].
  intros k [v Hv]. by rewrite lookup_empty in Hv.
Qed.

(** ** Properties of [load_class_mapping] *)

(** C26. A list of N labels loads as the table with keys exactly
    [0 .. N-1], the key [i] bound to the [i]-th label. *)
Theorem load_class_mapping_list (l : list json) :
  exists m, load_class_mapping (Ok (JList l)) = Ok m /\ size m = length l /\
    forall k, m !! k =
      if decide (0 <= k < Z.of_nat (length l))%Z then l !! Z.to_nat k else None.
Proof.
  destruct (load_class_mapping_JList l) as [Hl Hs].
  eexists. split; [exact Hl|]. split; [exact Hs|].
  - intros k. rewrite enumerate_into_lookup, lookup_empty.
    by rewrite Z.sub_0_r, Z.add_0_l.
Qed.

(** C27. A table written as a JSON object with the keys [str(i)] (as
    [json.dump] writes integer keys) loads back as the same table. *)
Theorem load_class_mapping_dump (l : list (Z * json)) :
  NoDup l.*1 ->
  load_class_mapping (Ok (JDict (map (fun '(k, v) => (py_str_Z k, v)) l))) =
    Ok (list_to_map l).
Proof.
  intros Hnd. unfold load_class_mapping. simpl.
  rewrite int_keys_into_dump by (done || by intros; apply lookup_empty).
  by rewrite (right_id_L ∅ union).
Qed.

Lemma load_class_mapping_dump_witness :
  load_class_mapping
    (Ok (JDict (map (fun '(k, v) => (py_str_Z k, v))
                  [(0%Z, JStr (lit "Apple___Apple_scab")); (1%Z, JStr (lit "Apple___healthy"))]))) =
  Ok (list_to_map [(0%Z, JStr (lit "Apple___Apple_scab")); (1%Z, JStr (lit "Apple___healthy"))]).
Proof.
  apply load_class_mapping_dump. apply (bool_decide_unpack _). vm_compute. exact I.
Defined.

(** C28. For the object form the code computes exactly the abstract
    table [last_value]: every index is bound to the value of the last item
    whose key [int()] reads as that index.  Keys such as ["1"] and ["01"]
    therefore collapse, and nothing requires the indices to be
    [0 .. N-1]. *)
Theorem load_class_mapping_dict (kv : list (pystr * json)) (m : gmap Z json) :
  load_class_mapping (Ok (JDict kv)) = Ok m -> forall z, m !! z = last_value z kv.
Proof.
  unfold load_class_mapping. simpl. intros H z.
  destruct (int_keys_into kv ∅) eqn:E; simpl in H; [|done]. injection H as ->.
  rewrite (int_keys_into_spec kv ∅ _ E z), lookup_empty.
  by destruct (last_value z kv).
Qed.

Lemma load_class_mapping_dict_witness :
  (<[3%Z := JStr (lit "c")]> {[1%Z := JStr (lit "b")]} : gmap Z json) !! 1%Z =
  last_value 1 [(lit "1", JStr (lit "a")); (lit "01", JStr (lit "b")); (lit "3", JStr (lit "c"))].
Proof.
  apply (load_class_mapping_dict
           [(lit "1", JStr (lit "a")); (lit "01", JStr (lit "b")); (lit "3", JStr (lit "c"))]).
  vm_compute. reflexivity.
Defined.

(** C29. Loading fails exactly on a read or JSON error, on a value that is
    neither a list nor an object, and on an object with a key [int()]
    rejects; it then raises [RuntimeError("Could not load class
    names")] and nothing else. *)
Theorem load_class_mapping_error (c : res json) (e : exc) :
  load_class_mapping c = Raise e <->
  e = CLASS_LOAD_ERROR /\
  ((exists e', c = Raise e') \/
   (exists j, c = Ok j /\ match j with JList _ | JDict _ => False | _ => True end) \/
   (exists kv k, c = Ok (JDict kv) /\ k ∈ kv.*1 /\ bad_key k = true)).
Proof.
  unfold load_class_mapping.
  destruct c as [j|e']; simpl; [|split; [intros [= <-]; eauto | by intros [-> _]]].
  destruct j as [| | | |l|kv]; simpl;
    try (split; [intros [= <-]; split; [done|]; right; left;
                 eexists; split; [reflexivity | exact I]
               | intros [-> _]; done]).
  - split; [done|]. intros [_ [(? & ?) | [(? & [= <-] & []) | (? & ? & ? & _)]]]; done.
  - pose proof (int_keys_into_raise kv ∅) as Hr.
    destruct (int_keys_into kv ∅) as [m|e'']; simpl.
    + split; [done|]. intros [_ [(? & ?) | [(? & ? & Hj) | (kv' & k & [= <-] & Hk)]]];
        [done | by simplify_eq | ].
      destruct (proj2 Hr ltac:(eauto)) as [? ?]. done.
    + split; [intros [= <-]; split; [done|]; right; right|intros [-> _]; done].
      destruct (proj1 Hr ltac:(eauto)) as (k & ? & ?). eauto.
Qed.

End ClassIndex.
