(* ===== verification/Checkpoint.v ===== *)
(** * Loading the weights: [load_model] (main.py, lines 41-50 and 73-109)

    [VisionTransformer(num_classes)] is the DeiT-base backbone from
    [torch.hub] with its head replaced by a [Linear(768, num_classes)].
    The checkpoint is a dictionary, either with a [model_state_dict] entry
    or itself the state dictionary; the ["vit."] prefix is stripped from
    its keys and the result is loaded with [load_state_dict(strict=False)];
    the model is then moved to [DEVICE] and put in evaluation mode, the
    record [vit_state] keeping the classes, the loaded names, the device
    and the training flag.  Every exception becomes
    [RuntimeError("Could not initialize model")] (in [App.on_load_model]).

    PyTorch's non-strict [load_state_dict] is modelled from its
    documented behaviour: a parameter whose name is in the dictionary is
    copied when the entry is a tensor of the same shape, a non-tensor or a
    shape mismatch is an error and the call raises once all parameters have
    been visited; names missing from the dictionary and unexpected names are
    not errors.  The module's parameters are the list of their names and
    shapes; the backbone's list comes from [torch.hub] and is a parameter of
    the model. *)

From stdpp Require Import base list gmap strings.
From Stdlib Require Import Ascii ZArith Lia.
From S2P Require Import Prelude PyStr.
Import PyStr.

(** The values a checkpoint holds: tensors (by their shape), nested
    dictionaries, and anything else [torch.load] may unpickle. *)
Inductive ckpt :=
  | CTensor (shape : list nat)
  | CDict (d : list (pystr * ckpt))
  | COther.

Module Checkpoint.

#[local] Open Scope py_scope.

(** ** The module *)

(** The hidden size of DeiT-base, [self.vit.head.in_features]. *)
Definition HIDDEN : nat := 768.

(** The parameters of [VisionTransformer(num_classes).vit]: the backbone's
    and those of the new head. *)
Definition vit_params (backbone : list (pystr * list nat)) (num_classes : nat)
    : list (pystr * list nat) :=
  backbone ++ [(lit "head.weight", [num_classes; HIDDEN]); (lit "head.bias", [num_classes])].

(** ** The checkpoint *)

(** [d[key]] on a dictionary given by its items (keys are distinct). *)
Fixpoint dict_get (key : pystr) (d : list (pystr * ckpt)) : option ckpt :=
  match d with
  | [] => None
  | (k, v) :: d' => if decide (k = key) then Some v else dict_get key d'
  end.

Definition MODEL_STATE_DICT : pystr := lit "model_state_dict".

(** Lines 88-91, with the [.items()] of line 94: the [in] test raises on a
    checkpoint that is not a dictionary, [.items()] on a [model_state_dict]
    that is not one. *)
Definition select_state_dict (checkpoint : ckpt) : res (list (pystr * ckpt)) :=
  match checkpoint with
  | CDict d =>
      match dict_get MODEL_STATE_DICT d with
      | Some (CDict sd) => Ok sd
      | Some _ => Raise (LibError (lit "object has no attribute 'items'"))
      | None => Ok d
      end
  | _ => Raise (LibError (lit "argument of type is not iterable"))
  end.

Definition VIT_PREFIX : pystr := lit "vit.".

(** [k[len('vit.'):] if k.startswith('vit.') else k] *)
Definition strip_vit (k : pystr) : pystr :=
  if starts_with VIT_PREFIX k then drop (length VIT_PREFIX) k else k.

(** Lines 93-98: a later key that strips to the same name overwrites. *)
Fixpoint clean_state_dict (sd : list (pystr * ckpt)) (acc : gmap pystr ckpt)
    : gmap pystr ckpt :=
  match sd with
  | [] => acc
  | (k, v) :: sd' => clean_state_dict sd' (<[strip_vit k := v]> acc)
  end.

(** ** PyTorch's [load_state_dict(state_dict, strict=False)] *)

(** A parameter that the dictionary has but cannot copy. *)
Definition param_error (sd : gmap pystr ckpt) (p : pystr * list nat) : bool :=
  match sd !! p.1 with
  | Some (CTensor shape) => negb (bool_decide (shape = p.2))
  | Some _ => true
  | None => false
  end.

(** The names of the parameters copied from the dictionary; the others
    keep the random initialisation of [pretrained=False]. *)
Definition load_state_dict (params : list (pystr * list nat)) (sd : gmap pystr ckpt)
    : res (list pystr) :=
  if decide (filter (fun p => param_error sd p = true) params = []) then
    Ok (map fst (filter (fun p => is_Some (sd !! p.1)) params))
  else Raise (RuntimeError (lit "Error(s) in loading state_dict")).

(** ** [load_model] *)

(** Line 31: [torch.device("cuda" if torch.cuda.is_available() else "cpu")]. *)
Definition DEVICE (cuda_available : bool) : pystr :=
  if cuda_available then lit "cuda" else lit "cpu".

(** The network as the program uses it: its number of classes, the
    parameters that came from the checkpoint (the others keep the random
    initialisation of [pretrained=False]), its device and its mode. *)
Record vit_state := {
  num_classes : nat;
  loaded : list pystr;
  device : pystr;
  training : bool
}.

(** Line 84: [VisionTransformer(num_classes=...)], a new module on the CPU
    in training mode, as every [nn.Module] starts. *)
Definition new_model (num_classes : nat) : vit_state :=
  {| num_classes := num_classes; loaded := []; device := lit "cpu"; training := true |}.

(** The parameters [load_state_dict] copied (line 100). *)
Definition with_loaded (names : list pystr) (m : vit_state) : vit_state :=
  {| num_classes := num_classes m; loaded := names; device := device m;
     training := training m |}.

(** Line 101: [.to(DEVICE)]. *)
Definition to_device (d : pystr) (m : vit_state) : vit_state :=
  {| num_classes := num_classes m; loaded := loaded m; device := d; training := training m |}.

(** Line 102: [.eval()]. *)
Definition eval (m : vit_state) : vit_state :=
  {| num_classes := num_classes m; loaded := loaded m; device := device m; training := false |}.

Definition MODEL_LOAD_ERROR : exc := RuntimeError (lit "Could not initialize model").

(** Lines 84-102, given the device, the number of classes, the backbone
    that [torch.hub.load] returns (or its exception) and the checkpoint
    that [torch.load] returns (or its exception); the [try] around them is
    in [App.on_load_model]. *)
Definition build_model (dev : pystr) (num_classes : nat) (hub : res (list (pystr * list nat)))
    (checkpoint : res ckpt) : res vit_state :=
  let! backbone := hub in
  let model := new_model num_classes in
  let! ck := checkpoint in
  let! state_dict := select_state_dict ck in
  let cleaned := clean_state_dict state_dict ∅ in
  let! names := load_state_dict (vit_params backbone num_classes) cleaned in
  Ok (eval (to_device dev (with_loaded names model))).

(** The network [build_model] returns: the requested head and device, in
    evaluation mode. *)
Definition ready_model (dev : pystr) (num_classes : nat) (names : list pystr) : vit_state :=
  {| num_classes := num_classes; loaded := names; device := dev; training := false |}.

(** ** The cleaned dictionary *)

(** Its abstract meaning: a name is bound to the value of the last item
    whose key strips to it. *)
Fixpoint last_entry (name : pystr) (sd : list (pystr * ckpt)) : option ckpt :=
  match sd with
  | [] => None
  | (k, v) :: sd' =>
      match last_entry name sd' with
      | Some w => Some w
      | None => if decide (strip_vit k = name) then Some v else None
      end
  end.

Lemma clean_state_dict_spec (sd : list (pystr * ckpt)) (acc : gmap pystr ckpt) (name : pystr) :
  clean_state_dict sd acc !! name =
    match last_entry name sd with Some w => Some w | None => acc !! name end.
Proof.
  revert acc. induction sd as [|[k v] sd IH]; intros acc; simpl; [done|].
  rewrite IH. destruct (last_entry name sd); [done|].
  rewrite lookup_insert. by repeat case_decide.
Qed.

Lemma strip_vit_prefix (n : pystr) : strip_vit (VIT_PREFIX ++ n) = n.
Proof. unfold strip_vit. rewrite starts_with_app. apply drop_app_length. Qed.

(** The state dictionary of the wrapper [VisionTransformer], whose
    backbone is its attribute [vit]: every key starts with ["vit."]. *)
Definition saved_state_dict (params : list (pystr * list nat)) : list (pystr * ckpt) :=
  map (fun p => (VIT_PREFIX ++ p.1, CTensor p.2)) params.

Lemma saved_state_dict_cons (q : pystr * list nat) (params : list (pystr * list nat)) :
  saved_state_dict (q :: params) = (VIT_PREFIX ++ q.1, CTensor q.2) :: saved_state_dict params.
Proof. reflexivity. Qed.

Lemma last_entry_saved_none (params : list (pystr * list nat)) (name : pystr) :
  name ∉ params.*1 -> last_entry name (saved_state_dict params) = None.
Proof.
  induction params as [|r params IH]; intros Hn; [done|].
  rewrite saved_state_dict_cons. cbn [last_entry].
  simpl in Hn. apply not_elem_of_cons in Hn as [Hr Hn].
  rewrite IH, strip_vit_prefix by done. by rewrite decide_False by congruence.
Qed.

Lemma last_entry_saved (params : list (pystr * list nat)) (p : pystr * list nat) :
  NoDup params.*1 -> p ∈ params -> last_entry p.1 (saved_state_dict params) = Some (CTensor p.2).
Proof.
  induction params as [|q params IH]; intros Hnd Hp; [inversion Hp|].
  simpl in Hnd. apply NoDup_cons in Hnd as [Hq Hnd].
  rewrite saved_state_dict_cons. cbn [last_entry].
  apply elem_of_cons in Hp as [<-|Hp].
  - rewrite last_entry_saved_none, strip_vit_prefix by done. by rewrite decide_True.
  - by rewrite IH.
Qed.

(** ** Non-strict loading *)

Lemma load_state_dict_all (params : list (pystr * list nat)) (sd : gmap pystr ckpt) :
  (forall p, p ∈ params -> sd !! p.1 = Some (CTensor p.2)) ->
  load_state_dict params sd = Ok (map fst params).
Proof.
  intros H. unfold load_state_dict.
  rewrite filter_all_false.
  2: { intros p Hp. unfold param_error. rewrite (H p Hp). by rewrite bool_decide_eq_true_2. }
  rewrite decide_True by done. rewrite filter_all_true; [done|].
  intros p Hp. rewrite (H p Hp). eauto.
Qed.

Lemma load_state_dict_none (params : list (pystr * list nat)) (sd : gmap pystr ckpt) :
  (forall p, p ∈ params -> sd !! p.1 = None) -> load_state_dict params sd = Ok [].
Proof.
  intros H. unfold load_state_dict.
  rewrite filter_all_false.
  2: { intros p Hp. unfold param_error. by rewrite (H p Hp). }
  rewrite decide_True by done. rewrite filter_all_false; [done|].
  intros p Hp. rewrite (H p Hp). by intros [? ?].
Qed.

Lemma load_state_dict_error (params : list (pystr * list nat)) (sd : gmap pystr ckpt) p :
  p ∈ params -> param_error sd p = true -> exists e, load_state_dict params sd = Raise e.
Proof.
  intros Hp He. unfold load_state_dict. rewrite decide_False; [eauto|].
  intros Hnil. eapply filter_nil_not_elem_of; [exact Hnil| exact He | exact Hp].
Qed.

Lemma dict_get_saved (params : list (pystr * list nat)) :
  dict_get MODEL_STATE_DICT (saved_state_dict params) = None.
Proof.
  induction params as [|q params IH]; [done|]. rewrite saved_state_dict_cons.
  cbn [dict_get]. rewrite decide_False; [done|].
  unfold VIT_PREFIX, MODEL_STATE_DICT, lit. simpl. congruence.
Qed.

Lemma build_model_ok (dev : pystr) (n : nat) (backbone : list (pystr * list nat)) (ck : ckpt)
    (sd : list (pystr * ckpt)) :
  select_state_dict ck = Ok sd ->
  build_model dev n (Ok backbone) (Ok ck) =
    let! names := load_state_dict (vit_params backbone n) (clean_state_dict sd ∅) in
    Ok (ready_model dev n names).
Proof. intros Hsel. unfold build_model. simpl. by rewrite Hsel. Qed.

(** The built network has the requested head and device and is in
    evaluation mode. *)
Lemma build_model_ready (dev : pystr) (n : nat) hub ck (vit : vit_state) :
  build_model dev n hub ck = Ok vit ->
  num_classes vit = n /\ device vit = dev /\ training vit = false.
Proof. unfold build_model. intros H. res_simpl. by subst. Qed.

(** ** Properties of [load_model] *)

(** The cleaned dictionary is the abstract [last_entry]: each name is
    bound to the value of the last key that strips to it. *)
Lemma clean_state_dict_refines (sd : list (pystr * ckpt)) (name : pystr) :
  clean_state_dict sd ∅ !! name = last_entry name sd.
Proof. rewrite clean_state_dict_spec. by destruct (last_entry name sd). Qed.

(** Which keys the loop stores under [n]: ["vit." ++ n], and [n] itself
    when it does not start with ["vit."]. *)
Lemma strip_vit_iff (k n : pystr) :
  strip_vit k = n <-> k = VIT_PREFIX ++ n \/ (k = n /\ ~ VIT_PREFIX `prefix_of` k).
Proof.
  unfold strip_vit. destruct (starts_with VIT_PREFIX k) eqn:E.
  - apply starts_with_spec in E as [r ->]. rewrite drop_app_length. split.
    + intros <-. by left.
    + intros [Hk | [_ Hp]]; [by apply app_inv_head in Hk | by destruct Hp; exists r].
  - split; [intros ->; right; split; [done|] | intros [-> | [-> _]]; [by rewrite starts_with_app in E | done]].
    intros [r Hr]. rewrite Hr, starts_with_app in E. done.
Qed.

Lemma last_entry_None (sd : list (pystr * ckpt)) (n : pystr) :
  last_entry n sd = None <-> Forall (fun kv => strip_vit kv.1 <> n) sd.
Proof.
  induction sd as [|[k v] sd IH]; cbn [last_entry]; [split; [constructor | done]|].
  rewrite Forall_cons. destruct (last_entry n sd); [split; [done | intros [_ ?%IH]; done]|].
  case_decide; naive_solver.
Qed.

Lemma last_entry_Some (sd : list (pystr * ckpt)) (n : pystr) (v : ckpt) :
  last_entry n sd = Some v <->
  exists sd1 k sd2, sd = sd1 ++ (k, v) :: sd2 /\ strip_vit k = n /\
    Forall (fun kv => strip_vit kv.1 <> n) sd2.
Proof.
  induction sd as [|[k' v'] sd IH]; cbn [last_entry].
  - split; [done|]. by intros ([|] & ? & ? & ? & _).
  - split.
    + destruct (last_entry n sd) as [w|] eqn:Hl.
      * intros [= ->]. destruct (proj1 IH eq_refl) as (sd1 & k & sd2 & -> & Hk & Hs).
        by exists ((k', v') :: sd1), k, sd2.
      * case_decide; [|done]. intros [= ->]. exists [], k', sd. by rewrite <- last_entry_None.
    + intros ([|[k1 v1] sd1] & k & sd2 & Hsd & Hk & Hs); injection Hsd as -> -> ->.
      * rewrite (proj2 (last_entry_None sd2 n) Hs). by rewrite decide_True.
      * by rewrite (proj2 IH ltac:(eauto 10)).
Qed.

(** C30. The cleaning loop binds a name [n] to [v] exactly when the
    checkpoint has an item [(k, v)] with [k = "vit." ++ n], or [k = n] not
    starting with ["vit."], and no later item has such a key: a later key
    that strips to the same name wins, so ["vit.x"] and ["x"] in one
    checkpoint silently overwrite each other. *)
Theorem clean_state_dict_lookup (sd : list (pystr * ckpt)) (n : pystr) (v : ckpt) :
  clean_state_dict sd ∅ !! n = Some v <->
  exists sd1 k sd2, sd = sd1 ++ (k, v) :: sd2 /\
    (k = VIT_PREFIX ++ n \/ (k = n /\ ~ VIT_PREFIX `prefix_of` k)) /\
    Forall (fun kv => kv.1 <> VIT_PREFIX ++ n /\ (kv.1 = n -> VIT_PREFIX `prefix_of` kv.1)) sd2.
Proof.
  rewrite clean_state_dict_refines, last_entry_Some.
  setoid_rewrite strip_vit_iff. setoid_rewrite Forall_forall.
  split; intros (sd1 & k & sd2 & Hsd & Hk & Hs); exists sd1, k, sd2; (split; [done|]);
    (split; [done|]); intros kv Hkv; specialize (Hs kv Hkv).
  - split; [intros E; apply Hs; by left|]. intros E. destruct (decide (VIT_PREFIX `prefix_of` kv.1)); [done|].
    exfalso. apply Hs. by right.
  - intros [E | [E Hp]]; [by apply Hs | by apply Hp, Hs].
Qed.


(** C31. A checkpoint of the wrapper's own state dictionary (keys
    ["vit." ++ name]), saved as it is or under ["model_state_dict"] with
    other entries beside it, loads every parameter of the network. *)
Theorem build_model_roundtrip (dev : pystr) (backbone : list (pystr * list nat)) (n : nat)
    (extra : list (pystr * ckpt)) (wrap : bool) :
  NoDup (vit_params backbone n).*1 ->
  build_model dev n (Ok backbone)
    (Ok (if wrap
         then CDict ((MODEL_STATE_DICT, CDict (saved_state_dict (vit_params backbone n))) :: extra)
         else CDict (saved_state_dict (vit_params backbone n)))) =
  Ok (ready_model dev n (vit_params backbone n).*1).
Proof.
  intros Hnd.
  rewrite (build_model_ok dev n backbone _ (saved_state_dict (vit_params backbone n))).
  2: { destruct wrap; cbn [select_state_dict dict_get];
       [by rewrite decide_True | by rewrite dict_get_saved]. }
  rewrite load_state_dict_all; [done|].
  intros p Hp. rewrite clean_state_dict_spec. by rewrite last_entry_saved.
Qed.

Lemma build_model_roundtrip_witness :
  build_model (DEVICE false) 2 (Ok [(lit "cls_token", [1; 1; 768])])
    (Ok (CDict ((MODEL_STATE_DICT,
                 CDict (saved_state_dict (vit_params [(lit "cls_token", [1; 1; 768])] 2)))
                :: [(lit "epoch", COther)]))) =
  Ok (ready_model (DEVICE false) 2 (vit_params [(lit "cls_token", [1; 1; 768])] 2).*1).
Proof.
  apply (build_model_roundtrip _ _ 2 _ true).
  apply (bool_decide_unpack _). vm_compute. exact I.
Defined.

(** A checkpoint entry whose shape differs from the parameter it
    names, such as a head trained for another number of classes, makes
    the loading raise. *)
Theorem build_model_mismatch (dev : pystr) (backbone : list (pystr * list nat)) (n : nat) (ck : ckpt)
    (sd : list (pystr * ckpt)) (p : pystr * list nat) (shape : list nat) :
  select_state_dict ck = Ok sd -> p ∈ vit_params backbone n ->
  clean_state_dict sd ∅ !! p.1 = Some (CTensor shape) -> shape <> p.2 ->
  exists e, build_model dev n (Ok backbone) (Ok ck) = Raise e.
Proof.
  intros Hsel Hp Hsh Hne. rewrite (build_model_ok dev n backbone ck sd Hsel).
  assert (He : param_error (clean_state_dict sd ∅) p = true)
    by (unfold param_error; rewrite Hsh; by rewrite bool_decide_eq_false_2).
  destruct (load_state_dict_error _ _ p Hp He) as [e ->]. by exists e.
Qed.

Lemma build_model_mismatch_witness :
  exists e, build_model (DEVICE true) 38 (Ok []) (Ok (CDict (saved_state_dict (vit_params [] 39)))) = Raise e.
Proof.
  apply (build_model_mismatch _ [] 38 _ (saved_state_dict (vit_params [] 39))
           (lit "head.bias", [38]) [39]);
    [reflexivity | apply elem_of_app; right; apply elem_of_cons; right;
                   apply elem_of_cons; by left
    | vm_compute; reflexivity | discriminate].
Defined.

(** C32. A checkpoint none of whose keys names a parameter after the
    ["vit."] prefix is stripped (for instance one saved from
    [nn.DataParallel], whose keys start with ["module."]) loads without
    error and copies nothing: every weight keeps its random
    initialisation and startup goes on. *)
Theorem build_model_no_match (dev : pystr) (backbone : list (pystr * list nat)) (n : nat) (ck : ckpt)
    (sd : list (pystr * ckpt)) :
  select_state_dict ck = Ok sd ->
  (forall p, p ∈ vit_params backbone n -> clean_state_dict sd ∅ !! p.1 = None) ->
  build_model dev n (Ok backbone) (Ok ck) = Ok (ready_model dev n []).
Proof.
  intros Hsel Hnone. rewrite (build_model_ok dev n backbone ck sd Hsel).
  by rewrite load_state_dict_none.
Qed.

Lemma build_model_no_match_witness :
  build_model (DEVICE false) 38 (Ok [])
    (Ok (CDict [(lit "module.vit.head.weight", CTensor [38; 768]);
                (lit "module.vit.head.bias", CTensor [38])])) =
  Ok (ready_model (DEVICE false) 38 []).
Proof.
  apply (build_model_no_match _ [] 38 _
           [(lit "module.vit.head.weight", CTensor [38; 768]);
            (lit "module.vit.head.bias", CTensor [38])]); [reflexivity|].
  intros p Hp. simpl in Hp.
  repeat (apply elem_of_cons in Hp as [->|Hp]; [vm_compute; reflexivity|]).
  inversion Hp.
Defined.

End Checkpoint.
