(* ===== verification/Classifier.v ===== *)
(** * Classification: [predict_image] (main.py, lines 201-223)

    The network's output for the single image of the batch goes through
    [softmax], [torch.topk(probabilities, 3)], a lookup of each index in
    [app.state.idx_to_class] and [round(p * 100, 2)]; every exception
    becomes [RuntimeError("Model inference error")].  The network is the
    interface [Network], applied to the model loaded at startup; its law
    is that the output has one logit per class of that model, as the head
    [nn.Linear(768, num_classes)] of line 47 fixes.  The exponential of
    [softmax] is a section variable, assumed positive and increasing where
    a theorem needs it.
    [torch.topk] (sorted, largest first) is a stable sort of the indexed
    probabilities, largest first, cut to [k] items: torch leaves the order
    of equal values unspecified and the stable order is one of the orders
    it may produce.  Floats are rationals; [round(x, 2)] rounds half to
    even, so every confidence has two decimals. *)

From stdpp Require Import base list gmap sorting strings.
From Stdlib Require Import ZArith QArith Qround Lqa Lia.
From S2P Require Import Prelude PyStr ClassIndex Checkpoint.

(** ** Interface of the network

    The image tensor in the layout [ToTensor] produces (channel, row,
    column), and [app.state.model(x.unsqueeze(0))[0]]: the logits of the
    image, or an exception (device error, wrong shape). *)
Definition tensor := list (list (list Q)).

Class Network := {
  forward : Checkpoint.vit_state -> tensor -> res (list Q);
  (** The head is [nn.Linear(768, num_classes)] (line 47): one logit per
      class of the model. *)
  forward_outputs : forall m x logits,
    forward m x = Ok logits -> length logits = Checkpoint.num_classes m
}.

Module Classifier.

#[local] Open Scope py_scope.

#[export] Instance Qle_rel_dec : RelDecision Qle :=
  fun x y => match Qlt_le_dec y x with
             | left H => right (Qlt_not_le y x H)
             | right H => left H
             end.

(** ** Python's [round(x, 2)] *)

(** Round half to even, to an integer. *)
Definition round_half_even (x : Q) : Z :=
  let f := Qfloor x in
  if Qlt_le_dec (x - inject_Z f) (1 # 2) then f
  else if Qlt_le_dec (1 # 2) (x - inject_Z f) then (f + 1)%Z
  else if Z.even f then f else (f + 1)%Z.

(** [round(x, 2)] *)
Definition py_round2 (x : Q) : Q := inject_Z (round_half_even (x * 100)) / 100.

(** ** The pipeline *)

Definition qsum (l : list Q) : Q := fold_right Qplus 0 l.

(** One entry [{"class": class_name, "confidence": ...}] of the result. *)
Record prediction := {
  pred_class : json;
  confidence : Q
}.

(** The order of [topk]: larger probability first. *)
Definition by_prob (x y : nat * Q) : Prop := (y.2 <= x.2)%Q.

#[export] Instance by_prob_dec : RelDecision by_prob :=
  fun x y => decide (y.2 <= x.2)%Q.

(** [torch.topk(t, k)]: [k] larger than the number of elements raises. *)
Definition topk (k : nat) (ps : list Q) : res (list (nat * Q)) :=
  if decide (length ps < k)%nat then Raise (LibError (lit "selected index k out of range"))
  else Ok (take k (merge_sort by_prob (imap pair ps))).

(** The loop of lines 211-217: [idx_to_class[idx]] raises [KeyError] on
    an index missing from the table. *)
Fixpoint predictions_of (idx_to_class : gmap Z json) (top : list (nat * Q))
    : res (list prediction) :=
  match top with
  | [] => Ok []
  | (idx, p) :: rest =>
      match idx_to_class !! Z.of_nat idx with
      | None => Raise KeyError
      | Some class_name =>
          let! results := predictions_of idx_to_class rest in
          Ok ({| pred_class := class_name; confidence := py_round2 (p * 100) |}
                :: results)
      end
  end.

Section WithExp.

Context (exp : Q -> Q).

(** [torch.nn.functional.softmax(outputs[0], dim=0)] *)
Definition softmax (xs : list Q) : list Q :=
  let es := exp <$> xs in (fun e => e / qsum es) <$> es.

Definition INFERENCE_ERROR : exc := RuntimeError (lit "Model inference error").

Definition predict_image `{Network} (model : Checkpoint.vit_state) (idx_to_class : gmap Z json)
    (image_tensor : tensor)
    : res (list prediction) :=
  try_except
    (let! outputs := forward model image_tensor in
     let probabilities := softmax outputs in
     let! top3 := topk 3 probabilities in
     predictions_of idx_to_class top3)
    (fun _ => Raise INFERENCE_ERROR).

End WithExp.

(** ** Rounding *)

Lemma round_half_even_cases (x : Q) :
  (round_half_even x = Qfloor x /\ x - inject_Z (Qfloor x) <= 1 # 2) \/
  (round_half_even x = (Qfloor x + 1)%Z /\ 1 # 2 <= x - inject_Z (Qfloor x)).
Proof.
  unfold round_half_even.
  destruct (Qlt_le_dec _ (1 # 2)); [left; split; [done | lra]|].
  destruct (Qlt_le_dec (1 # 2) _); [right; split; [done | lra]|].
  destruct (Z.even _); [left | right]; split; (done || lra).
Qed.

Lemma round_half_even_tie (x : Q) :
  x - inject_Z (Qfloor x) == 1 # 2 ->
  round_half_even x = if Z.even (Qfloor x) then Qfloor x else (Qfloor x + 1)%Z.
Proof.
  intros E. unfold round_half_even.
  destruct (Qlt_le_dec _ (1 # 2)); [lra|]. destruct (Qlt_le_dec (1 # 2) _); [lra|].
  done.
Qed.

(** Rounding half to even is monotone. *)
Lemma round_half_even_mono (x y : Q) :
  x <= y -> (round_half_even x <= round_half_even y)%Z.
Proof.
  intros Hxy. pose proof (Qfloor_resp_le x y Hxy) as Hf.
  destruct (round_half_even_cases x) as [[Ex Hx] | [Ex Hx]],
    (round_half_even_cases y) as [[Ey Hy] | [Ey Hy]]; rewrite Ex, Ey; try lia.
  destruct (Z.eq_dec (Qfloor x) (Qfloor y)) as [E|]; [|lia].
  rewrite E in Hx. assert (x - inject_Z (Qfloor x) == 1 # 2) as Tx by (rewrite E; lra).
  assert (y - inject_Z (Qfloor y) == 1 # 2) as Ty by lra.
  apply round_half_even_tie in Tx, Ty. rewrite Ex in Tx. rewrite Ey in Ty. rewrite E in Tx.
  destruct (Z.even (Qfloor y)); lia.
Qed.

Lemma round_half_even_Z (z : Z) : round_half_even (inject_Z z) = z.
Proof.
  destruct (round_half_even_cases (inject_Z z)) as [[E _] | [E H]];
    rewrite Qfloor_Z in *; [done|].
  exfalso. lra.
Qed.

(** The specification of rounding half to even, independent of how it is
    computed: [z] is an integer nearest to [c], and an even one on a tie. *)
Definition nearest_even (c : Q) (z : Z) : Prop :=
  c - (1 # 2) <= inject_Z z <= c + (1 # 2) /\
  (inject_Z z == c - (1 # 2) \/ inject_Z z == c + (1 # 2) -> Z.even z = true).

Lemma round_half_even_nearest (x : Q) : nearest_even x (round_half_even x).
Proof.
  pose proof (Qfloor_le x) as Hl. pose proof (Qlt_floor x) as Hu.
  rewrite inject_Z_plus in Hu. change (inject_Z 1) with 1 in Hu.
  unfold nearest_even.
  destruct (round_half_even_cases x) as [[E Hx] | [E Hx]]; rewrite E;
    [|rewrite inject_Z_plus; change (inject_Z 1) with 1]; (split; [lra|]); intros Htie;
    (assert (T : x - inject_Z (Qfloor x) == 1 # 2) by (destruct Htie; lra));
    apply round_half_even_tie in T; rewrite E in T;
    destruct (Z.even (Qfloor x)) eqn:Ev; try done; try lia.
  rewrite Z.even_add, Ev. reflexivity.
Qed.

Lemma py_round2_mono (x y : Q) : x <= y -> py_round2 x <= py_round2 y.
Proof.
  intros H. unfold py_round2, Qdiv. apply Qmult_le_compat_r; [|discriminate].
  rewrite <- Zle_Qle. apply round_half_even_mono. lra.
Qed.

Lemma py_round2_bounds (x : Q) : 0 <= x <= 100 -> 0 <= py_round2 x <= 100.
Proof.
  intros [H0 H1]. pose proof (py_round2_mono 0 x H0). pose proof (py_round2_mono x 100 H1).
  assert (py_round2 0 == 0) as E0 by reflexivity.
  assert (py_round2 100 == 100) as E1 by reflexivity. lra.
Qed.

(** ** Softmax *)

Lemma qsum_nonneg (l : list Q) : Forall (fun y => 0 <= y) l -> 0 <= qsum l.
Proof. induction 1; simpl; lra. Qed.

Lemma qsum_ge (l : list Q) (x : Q) :
  Forall (fun y => 0 <= y) l -> x ∈ l -> x <= qsum l.
Proof.
  induction l as [|y l IH]; intros Hl Hx; [inversion Hx|].
  inversion Hl as [|? ? Hy Hl']; subst. simpl.
  apply elem_of_cons in Hx as [->|Hx].
  - pose proof (qsum_nonneg l Hl'). lra.
  - specialize (IH Hl' Hx). lra.
Qed.

Lemma qsum_pos (l : list Q) : Forall (fun y => 0 < y) l -> l <> [] -> 0 < qsum l.
Proof.
  induction l as [|y l IH]; intros Hl Hne; [done|].
  inversion Hl as [|? ? Hy Hl']; subst. simpl.
  destruct l as [|z l]; [simpl; lra|]. specialize (IH Hl' ltac:(done)). lra.
Qed.

Section ExpLaws.

Context (exp : Q -> Q).
Hypothesis exp_pos : forall x, 0 < exp x.

Lemma softmax_lookup (xs : list Q) (i : nat) :
  softmax exp xs !! i = (fun x => exp x / qsum (exp <$> xs)) <$> xs !! i.
Proof.
  unfold softmax. rewrite list_lookup_fmap, list_lookup_fmap.
  by destruct (xs !! i).
Qed.

Lemma softmax_length (xs : list Q) : length (softmax exp xs) = length xs.
Proof. unfold softmax. by rewrite !length_fmap. Qed.

Lemma qsum_exp_pos (xs : list Q) : xs <> [] -> 0 < qsum (exp <$> xs).
Proof.
  intros Hne. apply qsum_pos.
  - apply Forall_fmap, Forall_forall. intros x _. apply exp_pos.
  - by destruct xs.
Qed.

(** Every probability lies in [0, 1]. *)
Lemma softmax_bounds (xs : list Q) (i : nat) (p : Q) :
  softmax exp xs !! i = Some p -> 0 <= p <= 1.
Proof.
  rewrite softmax_lookup. destruct (xs !! i) as [x|] eqn:Hx; [|done]. simpl.
  intros [= <-]. assert (xs <> []) as Hne by (by destruct xs).
  pose proof (qsum_exp_pos xs Hne) as HS. pose proof (exp_pos x).
  assert (exp x <= qsum (exp <$> xs)).
  { apply qsum_ge.
    - apply Forall_fmap, Forall_forall. intros y _. pose proof (exp_pos y). simpl. lra.
    - apply list_elem_of_fmap. exists x. split; [done|]. by eapply list_elem_of_lookup_2. }
  split.
  - apply Qle_shift_div_l; [done|]. lra.
  - apply Qle_shift_div_r; [done|]. lra.
Qed.

Hypothesis exp_mono : forall x y, x < y -> exp x < exp y.

(** Softmax reflects the order of the logits. *)
Lemma softmax_reflects (xs : list Q) (i j : nat) (xi xj : Q) :
  xs !! i = Some xi -> xs !! j = Some xj ->
  exp xj / qsum (exp <$> xs) <= exp xi / qsum (exp <$> xs) -> xj <= xi.
Proof.
  intros Hi Hj Hle. assert (xs <> []) as Hne by (by destruct xs).
  pose proof (qsum_exp_pos xs Hne) as HS.
  destruct (Qlt_le_dec xi xj) as [Hlt|]; [|done]. exfalso.
  apply exp_mono in Hlt.
  assert (exp xi / qsum (exp <$> xs) < exp xj / qsum (exp <$> xs)); [|lra].
  apply Qlt_shift_div_r; [done|].
  assert (E : exp xj / qsum (exp <$> xs) * qsum (exp <$> xs) == exp xj) by (field; lra).
  by rewrite E.
Qed.

End ExpLaws.

(** ** Top-k *)

#[local] Instance by_prob_trans : Transitive by_prob.
Proof. intros [] [] []; unfold by_prob; simpl; lra. Qed.

#[local] Instance by_prob_total : Total by_prob.
Proof.
  intros [i p] [j q]. unfold by_prob; simpl.
  destruct (Qlt_le_dec p q); [right|left]; lra.
Qed.

Lemma topk_ok (k : nat) (ps : list Q) :
  (k <= length ps)%nat -> topk k ps = Ok (take k (merge_sort by_prob (imap pair ps))).
Proof. intros Hk. unfold topk. by rewrite decide_False by lia. Qed.

Lemma topk_short (k : nat) (ps : list Q) :
  (length ps < k)%nat -> exists e, topk k ps = Raise e.
Proof. intros Hk. unfold topk. rewrite decide_True by lia. eauto. Qed.

Lemma elem_of_indexed (ps : list Q) (x : nat * Q) :
  x ∈ imap pair ps <-> ps !! x.1 = Some x.2.
Proof.
  destruct x as [i p]. rewrite list_elem_of_lookup. split.
  - intros [j Hj]. rewrite list_lookup_imap in Hj.
    destruct (ps !! j) eqn:E; simpl in Hj; [|done]. by injection Hj as -> ->.
  - intros Hi. exists i. rewrite list_lookup_imap. simpl in Hi. by rewrite Hi.
Qed.

(** The result of [topk]: [k] items, largest first, each an index with
    its value, and the first one is a maximum. *)
Lemma topk_spec (k : nat) (ps : list Q) (top : list (nat * Q)) :
  topk k ps = Ok top ->
  length top = k /\ StronglySorted by_prob top /\
  Forall (fun x => ps !! x.1 = Some x.2) top /\
  forall i p, top !! 0%nat = Some (i, p) -> forall j q, ps !! j = Some q -> q <= p.
Proof.
  unfold topk. case_decide as Hk; [done|]. intros [= <-].
  pose proof (merge_sort_Permutation by_prob (imap pair ps)) as Hperm.
  pose proof (StronglySorted_merge_sort by_prob (imap pair ps)) as Hsort.
  remember (merge_sort by_prob (imap pair ps)) as l eqn:El.
  split; [|split; [|split]].
  - rewrite length_take, (Permutation_length Hperm), length_imap. lia.
  - rewrite <- (take_drop k l) in Hsort. by apply StronglySorted_app_1_l in Hsort.
  - apply Forall_forall. intros x Hx. apply elem_of_take in Hx as (? & ? & _). 
    apply elem_of_indexed. rewrite <- Hperm. by eapply list_elem_of_lookup_2.
  - intros i p Hip j q Hj. rewrite lookup_take in Hip. case_decide; [|done].
    destruct l as [|x l']; [done|]. simpl in Hip. injection Hip as ->.
    assert ((j, q) ∈ (i, p) :: l') as Hin by (rewrite Hperm; by apply elem_of_indexed).
    apply elem_of_cons in Hin as [[= -> ->]|Hin]; [simpl; lra|].
    apply StronglySorted_inv in Hsort as [_ Hall].
    rewrite Forall_forall in Hall. by apply (Hall (j, q)).
Qed.

(** ** The result loop *)

(** How an entry of the result comes from an item of [topk]. *)
Definition entry_of (idx_to_class : gmap Z json) (x : nat * Q) (r : prediction) : Prop :=
  idx_to_class !! Z.of_nat x.1 = Some (pred_class r) /\
  confidence r = py_round2 (x.2 * 100).

Lemma predictions_of_Ok (tbl : gmap Z json) (top : list (nat * Q)) (preds : list prediction) :
  predictions_of tbl top = Ok preds -> Forall2 (entry_of tbl) top preds.
Proof.
  revert preds. induction top as [|[i p] top IH]; intros preds H; simpl in H.
  - injection H as <-. constructor.
  - destruct (tbl !! Z.of_nat i) as [c|] eqn:E; [|done].
    destruct (predictions_of tbl top) as [rs|] eqn:Er; simpl in H; [|done].
    injection H as <-. constructor; [by split|]. by apply IH.
Qed.

Lemma predictions_of_raise (tbl : gmap Z json) (top : list (nat * Q)) :
  (exists e, predictions_of tbl top = Raise e) <->
  exists x, x ∈ top /\ tbl !! Z.of_nat x.1 = None.
Proof.
  induction top as [|[i p] top IH]; simpl.
  - split; [by intros [e ?] | intros (x & Hx & _); inversion Hx].
  - destruct (tbl !! Z.of_nat i) as [c|] eqn:E.
    + destruct (predictions_of tbl top) as [rs|e] eqn:Er; simpl.
      * split; [by intros [e ?]|]. intros (x & Hx & Hn).
        apply elem_of_cons in Hx as [->|Hx]; [simpl in Hn; congruence|].
        destruct (proj2 IH ltac:(eauto)) as [? ?]. done.
      * split; [|eauto]. intros _. destruct (proj1 IH ltac:(eauto)) as (x & ? & ?).
        exists x. split; [apply elem_of_cons; by right|done].
    + split; [|eauto]. intros _. exists (i, p). split; [apply elem_of_cons; by left|done].
Qed.

Lemma Forall2_elem_r {A B} (P : A -> B -> Prop) (l : list A) (k : list B) (y : B) :
  Forall2 P l k -> y ∈ k -> exists x, x ∈ l /\ P x y.
Proof.
  intros HF Hy. apply list_elem_of_lookup in Hy as [i Hi].
  destruct (Forall2_lookup_r _ _ _ _ _ HF Hi) as (x & Hx & HP).
  exists x. split; [by eapply list_elem_of_lookup_2 | done].
Qed.

Lemma StronglySorted_Forall2 {A B} (R : A -> B -> Prop) (S : relation A) (T : relation B)
    (l1 : list A) (l2 : list B) :
  (forall a b a' b', R a a' -> R b b' -> S a b -> T a' b') ->
  Forall2 R l1 l2 -> StronglySorted S l1 -> StronglySorted T l2.
Proof.
  intros HST HR. induction HR as [|a a' l1 l2 Ha HR IH]; intros Hs; [constructor|].
  apply StronglySorted_inv in Hs as [Hs Hall]. constructor; [by apply IH|].
  apply Forall_forall. intros b' Hb'.
  destruct (Forall2_elem_r _ _ _ _ HR Hb') as (b & Hb & Rb).
  rewrite Forall_forall in Hall. apply (HST a b); [done..|]. by apply Hall.
Qed.

(** The successful run of [predict_image], step by step. *)
Lemma predict_image_Ok `{Network} (exp : Q -> Q) (m : Checkpoint.vit_state) (tbl : gmap Z json) (x : tensor)
    (preds : list prediction) :
  predict_image exp m tbl x = Ok preds ->
  exists logits top, forward m x = Ok logits /\ topk 3 (softmax exp logits) = Ok top /\
    predictions_of tbl top = Ok preds.
Proof.
  unfold predict_image. destruct (forward m x) as [logits|] eqn:Hf; [|done]. simpl.
  destruct (topk 3 (softmax exp logits)) as [top|] eqn:Ht; [|done]. simpl.
  destruct (predictions_of tbl top) eqn:E; [|done]. simpl. intros [= ->].
  by exists logits, top.
Qed.

(** [predict_image] returns when the network does, has at least three
    outputs and the table has every output index. *)
Lemma predict_image_some `{Network} (exp : Q -> Q) (m : Checkpoint.vit_state) (tbl : gmap Z json) (x : tensor)
    (logits : list Q) :
  forward m x = Ok logits ->
  (3 <= length logits)%nat ->
  (forall i, (i < length logits)%nat -> is_Some (tbl !! Z.of_nat i)) ->
  exists preds, predict_image exp m tbl x = Ok preds.
Proof.
  intros Hfw Hlen Htbl.
  assert (Hk : (3 <= length (softmax exp logits))%nat) by (by rewrite softmax_length).
  pose proof (topk_ok 3 _ Hk) as Htop.
  destruct (topk_spec 3 _ _ Htop) as (_ & _ & Hin & _).
  set (top := take 3 _) in *.
  assert (exists preds, predictions_of tbl top = Ok preds) as [preds Hp].
  { destruct (predictions_of tbl top) as [preds|e] eqn:E; [eauto|].
    destruct (proj1 (predictions_of_raise tbl top) ltac:(eauto)) as (y & Hy & Hn).
    rewrite Forall_forall in Hin. specialize (Hin y Hy).
    apply lookup_lt_Some in Hin. rewrite softmax_length in Hin.
    destruct (Htbl y.1 Hin) as [c Hc]. congruence. }
  exists preds. unfold predict_image. rewrite Hfw. simpl. rewrite Htop. simpl. by rewrite Hp.
Qed.

(** Every result of [predict_image] has three entries, in descending order
    of confidence, each confidence in [0, 100]. *)
Lemma predict_image_shape `{Network} (exp : Q -> Q) :
  (forall y, 0 < exp y) ->
  forall (m : Checkpoint.vit_state) (tbl : gmap Z json) (x : tensor) (preds : list prediction),
  predict_image exp m tbl x = Ok preds ->
  (length preds = 3)%nat /\
  StronglySorted (fun r1 r2 => confidence r2 <= confidence r1) preds /\
  Forall (fun r => 0 <= confidence r <= 100) preds.
Proof.
  intros Hexp m tbl x preds Hp.
  destruct (predict_image_Ok exp m tbl x _ Hp) as (logits & top & _ & Htop & Hpr).
  destruct (topk_spec 3 _ _ Htop) as (Hl & Hs & Hin & _).
  pose proof (predictions_of_Ok tbl top preds Hpr) as HF.
  split; [by rewrite <- (Forall2_length _ _ _ HF)|]. split.
  - eapply StronglySorted_Forall2; [|exact HF|exact Hs].
    intros [i p] [j q] r1 r2 [_ E1] [_ E2]. unfold by_prob. simpl in *.
    rewrite E1, E2. intros Hqp. apply py_round2_mono. lra.
  - apply Forall_forall. intros r Hr.
    destruct (Forall2_elem_r _ _ _ _ HF Hr) as ([i p] & Hip & _ & E).
    rewrite E. apply py_round2_bounds. rewrite Forall_forall in Hin.
    pose proof (softmax_bounds exp Hexp logits i p (Hin _ Hip)).
    simpl in *. lra.
Qed.

(** ** Concrete instances for the witnesses *)

(** A positive, increasing function standing in for [exp]. *)
Definition qexp (x : Q) : Q := if Qlt_le_dec x 0 then 1 / (1 - x) else 1 + x.

Lemma qexp_pos (x : Q) : 0 < qexp x.
Proof.
  unfold qexp. destruct (Qlt_le_dec x 0); [|lra].
  apply Qlt_shift_div_l; lra.
Qed.

Lemma qexp_mono (x y : Q) : x < y -> qexp x < qexp y.
Proof.
  intros Hxy. unfold qexp.
  destruct (Qlt_le_dec x 0), (Qlt_le_dec y 0); try lra.
  - apply Qlt_shift_div_r; [lra|].
    assert (E : 1 / (1 - y) * (1 - x) == (1 - x) / (1 - y)) by (field; lra).
    rewrite E. apply Qlt_shift_div_l; lra.
  - assert (1 / (1 - x) < 1); [|lra]. apply Qlt_shift_div_r; lra.
Qed.

(** A network that returns the same logits for every image on a model
    with as many classes, and fails on a model of another size (the shape
    error of the head). *)
Definition fixed_forward (logits : list Q) (m : Checkpoint.vit_state) (_ : tensor) : res (list Q) :=
  if decide (length logits = Checkpoint.num_classes m) then Ok logits
  else Raise (LibError (lit "mat1 and mat2 shapes cannot be multiplied")).

Lemma fixed_forward_outputs (logits : list Q) (m : Checkpoint.vit_state) (x : tensor) (l : list Q) :
  fixed_forward logits m x = Ok l -> length l = Checkpoint.num_classes m.
Proof. unfold fixed_forward. case_decide; [by intros [= <-] | done]. Qed.

Definition fixed_network (logits : list Q) : Network :=
  {| forward := fixed_forward logits; forward_outputs := fixed_forward_outputs logits |}.

(** A model with four classes, ready on the CPU. *)
Definition demo_model : Checkpoint.vit_state := Checkpoint.ready_model (Checkpoint.DEVICE false) 4 [].

(** Four classes, as [enumerate] builds them from a list. *)
Definition demo_table : gmap Z json :=
  ClassIndex.enumerate_into 0
    [JStr (lit "Tomato___Early_blight"); JStr (lit "Tomato___Late_blight");
     JStr (lit "Tomato___healthy"); JStr (lit "Potato___Late_blight")] ∅.

(** ** Properties of [predict_image] *)

(** C18. With a positive exponential, at least three outputs and a table
    that has every output index, [predict_image] returns exactly three
    entries, confidences in descending order, each in [0, 100]. *)
Theorem predict_image_top3 `{Network} (exp : Q -> Q) (m : Checkpoint.vit_state) (tbl : gmap Z json) (x : tensor)
    (logits : list Q) :
  (forall y, 0 < exp y) ->
  forward m x = Ok logits ->
  (3 <= length logits)%nat ->
  (forall i, (i < length logits)%nat -> is_Some (tbl !! Z.of_nat i)) ->
  exists preds, predict_image exp m tbl x = Ok preds /\ length preds = 3%nat /\
    StronglySorted (fun r1 r2 => confidence r2 <= confidence r1) preds /\
    Forall (fun r => 0 <= confidence r <= 100) preds.
Proof.
  intros Hexp Hfw Hlen Htbl.
  destruct (predict_image_some exp m tbl x logits Hfw Hlen Htbl) as [preds Hp].
  exists preds. split; [done|]. by apply (predict_image_shape exp Hexp m tbl x).
Qed.

Lemma predict_image_top3_witness :
  exists preds, @predict_image qexp (fixed_network [1; 3; 2; 0]) demo_model demo_table [] = Ok preds /\
    length preds = 3%nat /\
    StronglySorted (fun r1 r2 => confidence r2 <= confidence r1) preds /\
    Forall (fun r => 0 <= confidence r <= 100) preds.
Proof.
  apply (@predict_image_top3 (fixed_network [1; 3; 2; 0]) qexp demo_model demo_table [] [1; 3; 2; 0]).
  - apply qexp_pos.
  - reflexivity.
  - simpl. lia.
  - intros i Hi. simpl in Hi. destruct i as [|[|[|[|i]]]]; [eexists; reflexivity.. | lia].
Defined.

(** C19. The first entry is the class of a largest logit: its index has
    the maximal output of the network, its confidence is the softmax of
    that output rounded to two decimals. *)
Theorem predict_image_argmax `{Network} (exp : Q -> Q) (m : Checkpoint.vit_state) (tbl : gmap Z json) (x : tensor)
    (r : prediction) (rs : list prediction) :
  (forall y, 0 < exp y) -> (forall y z, y < z -> exp y < exp z) ->
  predict_image exp m tbl x = Ok (r :: rs) ->
  exists logits i l, forward m x = Ok logits /\ logits !! i = Some l /\
    tbl !! Z.of_nat i = Some (pred_class r) /\
    confidence r = py_round2 (exp l / qsum (exp <$> logits) * 100) /\
    forall j l', logits !! j = Some l' -> l' <= l.
Proof.
  intros Hpos Hmono Hp.
  destruct (predict_image_Ok exp m tbl x _ Hp) as (logits & top & Hfw & Htop & Hpr).
  apply predictions_of_Ok in Hpr. inversion Hpr as [|[i p] ? top' ? [Hc Hconf] _]; subst.
  destruct (topk_spec 3 _ _ Htop) as (_ & _ & Hin & Hmax).
  inversion Hin as [|? ? Hip _]; subst. simpl in Hip.
  rewrite softmax_lookup in Hip. destruct (logits !! i) as [l|] eqn:Hl; [|done].
  injection Hip as <-.
  exists logits, i, l. do 4 (split; [done|]).
  intros j l' Hj. apply (softmax_reflects exp Hpos Hmono logits i j l l' Hl Hj).
  apply (Hmax i _ eq_refl j). rewrite softmax_lookup, Hj. done.
Qed.

Lemma predict_image_argmax_witness :
  exists logits i l, @forward (fixed_network [1; 3; 2; 0]) demo_model [] = Ok logits /\
    logits !! i = Some l /\
    demo_table !! Z.of_nat i = Some (JStr (lit "Tomato___Late_blight")) /\
    (4000 # 100) = py_round2 (qexp l / qsum (qexp <$> logits) * 100) /\
    forall j l', logits !! j = Some l' -> l' <= l.
Proof.
  refine (@predict_image_argmax (fixed_network [1; 3; 2; 0]) qexp demo_model demo_table []
            {| pred_class := JStr (lit "Tomato___Late_blight"); confidence := 4000 # 100 |} _
            qexp_pos qexp_mono _).
  vm_compute. reflexivity.
Defined.

(** C20. [predict_image] fails exactly when the network raises, when it
    has fewer than three outputs, or when one of the three best indices is
    missing from the class table; it then raises [RuntimeError("Model
    inference error")] and nothing else. *)
Theorem predict_image_error `{Network} (exp : Q -> Q) (m : Checkpoint.vit_state) (tbl : gmap Z json) (x : tensor)
    (e : exc) :
  predict_image exp m tbl x = Raise e <->
  e = INFERENCE_ERROR /\
  ((exists e', forward m x = Raise e') \/
   exists logits, forward m x = Ok logits /\
     ((length logits < 3)%nat \/
      exists top, topk 3 (softmax exp logits) = Ok top /\
        exists y, y ∈ top /\ tbl !! Z.of_nat y.1 = None)).
Proof.
  unfold predict_image. destruct (forward m x) as [logits|e'] eqn:Hfw; simpl;
    [|split; [intros [= <-]; eauto | by intros [-> _]]].
  destruct (decide (length logits < 3)%nat) as [Hs|Hs].
  - destruct (topk_short 3 (softmax exp logits)) as [e' ->]; [by rewrite softmax_length|].
    simpl. split; [intros [= <-]; split; [done|]; right; eauto | by intros [-> _]].
  - rewrite topk_ok by (rewrite softmax_length; lia). simpl.
    pose proof (predictions_of_raise tbl (take 3 (merge_sort by_prob (imap pair (softmax exp logits))))) as Hr.
    destruct (predictions_of _ _) as [preds|e'] eqn:E; simpl.
    + split; [done|]. intros [_ [[? [=]] | (l' & [= <-] & [Hl|(top & Htop & Hy)])]]; [lia|].
      rewrite topk_ok in Htop by (rewrite softmax_length; lia). injection Htop as <-.
      destruct (proj2 Hr ltac:(eauto)) as [? ?]. done.
    + split; [|by intros [-> _]]. intros [= <-]. split; [done|]. right.
      exists logits. split; [done|]. right. eexists.
      split; [apply topk_ok; rewrite softmax_length; lia|]. apply Hr. eauto.
Qed.

(** C21. Every entry [predict_image] returns is read off one output of
    the network: for some index [i] with logit [l], its class is the
    table's value at [i], and its confidence is [z / 100] where [z] is the
    integer nearest to [100 * 100 * softmax(l)], an even one on a tie
    ([round(confidence * 100, 2)] rounds half to even). *)
Theorem predict_image_typed `{Network} (exp : Q -> Q) (m : Checkpoint.vit_state) (tbl : gmap Z json) (x : tensor)
    (preds : list prediction) :
  predict_image exp m tbl x = Ok preds ->
  exists logits, forward m x = Ok logits /\
  Forall (fun r => exists i l z, logits !! i = Some l /\ tbl !! Z.of_nat i = Some (pred_class r) /\
            confidence r = inject_Z z / 100 /\
            nearest_even (exp l / qsum (exp <$> logits) * 100 * 100) z) preds.
Proof.
  intros Hp. destruct (predict_image_Ok exp m tbl x _ Hp) as (logits & top & Hfw & Htop & Hpr).
  exists logits. split; [done|]. apply Forall_forall. intros r Hr.
  destruct (Forall2_elem_r _ _ _ _ (predictions_of_Ok tbl top preds Hpr) Hr)
    as ([i p] & Hin & Hc & E).
  destruct (topk_spec 3 _ _ Htop) as (_ & _ & Hall & _).
  rewrite Forall_forall in Hall. specialize (Hall _ Hin). simpl in Hall.
  rewrite softmax_lookup in Hall. destruct (logits !! i) as [l|] eqn:Hl; [|done].
  injection Hall as <-. exists i, l, (round_half_even (exp l / qsum (exp <$> logits) * 100 * 100)).
  do 3 (split; [done|]). apply round_half_even_nearest.
Qed.

Definition demo_predictions : list prediction :=
  match @predict_image qexp (fixed_network [1; 3; 2; 0]) demo_model demo_table [] with
  | Ok preds => preds
  | Raise _ => []
  end.

Lemma predict_image_typed_witness :
  exists logits, @forward (fixed_network [1; 3; 2; 0]) demo_model [] = Ok logits /\
  Forall (fun r => exists i l z, logits !! i = Some l /\ demo_table !! Z.of_nat i = Some (pred_class r) /\
            confidence r = inject_Z z / 100 /\
            nearest_even (qexp l / qsum (qexp <$> logits) * 100 * 100) z) demo_predictions.
Proof.
  apply (@predict_image_typed (fixed_network [1; 3; 2; 0]) qexp demo_model demo_table [] demo_predictions).
  vm_compute. reflexivity.
Defined.

End Classifier.
