(* ===== verification/Preprocess.v ===== *)
(** * The preprocessing pipeline: [transform] (main.py, lines 32-39)

    [transforms.Compose([Resize((224, 224)), ToTensor(), Normalize(mean,
    std)])], which [preprocess_image] applies after converting the image to
    RGB.  PIL is the interface [ImageLib]: opening, the mode, the
    conversion to RGB, and the decoding and resampling that [Resize] asks
    of it, which returns the pixel rows at the requested size, each pixel
    with one byte per band of the image's mode (the 8-bit modes; PIL keeps
    the mode through [resize]), or raises on damaged data.  [ToTensor] and
    [Normalize] are modelled from torchvision's documentation: one channel
    per band, each byte divided by 255, then [(x - mean[c]) / std[c]] on
    channel [c], which raises [RuntimeError] when the tensor does not have
    one channel per entry of [mean] (the in-place [sub_] cannot broadcast;
    its message is not modelled).  The theorems give the shape
    [3 x 224 x 224] of every tensor [transform] returns, the range of each
    channel, and that [transform] succeeds on an RGB image and fails on an
    image whose mode does not have three bands. *)

From stdpp Require Import base list strings.
From Stdlib Require Import Strings.Byte ZArith QArith Lqa Lia.
From S2P Require Import Prelude Classifier.

(** The number of bands of a PIL mode ([ImageMode.getmode(mode).bands]). *)
Definition mode_bands (mode : pystr) : nat :=
  if decide (mode ∈ [lit "RGB"; lit "YCbCr"; lit "LAB"; lit "HSV"]) then 3
  else if decide (mode ∈ [lit "RGBA"; lit "RGBa"; lit "RGBX"; lit "CMYK"]) then 4
  else if decide (mode ∈ [lit "LA"; lit "La"; lit "PA"]) then 2
  else 1.

(** A pixel: one byte per band. *)
Definition pixel : Type := list Byte.byte.

(** ** PIL, as the program uses it *)
Class ImageLib := {
  image : Type;
  (** [Image.open(io.BytesIO(contents))]: reads the header; raises
      [UnidentifiedImageError] on bytes that are not an image. *)
  image_open : list Byte.byte -> res image;
  image_mode : image -> pystr;
  (** [image.convert('RGB')]: decodes the pixels, raises on damaged data;
      the image it returns is in mode ["RGB"]. *)
  image_convert_rgb : image -> res image;
  convert_rgb_mode : forall img img', image_convert_rgb img = Ok img' ->
    image_mode img' = lit "RGB";
  (** [image.resize((w, h))], as [Resize] calls it: the [h] rows of [w]
      pixels in the image's mode, or the exception of a damaged file. *)
  resize : image -> nat -> nat -> res (list (list pixel));
  resize_shape : forall img w h rows, resize img w h = Ok rows ->
    (length rows = h /\
     Forall (fun row => length row = w /\
                        Forall (fun px => length px = mode_bands (image_mode img)) row) rows)%nat
}.

Module Preprocess.

#[local] Open Scope py_scope.

(** Line 32. *)
Definition IMG_SIZE : nat := 224.

(** Line 38. *)
Definition MEAN : list Q := [485 # 1000; 456 # 1000; 406 # 1000].
Definition STD : list Q := [229 # 1000; 224 # 1000; 225 # 1000].

Definition byte_value (b : Byte.byte) : Q := inject_Z (Z.of_nat (Byte.to_nat b)).

(** [ToTensor()]: one channel per band, channels first, each byte
    divided by 255. *)
Definition to_tensor (bands : nat) (rows : list (list pixel)) : tensor :=
  (fun c => map (map (fun px => byte_value (nth c px Byte.x00) / 255)) rows) <$> seq 0 bands.

(** The arithmetic of [Normalize]: channel [c] becomes
    [(x - mean[c]) / std[c]]. *)
Definition normalize_channels (mean std : list Q) (t : tensor) : tensor :=
  zip_with (fun '(m, s) ch => map (map (fun x => (x - m) / s)) ch) (zip mean std) t.

(** [Normalize(mean, std)]: [tensor.sub_(mean).div_(std)] with [mean] and
    [std] viewed as [(-1, 1, 1)]; a channel count other than [len(mean)]
    does not broadcast in place. *)
Definition normalize (mean std : list Q) (t : tensor) : res tensor :=
  if decide (length t = length mean) then Ok (normalize_channels mean std t)
  else Raise (RuntimeError (lit "output shape does not match the broadcast shape")).

(** Lines 35-39. *)
Definition transform `{ImageLib} (img : image) : res tensor :=
  let! rows := resize img IMG_SIZE IMG_SIZE in
  normalize MEAN STD (to_tensor (mode_bands (image_mode img)) rows).

(** ** Shapes and ranges *)

(** [t.shape == (c, h, w)] *)
Definition has_shape (t : tensor) (c h w : nat) : Prop :=
  length t = c /\ Forall (fun ch => length ch = h /\ Forall (fun row => length row = w) ch) t.

(** Every value of channel [c] lies in the [c]-th interval. *)
Definition in_ranges (bounds : list (Q * Q)) (t : tensor) : Prop :=
  Forall2 (fun '(lo, hi) ch => Forall (Forall (fun x => lo <= x <= hi)) ch) bounds t.

(** The range of a normalised channel: the images of 0 and 1. *)
Definition channel_range (m s : Q) : Q * Q := ((0 - m) / s, (1 - m) / s).

Definition RANGES : list (Q * Q) := zip_with channel_range MEAN STD.

Lemma byte_value_bounds (b : Byte.byte) : 0 <= byte_value b / 255 <= 1.
Proof.
  unfold byte_value. pose proof (Byte.to_nat_bounded b) as Hb.
  assert (0 <= inject_Z (Z.of_nat (Byte.to_nat b)) <= 255) as [H0 H1].
  { split; [change 0 with (inject_Z 0) | change 255 with (inject_Z 255)];
    rewrite <- Zle_Qle; lia. }
  split; [apply Qle_shift_div_l; lra | apply Qle_shift_div_r; lra].
Qed.

Lemma map_rows_shape {A B} (f : A -> B) (rows : list (list A)) (h w : nat) :
  length rows = h -> Forall (fun row => length row = w) rows ->
  length (map (map f) rows) = h /\ Forall (fun row => length row = w) (map (map f) rows).
Proof.
  intros Hh Hw. rewrite length_map. split; [done|].
  apply Forall_map. eapply Forall_impl; [exact Hw|]. intros row Hr. by rewrite length_map.
Qed.

Lemma to_tensor_shape (bands : nat) (rows : list (list pixel)) (h w : nat) :
  length rows = h -> Forall (fun row => length row = w) rows ->
  has_shape (to_tensor bands rows) bands h w.
Proof.
  intros Hh Hw. unfold to_tensor. split; [by rewrite length_fmap, length_seq|].
  apply Forall_fmap, Forall_forall. intros c _. by apply map_rows_shape.
Qed.

Lemma map_rows_range (f : pixel -> Q) (rows : list (list pixel)) :
  (forall p, 0 <= f p <= 1) -> Forall (Forall (fun x => 0 <= x <= 1)) (map (map f) rows).
Proof.
  intros Hf. apply Forall_map, Forall_forall. intros r _.
  apply Forall_map, Forall_forall. intros p _. apply Hf.
Qed.

Lemma to_tensor_range (bands : nat) (rows : list (list pixel)) :
  Forall (Forall (Forall (fun x => 0 <= x <= 1))) (to_tensor bands rows).
Proof.
  unfold to_tensor. apply Forall_fmap, Forall_forall. intros c _.
  apply map_rows_range. intros px. apply byte_value_bounds.
Qed.

Lemma normalize_value (m s x : Q) :
  0 < s -> 0 <= x <= 1 -> (0 - m) / s <= (x - m) / s <= (1 - m) / s.
Proof.
  intros Hs Hx. unfold Qdiv. split; apply Qmult_le_compat_r; try lra;
    apply Qlt_le_weak, Qinv_lt_0_compat; lra.
Qed.

Lemma map_map_length {A B} (f : A -> B) (ch : list (list A)) (h w : nat) :
  length ch = h /\ Forall (fun row => length row = w) ch ->
  length (map (map f) ch) = h /\ Forall (fun row => length row = w) (map (map f) ch).
Proof. intros [Hh Hw]. by apply map_rows_shape. Qed.

Lemma normalize_shape (mean std : list Q) (t : tensor) (c h w : nat) :
  length mean = c -> length std = c -> has_shape t c h w ->
  has_shape (normalize_channels mean std t) c h w.
Proof.
  intros Hm Hs [Hc Ht]. rewrite <- Hc in Hm, Hs |- *. clear Hc. revert mean std Hm Hs.
  induction Ht as [|ch t Hch Ht IH]; intros [|m mean] [|s std] Hm Hs; try done.
  injection Hm as Hm. injection Hs as Hs.
  destruct (IH mean std Hm Hs) as [Hl HF]. unfold normalize_channels in *. split; [cbn; lia|].
  constructor; [by apply map_map_length | exact HF].
Qed.

Lemma normalize_range (mean std : list Q) (t : tensor) :
  Forall (fun s => 0 < s) std -> length mean = length t -> length std = length t ->
  Forall (Forall (Forall (fun x => 0 <= x <= 1))) t ->
  in_ranges (zip_with channel_range mean std) (normalize_channels mean std t).
Proof.
  intros Hs. revert mean std Hs. induction t as [|ch t IH]; intros [|m mean] [|s std] Hs Hm Hl Ht;
    try done; [constructor|].
  apply Forall_cons in Hs as [Hs0 Hs]. apply Forall_cons in Ht as [Hch Ht].
  constructor; [|apply IH; auto].
  apply Forall_map. eapply Forall_impl; [exact Hch|]. intros r Hr.
  apply Forall_map. eapply Forall_impl; [exact Hr|]. intros x Hx.
  by apply normalize_value.
Qed.

Lemma normalize_Ok (mean std : list Q) (t x : tensor) :
  normalize mean std t = Ok x -> length t = length mean /\ x = normalize_channels mean std t.
Proof. unfold normalize. case_decide; [by intros [= <-] | done]. Qed.

Lemma mode_bands_rgb : mode_bands (lit "RGB") = 3%nat.
Proof. reflexivity. Qed.

(** The result of [transform]: a [3 x 224 x 224] tensor, channel [c]
    within [(0 - MEAN[c]) / STD[c]] and [(1 - MEAN[c]) / STD[c]]. *)
Lemma transform_spec `{ImageLib} (img : image) (x : tensor) :
  transform img = Ok x -> has_shape x 3 IMG_SIZE IMG_SIZE /\ in_ranges RANGES x.
Proof.
  unfold transform. destruct (resize img IMG_SIZE IMG_SIZE) as [rows|e] eqn:Hr; [|done].
  cbn [res_bind]. intros [Hl ->]%normalize_Ok.
  destruct (resize_shape _ _ _ _ Hr) as [Hh Hw].
  assert (Hw' : Forall (fun row => length row = IMG_SIZE) rows)
    by (eapply Forall_impl; [exact Hw | by intros ? [? _]]).
  pose proof (to_tensor_shape (mode_bands (image_mode img)) rows _ _ Hh Hw') as Hsh.
  assert (Hb : mode_bands (image_mode img) = 3%nat) by (destruct Hsh as [Hc _]; by rewrite <- Hc, Hl).
  rewrite Hb in Hsh, Hl |- *. split.
  - by apply normalize_shape.
  - apply normalize_range; [repeat constructor | done | done | apply to_tensor_range].
Qed.

(** On an RGB image [transform] fails only if [resize] does. *)
Lemma transform_rgb `{ImageLib} (img : image) (rows : list (list pixel)) :
  image_mode img = lit "RGB" -> resize img IMG_SIZE IMG_SIZE = Ok rows ->
  transform img = Ok (normalize_channels MEAN STD (to_tensor 3 rows)).
Proof.
  intros Hm Hr. unfold transform. rewrite Hr, Hm, mode_bands_rgb. cbn [res_bind].
  unfold normalize, to_tensor. by rewrite decide_True by (by rewrite length_fmap, length_seq).
Qed.

(** An image whose mode does not have three bands is refused by
    [Normalize]. *)
Lemma transform_bands `{ImageLib} (img : image) :
  mode_bands (image_mode img) <> 3%nat -> exists e, transform img = Raise e.
Proof.
  intros Hb. unfold transform. destruct (resize img IMG_SIZE IMG_SIZE) as [rows|e]; [|eauto].
  cbn [res_bind]. unfold normalize, to_tensor. rewrite decide_False; [eauto|].
  by rewrite length_fmap, length_seq.
Qed.

End Preprocess.
