(* ===== verification/App.v ===== *)
(** * The service: state, startup and the HTTP handlers (main.py)

    [app.state] holds the class table, the network and the Gemini handle.
    Startup runs the three [@app.on_event("startup")] handlers in the order
    they are registered; the first exception aborts it.  The handlers of
    [POST /predict] and [GET /test-gemini] read the state and never change
    it.  PIL is the interface [ImageLib] (Preprocess.v); the network is
    [Network] (Classifier.v), the Gemini library [GenAI] (Advisory.v).
    The theorems show what a successful startup guarantees, which
    exceptions abort it, and the status code and body of [/predict] on
    each kind of input. *)

From stdpp Require Import base list gmap strings.
From Stdlib Require Import Ascii ZArith QArith Lia Sorted.
From S2P Require Import Prelude PyStr Advisory GeminiConfig ClassIndex Classifier Checkpoint Preprocess.
Import PyStr.

Module App.

#[local] Open Scope py_scope.

(** ** Python [str()] of a JSON value, as the f-string of the prompt
    prints the top class *)

Definition SQUOTE : ascii := "'"%char.
Definition DQUOTE : ascii := ascii_of_nat 34.
Definition BACKSLASH : ascii := "\"%char.

Definition hex_digit (n : nat) : ascii :=
  if (n <? 10)%nat then ascii_of_nat (48 + n) else ascii_of_nat (87 + n).

(** One character of [repr(s)] between the quotes [q]: the backslash and
    the quote are escaped, tab, newline and carriage return get their
    escapes, and the characters Python does not print (the controls, DEL,
    0x80-0xa0 and the soft hyphen 0xad) become [\xNN]. *)
Definition repr_char (q c : ascii) : pystr :=
  let n := nat_of_ascii c in
  if bool_decide (c = q) || bool_decide (c = BACKSLASH) then [BACKSLASH; c]
  else if (n =? 9)%nat then [BACKSLASH; "t"%char]
  else if (n =? 10)%nat then [BACKSLASH; "n"%char]
  else if (n =? 13)%nat then [BACKSLASH; "r"%char]
  else if ((n <? 32) || ((127 <=? n) && (n <=? 160)) || (n =? 173))%nat
  then [BACKSLASH; "x"%char; hex_digit (n / 16); hex_digit (n mod 16)]
  else [c].

(** [repr(s)]: single quotes, unless the string has a single quote and no
    double quote. *)
Definition py_str_repr (s : pystr) : pystr :=
  let q := if bool_decide (SQUOTE ∈ s) && negb (bool_decide (DQUOTE ∈ s)) then DQUOTE
           else SQUOTE in
  q :: (s ≫= repr_char q) ++ [q].

(** [repr] of a JSON value, as the elements of a list or dict print. *)
Fixpoint py_repr (j : json) : pystr :=
  match j with
  | JNull => lit "None"
  | JBool true => lit "True"
  | JBool false => lit "False"
  | JNum n => ClassIndex.py_str_Z n
  | JStr s => py_str_repr s
  | JList l => "["%char :: py_join (lit ", ") (map py_repr l) ++ ["]"%char]
  | JDict kv =>
      "{"%char :: py_join (lit ", ")
        (map (fun '(k, v) => py_str_repr k ++ lit ": " ++ py_repr v) kv) ++ ["}"%char]
  end.

Definition py_str_json (j : json) : pystr :=
  match j with JStr s => s | _ => py_repr j end.

Section Service.

Context `{GenAI} `{ImageLib} `{Network}.
Context (exp : Q -> Q).

(** ** The state *)

(** [app.state]: an attribute never set is [None]. *)
Record app_state := {
  idx_to_class : option (gmap Z json);
  model : option Checkpoint.vit_state;
  gemini_model : option gen_model
}.

Definition initial_state : app_state :=
  {| idx_to_class := None; model := None; gemini_model := None |}.

(** What startup reads from the outside world: the files, by path, as
    [open] with [json.load] and as [torch.load] read them (or the exception
    they raise), the backbone [torch.hub.load] returns, whether CUDA is
    available, and the environment with the .env files. *)
Record startup_inputs := {
  read_json : pystr -> res json;
  hub : res (list (pystr * list nat));
  torch_load : pystr -> res ckpt;
  cuda_available : bool;
  env_world : GeminiConfig.world
}.

(** Lines 29-30. *)
Definition MODEL_PATH : pystr := lit "../ml_models/vit_model_version_one.pth".
Definition CLASS_NAMES_PATH : pystr := lit "../ml_models/class_names.json".

(** Lines 56-57: [json.load(open(CLASS_NAMES_PATH))]. *)
Definition class_file (inp : startup_inputs) : res json := read_json inp CLASS_NAMES_PATH.

(** Line 87: [torch.load(MODEL_PATH, map_location=DEVICE)]. *)
Definition checkpoint_file (inp : startup_inputs) : res ckpt := torch_load inp MODEL_PATH.

(** Line 31: [DEVICE]. *)
Definition app_device (inp : startup_inputs) : pystr := Checkpoint.DEVICE (cuda_available inp).

(** ** The startup handlers *)

(** Lines 54-71. *)
Definition on_load_class_mapping (inp : startup_inputs) (st : app_state) : res app_state :=
  let! tbl := ClassIndex.load_class_mapping (class_file inp) in
  Ok {| idx_to_class := Some tbl; model := model st; gemini_model := gemini_model st |}.

(** Lines 75-109: [num_classes = len(app.state.idx_to_class)]. *)
Definition on_load_model (inp : startup_inputs) (st : app_state) : res app_state :=
  try_except
    (let! st1 :=
       match idx_to_class st with
       | Some _ => Ok st
       | None => on_load_class_mapping inp st
       end in
     match idx_to_class st1 with
     | None => Raise (LibError (lit "'State' object has no attribute 'idx_to_class'"))
     | Some tbl =>
         let! vit := Checkpoint.build_model (app_device inp) (size tbl) (hub inp) (checkpoint_file inp) in
         Ok {| idx_to_class := idx_to_class st1; model := Some vit;
               gemini_model := gemini_model st1 |}
     end)
    (fun _ => Raise Checkpoint.MODEL_LOAD_ERROR).

(** Lines 113-166: never raises.  The environment it loads from
    [.env.local] is read by no other handler, so the state keeps only the
    Gemini handle. *)
Definition on_configure_gemini (inp : startup_inputs) (st : app_state) : app_state :=
  {| idx_to_class := idx_to_class st; model := model st;
     gemini_model := (GeminiConfig.configure_gemini (env_world inp)).2 |}.

(** The three handlers in the order of registration. *)
Definition startup (inp : startup_inputs) : res app_state :=
  let! st1 := on_load_class_mapping inp initial_state in
  let! st2 := on_load_model inp st1 in
  Ok (on_configure_gemini inp st2).

(** ** [preprocess_image] (lines 225-234) *)

Definition preprocess_image (img : image) : res tensor :=
  try_except
    (let! rgb :=
       if decide (image_mode img = lit "RGB") then Ok img else image_convert_rgb img in
     Preprocess.transform rgb)
    (fun _ => Raise (HTTPException 422 (lit "Invalid image format"))).

(** [predict_image] on the state: reading a missing [app.state.model] or
    [app.state.idx_to_class] raises [AttributeError] inside its [try],
    which turns it into the same [RuntimeError].  The forward pass of the
    stored model is the class [Network]: the theorems hold for every
    network, whatever weights the checkpoint gave it. *)
Definition predict_image_state (st : app_state) (x : tensor) : res (list Classifier.prediction) :=
  match model st, idx_to_class st with
  | Some vit, Some tbl => Classifier.predict_image exp vit tbl x
  | _, _ => Raise Classifier.INFERENCE_ERROR
  end.

(** ** [POST /predict] (lines 286-329) *)

Definition MODEL_LABEL : pystr := lit "Vision Transformer".

(** The upload: its name and the outcome of [await file.read()]. *)
Record upload := {
  filename : option pystr;
  file_read : res (list Byte.byte)
}.

(** The JSON object of lines 315-323. *)
Record predict_response := {
  resp_filename : option pystr;
  resp_predictions : list Classifier.prediction;
  resp_model : pystr;
  resp_input_size : Z;
  gemini_severity : pystr;
  gemini_treatment : pystr;
  gemini_prevention : pystr
}.

(** Lines 298-313: the top class, and the advisory text when Gemini is
    configured; the inner [try] keeps the placeholders on any failure. *)
Definition advisory_for (st : app_state) (predictions : list Classifier.prediction)
    : res (pystr * pystr * pystr) :=
  let top_prediction :=
    match predictions with
    | p :: _ => Classifier.pred_class p
    | [] => JStr (lit "Unknown disease")
    end in
  match gemini_model st with
  | Some gm =>
      try_except (Advisory.generate_gemini_content gm (py_str_json top_prediction))
        (fun _ => Ok Advisory.placeholders)
  | None => Ok Advisory.placeholders
  end.

(** Lines 315-323. *)
Definition response_of (file : upload) (predictions : list Classifier.prediction)
    (advice : pystr * pystr * pystr) : predict_response :=
  let '(severity, treatment, prevention) := advice in
  {| resp_filename := filename file; resp_predictions := predictions;
     resp_model := MODEL_LABEL; resp_input_size := Z.of_nat Preprocess.IMG_SIZE;
     gemini_severity := severity; gemini_treatment := treatment;
     gemini_prevention := prevention |}.

(** The body of the outer [try] (lines 290-323). *)
Definition predict_body (st : app_state) (file : upload) : res predict_response :=
  let! contents := file_read file in
  if decide (contents = []) then Raise (HTTPException 400 (lit "Empty file uploaded"))
  else
    let! img := image_open contents in
    let! processed_tensor := preprocess_image img in
    let! predictions := predict_image_state st processed_tensor in
    let! advice := advisory_for st predictions in
    Ok (response_of file predictions advice).

(** Lines 325-329: an [HTTPException] goes out as it is, anything else
    becomes a 500 without detail. *)
Definition predict_handler (e : exc) : res predict_response :=
  match e with
  | HTTPException code detail => Raise (HTTPException code detail)
  | _ => Raise (HTTPException 500 (lit "Internal server error"))
  end.

Definition predict (st : app_state) (file : upload) : res predict_response :=
  try_except (predict_body st file) predict_handler.

(** ** [GET /test-gemini] (lines 169-199) *)

Definition TEST_GEMINI_PROMPT : pystr := lit "What is the capital of France?".

Inductive test_gemini_response :=
  | TestSuccess (prompt response : pystr)
  | TestError (status : Z) (message : pystr).

(** [str(e)] of an exception. *)
Definition exc_message (e : exc) : pystr :=
  match e with
  | ValueError m | RuntimeError m | LibError m => m
  | HTTPException _ d => d
  | KeyError | IndexError => []
  end.

Definition test_gemini (st : app_state) : test_gemini_response :=
  match gemini_model st with
  | None => TestError 500 (lit "Gemini not configured")
  | Some gm =>
      match generate_content gm TEST_GEMINI_PROMPT with
      | Raise e => TestError 500 (exc_message e)
      | Ok [] => TestError 500 (lit "Empty response from Gemini")
      | Ok text => TestSuccess TEST_GEMINI_PROMPT text
      end
  end.

End Service.

(** ** Properties *)

Section Properties.

Context `{GenAI} `{ImageLib} `{Network}.
Context (exp : Q -> Q).

(** What a request reports apart from the advisory text. *)
Definition classification (r : predict_response) :=
  (resp_filename r, resp_predictions r, resp_model r, resp_input_size r).

(** An exception that is not FastAPI's [HTTPException]. *)
Definition not_http (e : exc) : Prop := forall code detail, e <> HTTPException code detail.

(** *** Startup *)

(** The three handlers in one step: the class table, then the network
    with one output per entry of the table, then the Gemini handle. *)
Lemma startup_unfold (inp : startup_inputs) :
  startup inp =
    match ClassIndex.load_class_mapping (class_file inp) with
    | Raise e => Raise e
    | Ok tbl =>
        match Checkpoint.build_model (app_device inp) (size tbl) (hub inp) (checkpoint_file inp) with
        | Ok vit =>
            Ok {| idx_to_class := Some tbl; model := Some vit;
                  gemini_model := (GeminiConfig.configure_gemini (env_world inp)).2 |}
        | Raise _ => Raise Checkpoint.MODEL_LOAD_ERROR
        end
    end.
Proof.
  unfold startup, on_load_class_mapping.
  destruct (ClassIndex.load_class_mapping (class_file inp)) as [tbl|e]; [|done].
  cbn [res_bind]. unfold on_load_model. cbn [res_bind idx_to_class].
  by destruct (Checkpoint.build_model _ _ _ _).
Qed.

(** A successful startup, step by step. *)
Lemma startup_Ok_inv (inp : startup_inputs) (st : app_state) :
  startup inp = Ok st ->
  exists tbl vit, ClassIndex.load_class_mapping (class_file inp) = Ok tbl /\
    Checkpoint.build_model (app_device inp) (size tbl) (hub inp) (checkpoint_file inp) = Ok vit /\
    Checkpoint.num_classes vit = size tbl /\ Checkpoint.device vit = app_device inp /\
    Checkpoint.training vit = false /\
    st = {| idx_to_class := Some tbl; model := Some vit;
            gemini_model := (GeminiConfig.configure_gemini (env_world inp)).2 |}.
Proof.
  rewrite startup_unfold.
  destruct (ClassIndex.load_class_mapping _) as [tbl|e]; [|done].
  destruct (Checkpoint.build_model _ _ _ _) as [vit|e] eqn:Hb; [|done].
  intros [= <-]. exists tbl, vit. do 2 (split; [done|]).
  destruct (Checkpoint.build_model_ready _ _ _ _ _ Hb) as (? & ? & ?). done.
Qed.

(** A failed startup raises one of the two errors of the handlers. *)
Lemma startup_Raise_inv (inp : startup_inputs) (e : exc) :
  startup inp = Raise e -> e = ClassIndex.CLASS_LOAD_ERROR \/ e = Checkpoint.MODEL_LOAD_ERROR.
Proof.
  rewrite startup_unfold.
  destruct (ClassIndex.load_class_mapping _) as [tbl|e'] eqn:Hl.
  - destruct (Checkpoint.build_model _ _ _ _); [done|]. intros [= <-]. by right.
  - intros [= <-]. left. by apply (ClassIndex.load_class_mapping_raise _ _ Hl).
Qed.

(** *** [/predict] *)

Lemma advisory_for_ok (st : app_state) (preds : list Classifier.prediction) :
  exists a, advisory_for st preds = Ok a.
Proof.
  unfold advisory_for. destruct (gemini_model st); [|eauto].
  apply (try_except_total _ (fun _ => Advisory.placeholders)).
Qed.

Lemma predict_image_state_raise (st : app_state) (x : tensor) (e : exc) :
  predict_image_state exp st x = Raise e -> e = Classifier.INFERENCE_ERROR.
Proof.
  unfold predict_image_state. destruct (model st), (idx_to_class st); try congruence.
  apply try_except_reraise.
Qed.

Lemma preprocess_image_raise (img : image) (e : exc) :
  preprocess_image img = Raise e -> e = HTTPException 422 (lit "Invalid image format").
Proof. apply try_except_reraise. Qed.

Lemma predict_handler_not_http (e : exc) :
  not_http e -> predict_handler e = Raise (HTTPException 500 (lit "Internal server error")).
Proof. intros Hn. destruct e; try done. by destruct (Hn status detail). Qed.

(** A request that passes every step. *)
Lemma predict_steps (st : app_state) (file : upload) contents img x preds advice :
  file_read file = Ok contents -> contents <> [] -> image_open contents = Ok img ->
  preprocess_image img = Ok x -> predict_image_state exp st x = Ok preds ->
  advisory_for st preds = Ok advice ->
  predict exp st file = Ok (response_of file preds advice).
Proof.
  intros Hr Hc Ho Hp Hpi Ha. unfold predict, predict_body.
  rewrite Hr. cbn [res_bind]. rewrite decide_False by done.
  rewrite Ho; cbn [res_bind]. rewrite Hp; cbn [res_bind].
  rewrite Hpi; cbn [res_bind]. by rewrite Ha.
Qed.

(** Every successful request passed every step. *)
Lemma predict_Ok_inv (st : app_state) (file : upload) (resp : predict_response) :
  predict exp st file = Ok resp ->
  exists contents img x preds advice,
    file_read file = Ok contents /\ contents <> [] /\ image_open contents = Ok img /\
    preprocess_image img = Ok x /\ predict_image_state exp st x = Ok preds /\
    advisory_for st preds = Ok advice /\ resp = response_of file preds advice.
Proof.
  unfold predict. destruct (predict_body exp st file) as [r|e] eqn:E; cbn;
    [|by destruct e].
  intros [= <-]. unfold predict_body in E.
  apply res_bind_Ok_inv in E as (contents & Hr & E). case_decide as Hc; [done|].
  apply res_bind_Ok_inv in E as (img & Ho & E).
  apply res_bind_Ok_inv in E as (x & Hp & E).
  apply res_bind_Ok_inv in E as (preds & Hpi & E).
  apply res_bind_Ok_inv in E as (advice & Ha & [= <-]).
  by exists contents, img, x, preds, advice.
Qed.

(** *** Properties of startup *)

(** Startup succeeds exactly when the class table loads and the
    network builds with one output per entry of the table; the state it
    leaves holds both and the Gemini handle [configure_gemini] bound,
    whatever the outcome of the Gemini step. *)
Theorem startup_ok (inp : startup_inputs) (st : app_state) :
  startup inp = Ok st <->
  exists tbl vit, ClassIndex.load_class_mapping (class_file inp) = Ok tbl /\
    Checkpoint.build_model (app_device inp) (size tbl) (hub inp) (checkpoint_file inp) = Ok vit /\
    st = {| idx_to_class := Some tbl; model := Some vit;
            gemini_model := (GeminiConfig.configure_gemini (env_world inp)).2 |}.
Proof.
  split.
  - intros Hs. destruct (startup_Ok_inv _ _ Hs) as (tbl & vit & Hl & Hb & _ & _ & _ & ->).
    by exists tbl, vit.
  - intros (tbl & vit & Hl & Hb & ->). by rewrite startup_unfold, Hl, Hb.
Qed.

(** C3. The invariant the requests rely on: after a successful startup
    the class table and the network are both present, the network has one
    output per entry of the table, sits on [DEVICE] and is in evaluation
    mode. *)
Theorem startup_serving (inp : startup_inputs) (st : app_state) :
  startup inp = Ok st ->
  exists tbl vit, idx_to_class st = Some tbl /\ model st = Some vit /\
    Checkpoint.num_classes vit = size tbl /\ Checkpoint.device vit = app_device inp /\
    Checkpoint.training vit = false.
Proof.
  intros Hs. destruct (startup_Ok_inv _ _ Hs) as (tbl & vit & _ & _ & Hn & Hd & Ht & ->).
  by exists tbl, vit.
Qed.

(** C4. Startup fails exactly when the class table does not load, with
    [RuntimeError("Could not load class names")], or when it loads and
    the network does not build, with [RuntimeError("Could not initialize
    model")]; a failure of the Gemini step never aborts it. *)
Theorem startup_error (inp : startup_inputs) (e : exc) :
  startup inp = Raise e <->
  (e = ClassIndex.CLASS_LOAD_ERROR /\
     exists e', ClassIndex.load_class_mapping (class_file inp) = Raise e') \/
  (e = Checkpoint.MODEL_LOAD_ERROR /\
     exists tbl e', ClassIndex.load_class_mapping (class_file inp) = Ok tbl /\
       Checkpoint.build_model (app_device inp) (size tbl) (hub inp) (checkpoint_file inp) = Raise e').
Proof.
  rewrite startup_unfold.
  destruct (ClassIndex.load_class_mapping _) as [tbl|e'] eqn:Hl.
  - destruct (Checkpoint.build_model _ _ _ _) as [vit|e'] eqn:Hb.
    + split; [done|]. intros [[_ [? [=]]] | (_ & t & ? & Ht & Hv)].
      injection Ht as <-. congruence.
    + split; [intros [= <-]; right; split; [done|]; by exists tbl, e'|].
      by intros [[_ [? [=]]] | (-> & _)].
  - pose proof (ClassIndex.load_class_mapping_raise _ _ Hl) as ->.
    split; [intros [= <-]; left; split; [done|]; by eexists|].
    by intros [[-> _] | (_ & ? & ? & [=] & _)].
Qed.

(** Without an API key (in the environment or in the [.env.local]
    file) startup still succeeds when the class table and the network
    load; [/test-gemini] then answers 500 ["Gemini not configured"] and
    every successful [/predict] carries the three placeholder texts. *)
Theorem startup_without_key (inp : startup_inputs) (st : app_state) :
  startup inp = Ok st ->
  GeminiConfig.loaded_environ (env_world inp) !! GeminiConfig.GEMINI_API_KEY = None ->
  test_gemini st = TestError 500 (lit "Gemini not configured") /\
  forall file resp, predict exp st file = Ok resp ->
    (gemini_severity resp, gemini_treatment resp, gemini_prevention resp) =
      Advisory.placeholders.
Proof.
  intros Hs Hk. rewrite startup_unfold in Hs.
  destruct (ClassIndex.load_class_mapping _) as [tbl|e]; [|done].
  destruct (Checkpoint.build_model _ _ _ _) as [vit|e]; [|done].
  injection Hs as <-. rewrite GeminiConfig.configure_gemini_unfold, Hk. cbn [snd].
  split; [done|]. intros file resp Hp.
  destruct (predict_Ok_inv _ _ _ Hp) as (? & ? & ? & preds & a & _ & _ & _ & _ & _ & Ha & ->).
  injection Ha as <-. done.
Qed.

(** C13. After startup, [/test-gemini] answers with success exactly when
    the API key was set and not empty, a model name passed the startup
    test, and the first model that passed it answers the diagnostic prompt
    with a non-empty text; the response echoes the prompt and that text. *)
Theorem test_gemini_after_startup (inp : startup_inputs) (st : app_state)
    (prompt text : pystr) :
  startup inp = Ok st ->
  test_gemini st = TestSuccess prompt text <->
  exists key, GeminiConfig.loaded_environ (env_world inp) !! GeminiConfig.GEMINI_API_KEY =
                Some key /\ key <> [] /\
  exists m, GeminiConfig.first_accepted (Some key) GeminiConfig.MODEL_NAMES m /\
    generate_content m TEST_GEMINI_PROMPT = Ok text /\ text <> [] /\
    prompt = TEST_GEMINI_PROMPT.
Proof.
  intros Hs. destruct (startup_Ok_inv _ _ Hs) as (tbl & vit & _ & _ & _ & _ & _ & ->).
  unfold test_gemini. cbn [gemini_model]. rewrite GeminiConfig.configure_gemini_unfold.
  cbn [snd]. unfold genai_configure.
  destruct (GeminiConfig.loaded_environ _ !! _) as [[|c key]|] eqn:Hk.
  - split; [done|]. by intros (k & [= <-] & ? & _).
  - setoid_rewrite <- GeminiConfig.try_models_spec.
    destruct (GeminiConfig.try_models _ GeminiConfig.MODEL_NAMES) as [m|] eqn:Ht.
    + destruct (generate_content m TEST_GEMINI_PROMPT) as [[|a t]|e] eqn:Hg.
      * split; [done|]. intros (k & [= <-] & _ & m' & Hm & Hg' & Hne & _). congruence.
      * split.
        -- intros [= <- <-]. exists (c :: key). do 2 (split; [done|]). by exists m.
        -- intros (k & [= <-] & _ & m' & Hm & Hg' & _ & ->). rewrite Ht in Hm. injection Hm as <-.
           rewrite Hg in Hg'. by injection Hg' as <-.
      * split; [done|]. intros (k & [= <-] & _ & m' & Hm & Hg' & _). congruence.
    + split; [done|]. intros (k & [= <-] & _ & m' & Hm & _). congruence.
  - split; [done|]. by intros (k & [=] & _).
Qed.

(** *** Properties of [/predict] *)

(** C7. An empty upload is answered with 400 ["Empty file uploaded"]. *)
Theorem predict_empty_file (st : app_state) (file : upload) :
  file_read file = Ok [] ->
  predict exp st file = Raise (HTTPException 400 (lit "Empty file uploaded")).
Proof. intros Hr. unfold predict, predict_body. by rewrite Hr. Qed.

(** C6. Bytes that PIL cannot open as an image are answered with 500
    ["Internal server error"], not with a client error: [Image.open] is
    called outside [preprocess_image], so its [UnidentifiedImageError]
    reaches the generic handler. *)
Theorem predict_not_image (st : app_state) (file : upload) (contents : list Byte.byte)
    (e : exc) :
  file_read file = Ok contents -> contents <> [] ->
  image_open contents = Raise e -> not_http e ->
  predict exp st file = Raise (HTTPException 500 (lit "Internal server error")).
Proof.
  intros Hr Hc Ho Hn. unfold predict, predict_body.
  rewrite Hr. cbn [res_bind]. rewrite decide_False by done. rewrite Ho.
  by apply predict_handler_not_http.
Qed.

(** C8. An image PIL opens but cannot convert to RGB, or cannot decode
    and resize, is answered with 422 ["Invalid image format"]. *)
Theorem predict_bad_image (st : app_state) (file : upload) (contents : list Byte.byte)
    (img : image) :
  file_read file = Ok contents -> contents <> [] -> image_open contents = Ok img ->
  (image_mode img <> lit "RGB" /\ (exists e, image_convert_rgb img = Raise e)) \/
  (image_mode img = lit "RGB" /\ (exists e, resize img 224 224 = Raise e)) ->
  predict exp st file = Raise (HTTPException 422 (lit "Invalid image format")).
Proof.
  intros Hr Hc Ho Hpre. unfold predict, predict_body.
  rewrite Hr. cbn [res_bind]. rewrite decide_False by done. rewrite Ho. cbn [res_bind].
  unfold preprocess_image.
  destruct Hpre as [[Hm [e He]] | [Hm [e He]]];
    [rewrite decide_False by done; rewrite He | rewrite decide_True by done; cbn [res_bind];
     unfold Preprocess.transform, Preprocess.IMG_SIZE; rewrite He]; done.
Qed.

(** C12. Whatever the mode of the image PIL opened, when its conversion
    to RGB succeeds (the code converts exactly the images that are not
    already RGB) and the RGB image decodes and resizes, [preprocess_image]
    succeeds with a [3 x 224 x 224] tensor whose channel [c] lies between
    [(0 - mean[c]) / std[c]] and [(1 - mean[c]) / std[c]], the normalised
    images of black and white. *)
Theorem preprocess_image_shape (img rgb : image) (rows : list (list pixel)) :
  (image_mode img = lit "RGB" -> rgb = img) ->
  (image_mode img <> lit "RGB" -> image_convert_rgb img = Ok rgb) ->
  resize rgb 224 224 = Ok rows ->
  exists x, preprocess_image img = Ok x /\
    Preprocess.has_shape x 3 224 224 /\ Preprocess.in_ranges Preprocess.RANGES x.
Proof.
  intros Hsame Hconv Hr. unfold preprocess_image.
  assert (Hm : image_mode rgb = lit "RGB" /\
               (if decide (image_mode img = lit "RGB") then Ok img else image_convert_rgb img)
               = Ok rgb).
  { case_decide as Hm; [by rewrite (Hsame Hm)|].
    split; [by eapply convert_rgb_mode, Hconv | by apply Hconv]. }
  destruct Hm as [Hm ->]. cbn [res_bind].
  rewrite (Preprocess.transform_rgb rgb rows Hm Hr). cbn [try_except].
  eexists. split; [done|]. by eapply Preprocess.transform_spec, Preprocess.transform_rgb.
Qed.

(** C5. As long as reading the upload and opening the image raise no
    [HTTPException] of their own, [/predict] fails only with 400 ["Empty
    file uploaded"], 422 ["Invalid image format"] or 500 ["Internal
    server error"]: no internal message reaches the client. *)
Theorem predict_errors (st : app_state) (file : upload) (e : exc) :
  (forall e', file_read file = Raise e' -> not_http e') ->
  (forall b e', image_open b = Raise e' -> not_http e') ->
  predict exp st file = Raise e ->
  e = HTTPException 400 (lit "Empty file uploaded") \/
  e = HTTPException 422 (lit "Invalid image format") \/
  e = HTTPException 500 (lit "Internal server error").
Proof.
  intros Hrd Hop. unfold predict, predict_body.
  destruct (file_read file) as [c|e1] eqn:Hr; cbn [res_bind try_except];
    [|rewrite predict_handler_not_http by auto; intros [= <-]; auto].
  case_decide; [cbn [try_except predict_handler]; intros [= <-]; auto|].
  destruct (image_open c) as [img|e1] eqn:Ho; cbn [res_bind try_except];
    [|rewrite predict_handler_not_http by eauto; intros [= <-]; auto].
  destruct (preprocess_image img) as [x|e1] eqn:Hp; cbn [res_bind try_except];
    [|rewrite (preprocess_image_raise _ _ Hp); intros [= <-]; auto].
  destruct (predict_image_state exp st x) as [preds|e1] eqn:Hpi; cbn [res_bind try_except].
  - destruct (advisory_for_ok st preds) as [a ->]. done.
  - rewrite (predict_image_state_raise _ _ _ Hpi). intros [= <-]. auto.
Qed.

(** C9. Without a Gemini handle every successful response carries the
    three placeholder texts. *)
Theorem predict_unconfigured (st : app_state) (file : upload) (resp : predict_response) :
  gemini_model st = None -> predict exp st file = Ok resp ->
  (gemini_severity resp, gemini_treatment resp, gemini_prevention resp) =
    Advisory.placeholders.
Proof.
  intros Hg Hp.
  destruct (predict_Ok_inv _ _ _ Hp) as (? & ? & ? & preds & a & _ & _ & _ & _ & _ & Ha & ->).
  unfold advisory_for in Ha. rewrite Hg in Ha. by injection Ha as <-.
Qed.

(** C10. The Gemini handle never changes whether a request succeeds, the
    error it gets, or the classification it returns: only the three
    advisory texts depend on it. *)
Theorem predict_advisory_independent (st : app_state) (gm : option gen_model)
    (file : upload) :
  res_map classification (predict exp st file) =
  res_map classification
    (predict exp {| idx_to_class := idx_to_class st; model := model st;
                    gemini_model := gm |} file).
Proof.
  unfold predict, predict_body.
  destruct (file_read file) as [c|e]; cbn [res_bind]; [|done].
  case_decide; [done|].
  destruct (image_open c) as [img|e]; cbn [res_bind]; [|done].
  destruct (preprocess_image img) as [x|e]; cbn [res_bind]; [|done].
  change (predict_image_state exp {| idx_to_class := idx_to_class st; model := model st;
                                     gemini_model := gm |} x)
    with (predict_image_state exp st x).
  destruct (predict_image_state exp st x) as [preds|e]; cbn [res_bind]; [|done].
  destruct (advisory_for_ok st preds) as [[[a1 a2] a3] ->].
  destruct (advisory_for_ok {| idx_to_class := idx_to_class st; model := model st;
                               gemini_model := gm |} preds) as [[[b1 b2] b3] ->].
  done.
Qed.

(** C1. End to end: after a successful startup from a list of at least
    three labels, an image that opens and preprocesses, on which the
    forward pass of the loaded network runs, is answered 200 with the
    file name and exactly three predictions, in descending order of
    confidence, each confidence in [0, 100]: the network has one output
    per label because startup built its head from the table. *)
Theorem predict_after_startup (inp : startup_inputs) (st : app_state) (labels : list json)
    (file : upload) contents img x :
  (forall y, 0 < exp y) ->
  startup inp = Ok st -> class_file inp = Ok (JList labels) ->
  file_read file = Ok contents -> contents <> [] ->
  image_open contents = Ok img -> preprocess_image img = Ok x ->
  (forall vit, model st = Some vit -> exists logits, forward vit x = Ok logits) ->
  (3 <= length labels)%nat ->
  exists resp, predict exp st file = Ok resp /\
    resp_filename resp = filename file /\
    (length (resp_predictions resp) = 3)%nat /\
    StronglySorted (fun r1 r2 => Classifier.confidence r2 <= Classifier.confidence r1)
      (resp_predictions resp) /\
    Forall (fun r => 0 <= Classifier.confidence r <= 100) (resp_predictions resp).
Proof.
  intros Hexp Hs Hc Hr Hne Ho Hp Hrun H3.
  rewrite startup_unfold, Hc in Hs.
  destruct (ClassIndex.load_class_mapping_JList labels) as [Hl Hsize]. rewrite Hl in Hs.
  destruct (Checkpoint.build_model _ _ _ _) as [vit|] eqn:Hb; [|done]. injection Hs as <-.
  destruct (Hrun vit eq_refl) as [logits Hfw].
  pose proof (forward_outputs _ _ _ Hfw) as Hhead.
  destruct (Checkpoint.build_model_ready _ _ _ _ _ Hb) as (Hn & _ & _).
  rewrite Hn, Hsize in Hhead.
  assert (Htbl : forall i, (i < length logits)%nat ->
            is_Some (ClassIndex.enumerate_into 0 labels ∅ !! Z.of_nat i)).
  { intros i Hi. rewrite ClassIndex.enumerate_into_lookup, decide_True by lia.
    rewrite Z.sub_0_r, Nat2Z.id. apply lookup_lt_is_Some_2. lia. }
  destruct (Classifier.predict_image_some exp vit (ClassIndex.enumerate_into 0 labels ∅) x logits
              Hfw ltac:(lia) Htbl) as [preds Hpi].
  destruct (advisory_for_ok
              {| idx_to_class := Some (ClassIndex.enumerate_into 0 labels ∅);
                 model := Some vit;
                 gemini_model := (GeminiConfig.configure_gemini (env_world inp)).2 |} preds)
    as [[[a1 a2] a3] Ha].
  eexists. split; [by eapply predict_steps|]. cbn.
  split; [done|]. by apply (Classifier.predict_image_shape exp Hexp vit (ClassIndex.enumerate_into 0 labels ∅) x).
Qed.

(** C2. A deployment whose class table has fewer than three entries
    starts (nothing at startup checks the size), but then every upload
    that reads, opens and preprocesses is answered 500 ["Internal server
    error"]: the loaded network has one output per entry of the table, so
    [torch.topk(probabilities, 3)] raises, or the forward pass itself
    does. *)
Theorem predict_small_table (inp : startup_inputs) (st : app_state) (file : upload)
    contents img x :
  startup inp = Ok st ->
  (forall tbl, idx_to_class st = Some tbl -> (size tbl < 3)%nat) ->
  file_read file = Ok contents -> contents <> [] ->
  image_open contents = Ok img -> preprocess_image img = Ok x ->
  predict exp st file = Raise (HTTPException 500 (lit "Internal server error")).
Proof.
  intros Hs Hsmall Hr Hne Ho Hp.
  destruct (startup_Ok_inv _ _ Hs) as (tbl & vit & _ & _ & Hn & _ & _ & ->).
  specialize (Hsmall tbl eq_refl).
  assert (Hpi : predict_image_state exp
                  {| idx_to_class := Some tbl; model := Some vit;
                     gemini_model := (GeminiConfig.configure_gemini (env_world inp)).2 |} x =
                Raise Classifier.INFERENCE_ERROR).
  { cbn [predict_image_state model idx_to_class]. unfold Classifier.predict_image.
    destruct (forward vit x) as [logits|e] eqn:Hf; cbn [res_bind try_except]; [|done].
    pose proof (forward_outputs _ _ _ Hf) as Hl.
    destruct (Classifier.topk_short 3 (Classifier.softmax exp logits)) as [e ->];
      [rewrite Classifier.softmax_length; lia | done]. }
  unfold predict, predict_body. rewrite Hr. cbn [res_bind]. rewrite decide_False by done.
  rewrite Ho. cbn [res_bind]. rewrite Hp. cbn [res_bind]. rewrite Hpi. reflexivity.
Qed.

(** C11. With Gemini configured, a successful [/predict] asks Gemini about
    the class of its first prediction: its three advisory fields are what
    [generate_gemini_content] returns for [str()] of that class, and the
    ["Unknown disease"] fallback of line 299 is never used (a successful
    [predict_image] has three entries). *)
Theorem predict_advice_top_class (st : app_state) (file : upload) (resp : predict_response)
    (gm : gen_model) :
  (forall y, 0 < exp y) ->
  gemini_model st = Some gm -> predict exp st file = Ok resp ->
  exists r rs, resp_predictions resp = r :: rs /\
    Advisory.generate_gemini_content gm (py_str_json (Classifier.pred_class r)) =
      Ok (gemini_severity resp, gemini_treatment resp, gemini_prevention resp).
Proof.
  intros Hexp Hg Hp.
  destruct (predict_Ok_inv _ _ _ Hp) as (? & ? & x & preds & [[sev tr] pr] & _ & _ & _ & _ & Hpi & Ha & ->).
  unfold predict_image_state in Hpi.
  destruct (model st) as [vit|], (idx_to_class st) as [tbl|]; try done.
  destruct (Classifier.predict_image_shape exp Hexp vit tbl x preds Hpi) as (Hl & _ & _).
  destruct preds as [|r rs]; [done|]. exists r, rs. split; [done|].
  unfold advisory_for in Ha. rewrite Hg in Ha. cbn [Classifier.pred_class] in Ha.
  destruct (Advisory.generate_gemini_content gm _) as [a|e] eqn:Eg; [by injection Ha as ->|].
  revert Eg. unfold Advisory.generate_gemini_content. by destruct (res_bind _ _).
Qed.

End Properties.



(** ** Concrete instances for the witnesses *)

(** A stand-in for PIL: an image is its bytes; a file opens when it starts
    with the first byte of the PNG signature.  An image of fewer than
    eight bytes is in palette mode and cannot be decoded, one of exactly
    eight bytes is RGB, a longer one is greyscale (["L"]) and converts to
    the RGB image of its first eight bytes. *)
Definition demo_mode (b : list Byte.byte) : pystr :=
  if decide (length b < 8)%nat then lit "P"
  else if decide (length b = 8)%nat then lit "RGB" else lit "L".

(** Decoding and resampling in the stand-in: a grey image of the
    requested size in the image's mode, unless the file is too short to
    decode. *)
Definition demo_resize (b : list Byte.byte) (w h : nat) : res (list (list pixel)) :=
  if decide (length b < 8)%nat then Raise (LibError (lit "image file is truncated"))
  else Ok (replicate h (replicate w (replicate (mode_bands (demo_mode b)) Byte.x80))).

Lemma demo_resize_shape (b : list Byte.byte) (w h : nat) (rows : list (list pixel)) :
  demo_resize b w h = Ok rows ->
  (length rows = h /\
   Forall (fun row => length row = w /\
                      Forall (fun px => length px = mode_bands (demo_mode b)) row) rows)%nat.
Proof.
  unfold demo_resize. case_decide; [done|]. intros [= <-].
  rewrite length_replicate. split; [done|]. apply Forall_replicate.
  rewrite length_replicate. split; [done|]. apply Forall_replicate, length_replicate.
Qed.

Definition demo_convert (b : list Byte.byte) : res (list Byte.byte) :=
  if decide (length b < 8)%nat then Raise (LibError (lit "image file is truncated"))
  else Ok (take 8 b).

Lemma demo_convert_mode (b b' : list Byte.byte) :
  demo_convert b = Ok b' -> demo_mode b' = lit "RGB".
Proof.
  unfold demo_convert, demo_mode. case_decide; [done|]. intros [= <-].
  rewrite length_take. rewrite decide_False by lia. by rewrite decide_True by lia.
Qed.

Definition demo_images : ImageLib := {|
  image := list Byte.byte;
  image_open := fun b =>
    match b with
    | x :: _ => if Byte.eqb x Byte.x89 then Ok b
                else Raise (LibError (lit "cannot identify image file"))
    | [] => Raise (LibError (lit "cannot identify image file"))
    end;
  image_mode := demo_mode;
  image_convert_rgb := demo_convert;
  convert_rgb_mode := demo_convert_mode;
  resize := demo_resize;
  resize_shape := demo_resize_shape
|}.

#[local] Existing Instance demo_images.
#[local] Instance demo_genai : GenAI := Advisory.fixed_backend (Ok (lit "4")).
#[local] Instance demo_network : Network := Classifier.fixed_network [1; 3; 2; 0].

Definition demo_backbone : list (pystr * list nat) := [(lit "cls_token", [1; 1; 768]%nat)].

Definition demo_labels : list json :=
  [JStr (lit "Tomato___Early_blight"); JStr (lit "Tomato___Late_blight");
   JStr (lit "Tomato___healthy"); JStr (lit "Potato___Late_blight")].

(** A deployment with four labels, a checkpoint saved from the wrapper,
    and no API key anywhere. *)
Definition demo_inputs : startup_inputs := {|
  read_json := fun path =>
    if decide (path = CLASS_NAMES_PATH) then Ok (JList demo_labels)
    else Raise (LibError (lit "No such file or directory"));
  hub := Ok demo_backbone;
  torch_load := fun path =>
    if decide (path = MODEL_PATH)
    then Ok (CDict (Checkpoint.saved_state_dict (Checkpoint.vit_params demo_backbone 4)))
    else Raise (LibError (lit "No such file or directory"));
  cuda_available := false;
  env_world := {| GeminiConfig.environ := ∅; GeminiConfig.env_file := fun _ => None |}
|}.

Definition demo_state : app_state :=
  match startup demo_inputs with Ok st => st | Raise _ => initial_state end.

Definition png_bytes : list Byte.byte :=
  [Byte.x89; Byte.x50; Byte.x4e; Byte.x47; Byte.x0d; Byte.x0a; Byte.x1a; Byte.x0a].

Definition demo_upload : upload := {| filename := Some (lit "leaf.png"); file_read := Ok png_bytes |}.
Definition text_upload : upload := {| filename := Some (lit "notes.txt"); file_read := Ok [Byte.x68; Byte.x69] |}.
Definition short_upload : upload := {| filename := Some (lit "cut.png"); file_read := Ok [Byte.x89; Byte.x50] |}.
Definition empty_upload : upload := {| filename := Some (lit "empty.png"); file_read := Ok [] |}.

(** The tensor the pipeline makes of [png_bytes]. *)
Definition demo_tensor : tensor :=
  Preprocess.normalize_channels Preprocess.MEAN Preprocess.STD
    (Preprocess.to_tensor 3 (replicate 224 (replicate 224 (replicate 3 Byte.x80)))).

(** The predictions for any input: the stand-in network ignores it. *)
Definition demo_preds : list Classifier.prediction :=
  match predict_image_state Classifier.qexp demo_state [] with Ok p => p | Raise _ => [] end.

Definition demo_response : predict_response :=
  response_of demo_upload demo_preds Advisory.placeholders.

Lemma demo_classify (x : tensor) :
  predict_image_state Classifier.qexp demo_state x = Ok demo_preds.
Proof. vm_compute. reflexivity. Qed.

Lemma demo_startup : startup demo_inputs = Ok demo_state.
Proof. vm_compute. reflexivity. Qed.

Lemma predict_after_startup_witness :
  exists resp, predict Classifier.qexp demo_state demo_upload = Ok resp /\
    resp_filename resp = filename demo_upload /\
    (length (resp_predictions resp) = 3)%nat /\
    StronglySorted (fun r1 r2 => Classifier.confidence r2 <= Classifier.confidence r1)
      (resp_predictions resp) /\
    Forall (fun r => 0 <= Classifier.confidence r <= 100) (resp_predictions resp).
Proof.
  apply (@predict_after_startup demo_genai demo_images demo_network Classifier.qexp demo_inputs demo_state demo_labels demo_upload
           png_bytes png_bytes demo_tensor).
  - apply Classifier.qexp_pos.
  - vm_compute. reflexivity.
  - reflexivity.
  - reflexivity.
  - intros Hn. discriminate Hn.
  - vm_compute. reflexivity.
  - reflexivity.
  - intros vit Hv. vm_compute in Hv. injection Hv as <-. eexists. reflexivity.
  - simpl. lia.
Defined.

(** A deployment with two labels and a checkpoint saved for two classes. *)
Definition small_inputs : startup_inputs := {|
  read_json := fun path =>
    if decide (path = CLASS_NAMES_PATH) then Ok (JList (take 2 demo_labels))
    else Raise (LibError (lit "No such file or directory"));
  hub := Ok demo_backbone;
  torch_load := fun path =>
    if decide (path = MODEL_PATH)
    then Ok (CDict (Checkpoint.saved_state_dict (Checkpoint.vit_params demo_backbone 2)))
    else Raise (LibError (lit "No such file or directory"));
  cuda_available := false;
  env_world := env_world demo_inputs
|}.

Definition small_state : app_state :=
  match startup small_inputs with Ok st => st | Raise _ => initial_state end.

Lemma predict_small_table_witness :
  predict Classifier.qexp small_state demo_upload =
    Raise (HTTPException 500 (lit "Internal server error")).
Proof.
  apply (@predict_small_table demo_genai demo_images demo_network Classifier.qexp small_inputs
           small_state demo_upload png_bytes png_bytes demo_tensor).
  - vm_compute. reflexivity.
  - intros tbl Htbl. vm_compute in Htbl. injection Htbl as <-. vm_compute. lia.
  - reflexivity.
  - intros Hn. discriminate Hn.
  - vm_compute. reflexivity.
  - reflexivity.
Defined.

Lemma startup_serving_witness :
  exists tbl vit, idx_to_class demo_state = Some tbl /\ model demo_state = Some vit /\
    Checkpoint.num_classes vit = size tbl /\ Checkpoint.device vit = app_device demo_inputs /\
    Checkpoint.training vit = false.
Proof. apply (@startup_serving demo_genai demo_inputs demo_state). vm_compute. reflexivity. Defined.

Lemma predict_errors_witness :
  HTTPException 500 (lit "Internal server error") = HTTPException 400 (lit "Empty file uploaded") \/
  HTTPException 500 (lit "Internal server error") = HTTPException 422 (lit "Invalid image format") \/
  HTTPException 500 (lit "Internal server error") = HTTPException 500 (lit "Internal server error").
Proof.
  apply (@predict_errors demo_genai demo_images demo_network Classifier.qexp demo_state text_upload).
  - intros e' He. discriminate He.
  - intros [|x b] e' He c d ->; cbn in He; [|destruct (Byte.eqb x Byte.x89)]; discriminate He.
  - vm_compute. reflexivity.
Defined.

Lemma predict_not_image_witness :
  predict Classifier.qexp demo_state text_upload =
    Raise (HTTPException 500 (lit "Internal server error")).
Proof.
  apply (@predict_not_image demo_genai demo_images demo_network Classifier.qexp demo_state text_upload [Byte.x68; Byte.x69]
           (LibError (lit "cannot identify image file"))).
  - reflexivity.
  - intros Hn. discriminate Hn.
  - vm_compute. reflexivity.
  - intros c d He. discriminate He.
Defined.

Lemma predict_empty_file_witness :
  predict Classifier.qexp demo_state empty_upload =
    Raise (HTTPException 400 (lit "Empty file uploaded")).
Proof. apply (@predict_empty_file demo_genai demo_images demo_network Classifier.qexp demo_state empty_upload). reflexivity. Defined.

Lemma predict_bad_image_witness :
  predict Classifier.qexp demo_state short_upload =
    Raise (HTTPException 422 (lit "Invalid image format")).
Proof.
  apply (@predict_bad_image demo_genai demo_images demo_network Classifier.qexp demo_state short_upload [Byte.x89; Byte.x50]
           [Byte.x89; Byte.x50]).
  - reflexivity.
  - intros Hn. discriminate Hn.
  - vm_compute. reflexivity.
  - left. split; [intros Hm; vm_compute in Hm; discriminate Hm | eexists; vm_compute; reflexivity].
Defined.

Lemma predict_unconfigured_witness :
  (gemini_severity demo_response, gemini_treatment demo_response,
   gemini_prevention demo_response) = Advisory.placeholders.
Proof.
  apply (@predict_unconfigured demo_genai demo_images demo_network Classifier.qexp demo_state demo_upload).
  - vm_compute. reflexivity.
  - apply (@predict_steps demo_genai demo_images demo_network Classifier.qexp demo_state
             demo_upload png_bytes png_bytes demo_tensor demo_preds Advisory.placeholders).
    + reflexivity.
    + intros Hn. discriminate Hn.
    + vm_compute. reflexivity.
    + reflexivity.
    + apply demo_classify.
    + vm_compute. reflexivity.
Defined.

Lemma startup_without_key_witness :
  test_gemini demo_state = TestError 500 (lit "Gemini not configured") /\
  forall file resp, predict Classifier.qexp demo_state file = Ok resp ->
    (gemini_severity resp, gemini_treatment resp, gemini_prevention resp) =
      Advisory.placeholders.
Proof.
  apply (@startup_without_key demo_genai demo_images demo_network Classifier.qexp demo_inputs demo_state).
  - vm_compute. reflexivity.
  - vm_compute. reflexivity.
Defined.

(** A greyscale image: the code converts it, and the RGB image resizes. *)
Definition grey_bytes : list Byte.byte := png_bytes ++ [Byte.x00].

Lemma preprocess_image_shape_witness :
  exists x, preprocess_image grey_bytes = Ok x /\
    Preprocess.has_shape x 3 224 224 /\ Preprocess.in_ranges Preprocess.RANGES x.
Proof.
  apply (@preprocess_image_shape demo_images grey_bytes png_bytes
           (replicate 224 (replicate 224 (replicate 3 Byte.x80)))).
  - intros Hm. vm_compute in Hm. discriminate Hm.
  - intros _. reflexivity.
  - reflexivity.
Defined.

(** The same deployment with an API key in the environment. *)
Definition keyed_inputs : startup_inputs := {|
  read_json := read_json demo_inputs;
  hub := hub demo_inputs;
  torch_load := torch_load demo_inputs;
  cuda_available := true;
  env_world := {| GeminiConfig.environ := {[GeminiConfig.GEMINI_API_KEY := lit "AIza-demo"]};
                  GeminiConfig.env_file := fun _ => None |}
|}.

Definition keyed_state : app_state :=
  match startup keyed_inputs with Ok st => st | Raise _ => initial_state end.

Lemma test_gemini_after_startup_witness :
  test_gemini keyed_state = TestSuccess TEST_GEMINI_PROMPT (lit "4") <->
  exists key, GeminiConfig.loaded_environ (env_world keyed_inputs) !!
                GeminiConfig.GEMINI_API_KEY = Some key /\ key <> [] /\
  exists m, GeminiConfig.first_accepted (Some key) GeminiConfig.MODEL_NAMES m /\
    generate_content m TEST_GEMINI_PROMPT = Ok (lit "4") /\ lit "4" <> [] /\
    TEST_GEMINI_PROMPT = TEST_GEMINI_PROMPT.
Proof.
  apply (@test_gemini_after_startup demo_genai keyed_inputs keyed_state).
  vm_compute. reflexivity.
Defined.

(** The response to [demo_upload] once Gemini is configured. *)
Definition keyed_response : predict_response :=
  match predict Classifier.qexp keyed_state demo_upload with
  | Ok r => r
  | Raise _ => response_of demo_upload [] Advisory.placeholders
  end.

Lemma predict_advice_top_class_witness :
  exists r rs, resp_predictions keyed_response = r :: rs /\
    Advisory.generate_gemini_content tt (py_str_json (Classifier.pred_class r)) =
      Ok (gemini_severity keyed_response, gemini_treatment keyed_response,
          gemini_prevention keyed_response).
Proof.
  apply (@predict_advice_top_class demo_genai demo_images demo_network Classifier.qexp
           keyed_state demo_upload keyed_response tt).
  - apply Classifier.qexp_pos.
  - vm_compute. reflexivity.
  - reflexivity.
Defined.

End App.
