(* ===== verification/Server.v ===== *)
(** * The server's lifecycle: startup, then requests (main.py)

    uvicorn runs the startup handlers once and then serves requests; a
    startup handler that raises stops the process before it accepts any
    request.  [step] is this lifecycle as a labelled transition relation
    on [server], a label being the requests served with their answers, and
    [steps] its runs.  No handler writes [app.state], so each request is
    answered from the state startup left, whatever was served before it:
    [run] computes the outcome of a whole run, and the lemmas connect it
    with the relation: [run] is exactly what the relation allows, the
    startup invariant holds in every reachable state, and a run that
    passed startup can serve any list of requests.  The Gemini backend is
    a function of the model and the prompt ([GenAI]), so the answers of
    two identical requests are equal here, which the remote service does
    not promise; no claim of the development rests on that. *)

From stdpp Require Import base list gmap strings.
From Stdlib Require Import ZArith QArith Lia.
From S2P Require Import Prelude Advisory GeminiConfig ClassIndex Classifier Preprocess Checkpoint App.

Module Server.

Import App.

Section Lifecycle.

Context `{GenAI} `{ImageLib} `{Network}.
Context (exp : Q -> Q) (inp : startup_inputs).

(** The two routes of the application. *)
Inductive request :=
  | RPredict (file : upload)
  | RTestGemini.

Inductive answer :=
  | APredict (r : res predict_response)
  | ATestGemini (r : test_gemini_response).

(** The routing of [@app.post("/predict")] and [@app.get("/test-gemini")]. *)
Definition handle (st : app_state) (rq : request) : answer :=
  match rq with
  | RPredict file => APredict (predict exp st file)
  | RTestGemini => ATestGemini (test_gemini st)
  end.

Inductive server :=
  | Booting
  | Serving (st : app_state)
  | Aborted (e : exc).

Inductive step : server -> list (request * answer) -> server -> Prop :=
  | step_start st : startup inp = Ok st -> step Booting [] (Serving st)
  | step_abort e : startup inp = Raise e -> step Booting [] (Aborted e)
  | step_serve st rq : step (Serving st) [(rq, handle st rq)] (Serving st).

Inductive steps : server -> list (request * answer) -> server -> Prop :=
  | steps_refl s : steps s [] s
  | steps_trans s t s' u s'' : step s t s' -> steps s' u s'' -> steps s (t ++ u) s''.

(** The requests served from [st], with their answers. *)
Definition answers (st : app_state) (rqs : list request) : list (request * answer) :=
  (fun rq => (rq, handle st rq)) <$> rqs.

(** A run of the process on a list of requests. *)
Definition run (rqs : list request) : server * list (request * answer) :=
  match startup inp with
  | Ok st => (Serving st, answers st rqs)
  | Raise e => (Aborted e, [])
  end.

(** ** Runs *)

Lemma answers_requests (st : app_state) (rqs : list request) :
  (answers st rqs).*1 = rqs.
Proof. unfold answers. rewrite <- list_fmap_compose. apply list_fmap_id. Qed.

Lemma answers_app (st : app_state) (l1 l2 : list request) :
  answers st (l1 ++ l2) = answers st l1 ++ answers st l2.
Proof. apply fmap_app. Qed.

Lemma steps_serving (st : app_state) (t : list (request * answer)) (s : server) :
  steps (Serving st) t s -> s = Serving st /\ t = answers st t.*1.
Proof.
  remember (Serving st) as s0 eqn:E. intros Hs. revert E.
  induction Hs as [s0|s0 t s' u s'' Hstep Hs IH]; intros ->; [done|].
  inversion Hstep; subst. destruct (IH eq_refl) as [-> Hu].
  split; [done|]. by rewrite fmap_app, answers_app, <- Hu.
Qed.

Lemma steps_aborted (e : exc) (t : list (request * answer)) (s : server) :
  steps (Aborted e) t s -> s = Aborted e /\ t = [].
Proof. inversion 1 as [|? ? ? ? ? Hstep]; [done|]. inversion Hstep. Qed.

(** Every run from boot: nothing happened yet, or startup succeeded and
    every request was answered from its state, or startup failed and
    nothing was served. *)
Lemma steps_booting (t : list (request * answer)) (s : server) :
  steps Booting t s ->
  (s = Booting /\ t = []) \/
  (exists st, startup inp = Ok st /\ s = Serving st /\ t = answers st t.*1) \/
  (exists e, startup inp = Raise e /\ s = Aborted e /\ t = []).
Proof.
  inversion 1 as [|? ? s' u ? Hstep Hs]; subst; [by left|].
  inversion Hstep as [st Hst| e He|]; subst; right; cbn.
  - left. exists st. destruct (steps_serving _ _ _ Hs) as [-> Hu]. done.
  - right. exists e. destruct (steps_aborted _ _ _ Hs) as [-> ->]. done.
Qed.

Lemma steps_answers (st : app_state) (rqs : list request) :
  steps (Serving st) (answers st rqs) (Serving st).
Proof.
  induction rqs as [|rq rqs IH]; [constructor|].
  change (answers st (rq :: rqs)) with ([(rq, handle st rq)] ++ answers st rqs).
  eapply steps_trans; [constructor | exact IH].
Qed.

Lemma steps_step (s : server) (t : list (request * answer)) (s' : server) :
  step s t s' -> steps s t s'.
Proof. intros Hs. rewrite <- (app_nil_r t). eapply steps_trans; [exact Hs | constructor]. Qed.

Lemma steps_run (rqs : list request) :
  steps Booting (run rqs).2 (run rqs).1.
Proof.
  unfold run. destruct (startup inp) as [st|e] eqn:Hs; cbn.
  - change (answers st rqs) with ([] ++ answers st rqs).
    eapply steps_trans; [by constructor | apply steps_answers].
  - change (@nil (request * answer)) with (@nil (request * answer) ++ []).
    eapply steps_trans; [by constructor | constructor].
Qed.

Lemma elem_of_answers (st : app_state) (rqs : list request) (rq : request) (a : answer) :
  (rq, a) ∈ answers st rqs -> a = handle st rq.
Proof. unfold answers. rewrite list_elem_of_fmap. by intros (? & [= -> ->] & _). Qed.

(** ** Properties of the lifecycle *)

(** The executable [run] is exactly the lifecycle relation: a state
    other than [Booting] is reachable with the answers [t] if and only if
    it is what [run] computes on the requests of [t]. *)
Theorem run_refines (t : list (request * answer)) (s : server) :
  s <> Booting -> steps Booting t s <-> (s, t) = run t.*1.
Proof.
  intros Hs. split.
  - intros Hst. unfold run.
    destruct (steps_booting _ _ Hst) as [[-> _] | [(st & Hok & -> & Ht) | (e & He & -> & ->)]];
      [done | rewrite Hok; by rewrite <- Ht | by rewrite He].
  - intros E. pose proof (steps_run t.*1) as Hr. rewrite <- E in Hr. exact Hr.
Qed.

(** The startup invariant holds in every reachable serving state,
    however many requests were served: the class table and the network
    are present, the network has one output per entry of the table, sits
    on [DEVICE] and stays in evaluation mode. *)
Theorem serving_invariant (t : list (request * answer)) (st : app_state) :
  steps Booting t (Serving st) ->
  exists tbl vit, idx_to_class st = Some tbl /\ model st = Some vit /\
    Checkpoint.num_classes vit = size tbl /\ Checkpoint.device vit = app_device inp /\
    Checkpoint.training vit = false.
Proof.
  intros Hst.
  destruct (steps_booting _ _ Hst) as [[? _] | [(st' & Hok & [= <-] & _) | (? & _ & ? & _)]];
    [done | | done].
  destruct (startup_Ok_inv _ _ Hok) as (tbl & vit & _ & _ & Hn & Hd & Ht & ->).
  by exists tbl, vit.
Qed.

(** Answers do not depend on the order of the requests or on what
    was served before: in any two runs of the same deployment, the same
    request gets the same answer. *)
Theorem answers_order_independent (t1 t2 : list (request * answer)) (s1 s2 : server)
    (rq : request) (a1 a2 : answer) :
  steps Booting t1 s1 -> steps Booting t2 s2 -> (rq, a1) ∈ t1 -> (rq, a2) ∈ t2 -> a1 = a2.
Proof.
  intros Hs1 Hs2 Hin1 Hin2.
  destruct (steps_booting _ _ Hs1) as [[_ ->] | [(st1 & Hok1 & _ & Ht1) | (? & _ & _ & ->)]];
    [by apply not_elem_of_nil in Hin1 | | by apply not_elem_of_nil in Hin1].
  destruct (steps_booting _ _ Hs2) as [[_ ->] | [(st2 & Hok2 & _ & Ht2) | (? & _ & _ & ->)]];
    [by apply not_elem_of_nil in Hin2 | | by apply not_elem_of_nil in Hin2].
  rewrite Hok1 in Hok2. injection Hok2 as <-.
  rewrite Ht1 in Hin1. rewrite Ht2 in Hin2.
  by rewrite (elem_of_answers _ _ _ _ Hin1), (elem_of_answers _ _ _ _ Hin2).
Qed.

(** A process whose startup failed has answered no request, and it
    failed with [RuntimeError("Could not load class names")] or
    [RuntimeError("Could not initialize model")]. *)
Theorem aborted_silent (t : list (request * answer)) (e : exc) :
  steps Booting t (Aborted e) ->
  t = [] /\ (e = ClassIndex.CLASS_LOAD_ERROR \/ e = Checkpoint.MODEL_LOAD_ERROR).
Proof.
  intros Hst.
  destruct (steps_booting _ _ Hst) as [[? _] | [(? & _ & ? & _) | (e' & He & [= <-] & ->)]];
    [done | done |].
  split; [done|]. by apply (startup_Raise_inv _ _ He).
Qed.

(** Progress: the process is never stuck.  From every state
    reachable from boot, either startup failed and the process stops
    without answering anything, or there is a run that serves any list of
    requests, in order, each with the answer of its route's handler. *)
Theorem server_progress (t : list (request * answer)) (s : server) (rqs : list request) :
  steps Booting t s ->
  (exists e, startup inp = Raise e /\ steps s [] (Aborted e)) \/
  (exists st, startup inp = Ok st /\ steps s (answers st rqs) (Serving st)).
Proof.
  intros Hst.
  destruct (steps_booting _ _ Hst) as [[-> _] | [(st & Hok & -> & _) | (e & He & -> & _)]].
  - destruct (startup inp) as [st|e] eqn:Hs; [right; exists st | left; exists e];
      split; [done| |done|by apply steps_step, step_abort].
    change (answers st rqs) with ([] ++ answers st rqs).
    eapply steps_trans; [by apply step_start | apply steps_answers].
  - right. exists st. split; [done|]. apply steps_answers.
  - left. exists e. split; [done|]. constructor.
Qed.

End Lifecycle.

(** ** Witnesses *)

Definition demo_requests : list request := [RTestGemini; RPredict demo_upload].

#[local] Existing Instances demo_genai demo_images demo_network.

Lemma demo_run :
  steps Classifier.qexp demo_inputs Booting
    (answers Classifier.qexp demo_state demo_requests) (Serving demo_state).
Proof.
  pose proof (steps_run Classifier.qexp demo_inputs demo_requests) as Hr.
  unfold run in Hr. rewrite demo_startup in Hr. exact Hr.
Qed.

Lemma demo_run_predict :
  steps Classifier.qexp demo_inputs Booting
    (answers Classifier.qexp demo_state [RPredict demo_upload]) (Serving demo_state).
Proof.
  pose proof (steps_run Classifier.qexp demo_inputs [RPredict demo_upload]) as Hr.
  unfold run in Hr. rewrite demo_startup in Hr. exact Hr.
Qed.

Lemma run_refines_witness :
  steps Classifier.qexp demo_inputs Booting
    (answers Classifier.qexp demo_state demo_requests) (Serving demo_state) <->
  (Serving demo_state, answers Classifier.qexp demo_state demo_requests) =
    run Classifier.qexp demo_inputs (answers Classifier.qexp demo_state demo_requests).*1.
Proof.
  apply (run_refines Classifier.qexp demo_inputs _ (Serving demo_state)).
  intros Hb. discriminate Hb.
Defined.

Lemma serving_invariant_witness :
  exists tbl vit, idx_to_class demo_state = Some tbl /\ model demo_state = Some vit /\
    Checkpoint.num_classes vit = size tbl /\ Checkpoint.device vit = app_device demo_inputs /\
    Checkpoint.training vit = false.
Proof.
  apply (serving_invariant Classifier.qexp demo_inputs _ demo_state demo_run).
Defined.

Lemma answers_order_independent_witness :
  handle Classifier.qexp demo_state (RPredict demo_upload) =
  handle Classifier.qexp demo_state (RPredict demo_upload).
Proof.
  apply (answers_order_independent Classifier.qexp demo_inputs
           (answers Classifier.qexp demo_state demo_requests)
           (answers Classifier.qexp demo_state [RPredict demo_upload])
           (Serving demo_state) (Serving demo_state) (RPredict demo_upload)).
  - exact demo_run.
  - exact demo_run_predict.
  - apply list_elem_of_further, list_elem_of_here.
  - apply list_elem_of_here.
Defined.

(** A deployment whose class file is missing. *)
Definition broken_inputs : startup_inputs := {|
  read_json := fun _ => Raise (LibError (lit "No such file or directory"));
  hub := hub demo_inputs;
  torch_load := torch_load demo_inputs;
  cuda_available := cuda_available demo_inputs;
  env_world := env_world demo_inputs
|}.

Lemma aborted_silent_witness :
  [] = @nil (request * answer) /\
  (ClassIndex.CLASS_LOAD_ERROR = ClassIndex.CLASS_LOAD_ERROR \/
   ClassIndex.CLASS_LOAD_ERROR = Checkpoint.MODEL_LOAD_ERROR).
Proof.
  apply (aborted_silent Classifier.qexp broken_inputs []).
  change (@nil (request * answer)) with (@nil (request * answer) ++ []).
  eapply steps_trans; [apply step_abort; reflexivity | constructor].
Defined.

Lemma server_progress_witness :
  (exists e, startup demo_inputs = Raise e /\
     steps Classifier.qexp demo_inputs Booting [] (Aborted e)) \/
  (exists st, startup demo_inputs = Ok st /\
     steps Classifier.qexp demo_inputs Booting
       (answers Classifier.qexp st demo_requests) (Serving st)).
Proof. apply (server_progress Classifier.qexp demo_inputs [] Booting). constructor. Defined.

End Server.
