(* ===== verification/Cors.v ===== *)
(** * The CORS middleware (main.py, lines 331-337)

    [app.add_middleware(CORSMiddleware, allow_origins=["*"],
    allow_methods=["POST", "GET"], allow_headers=["*"])] wraps both routes
    in Starlette's CORS middleware; [allow_credentials] keeps its default
    [False].  [CORS_CONFIG] is this configuration.  [preflight] is the
    middleware's answer to a preflight request (an [OPTIONS] request with
    [Origin] and [Access-Control-Request-Method]), following
    [CORSMiddleware.__init__] and [preflight_response]: a ["*"] among the
    methods stands for all of them, the origin, the method and the
    requested headers are checked, and the failures give status 400 with
    ["Disallowed CORS "] and their names; the response headers are not
    modelled.  [route_method] is the method each route is registered with
    ([@app.post("/predict")], [@app.get("/test-gemini")]).  The theorem
    shows that the preflight admits both routes from every origin with any
    headers, and rejects every other method. *)

From stdpp Require Import base list strings.
From Stdlib Require Import Ascii ZArith.
From S2P Require Import Prelude PyStr App Server.
Import PyStr.

Module Cors.

#[local] Open Scope py_scope.

Record cors_config := {
  allow_origins : list pystr;
  allow_methods : list pystr;
  allow_headers : list pystr;
  allow_credentials : bool
}.

(** Lines 332-337. *)
Definition CORS_CONFIG : cors_config := {|
  allow_origins := [lit "*"];
  allow_methods := [lit "POST"; lit "GET"];
  allow_headers := [lit "*"];
  allow_credentials := false
|}.

(** Starlette's constants. *)
Definition ALL_METHODS : list pystr :=
  [lit "DELETE"; lit "GET"; lit "HEAD"; lit "OPTIONS"; lit "PATCH"; lit "POST"; lit "PUT"].
Definition SAFELISTED_HEADERS : list pystr :=
  [lit "Accept"; lit "Accept-Language"; lit "Content-Language"; lit "Content-Type"].

(** [c.lower()] on the code points 0-255: A-Z and the Latin-1 capitals
    (0xc0-0xde except the multiplication sign 0xd7). *)
Definition py_lower_char (c : ascii) : ascii :=
  let n := nat_of_ascii c in
  if ((65 <=? n) && (n <=? 90)) || ((192 <=? n) && (n <=? 222) && negb (n =? 215))
  then ascii_of_nat (n + 32) else c.

(** [s.lower()] *)
Definition py_lower (s : pystr) : pystr := py_lower_char <$> s.

(** [CORSMiddleware.__init__]: the settings the checks read. *)
Definition allow_all_origins (cfg : cors_config) : bool := bool_decide (lit "*" ∈ allow_origins cfg).
Definition allow_all_headers (cfg : cors_config) : bool := bool_decide (lit "*" ∈ allow_headers cfg).
Definition methods_of (cfg : cors_config) : list pystr :=
  if bool_decide (lit "*" ∈ allow_methods cfg) then ALL_METHODS else allow_methods cfg.
Definition headers_of (cfg : cors_config) : list pystr :=
  py_lower <$> (SAFELISTED_HEADERS ++ allow_headers cfg).

(** [is_allowed_origin] (no [allow_origin_regex] is given). *)
Definition is_allowed_origin (cfg : cors_config) (origin : pystr) : bool :=
  allow_all_origins cfg || bool_decide (origin ∈ allow_origins cfg).

(** The header check of [preflight_response]: each comma-separated
    requested header, lowered and stripped, must be allowed. *)
Definition headers_fail (cfg : cors_config) (requested : option pystr) : bool :=
  match requested with
  | None => false
  | Some h =>
      if allow_all_headers cfg then false
      else
        let parts := match py_split (lit ",") h with Ok l => l | Raise _ => [] end in
        existsb (fun x => negb (bool_decide (py_strip (py_lower x) ∈ headers_of cfg))) parts
  end.

(** [preflight_response]: status and body. *)
Definition preflight (cfg : cors_config) (origin method : pystr) (requested : option pystr)
    : Z * pystr :=
  let failures :=
    (if is_allowed_origin cfg origin then [] else [lit "origin"]) ++
    (if bool_decide (method ∈ methods_of cfg) then [] else [lit "method"]) ++
    (if headers_fail cfg requested then [lit "headers"] else []) in
  match failures with
  | [] => (200%Z, lit "OK")
  | _ => (400%Z, lit "Disallowed CORS " ++ py_join (lit ", ") failures)
  end.

(** The method each route is registered with. *)
Definition route_method (rq : Server.request) : pystr :=
  match rq with
  | Server.RPredict _ => lit "POST"
  | Server.RTestGemini => lit "GET"
  end.

(** ** The configured middleware *)

Lemma config_checks (origin : pystr) (requested : option pystr) :
  is_allowed_origin CORS_CONFIG origin = true /\ headers_fail CORS_CONFIG requested = false.
Proof. split; [done|]. by destruct requested. Qed.

Lemma preflight_config (origin method : pystr) (requested : option pystr) :
  preflight CORS_CONFIG origin method requested =
    if bool_decide (method ∈ [lit "POST"; lit "GET"]) then (200%Z, lit "OK")
    else (400%Z, lit "Disallowed CORS method").
Proof.
  unfold preflight. destruct (config_checks origin requested) as [-> ->].
  cbn [app]. change (methods_of CORS_CONFIG) with [lit "POST"; lit "GET"].
  by case_bool_decide.
Qed.

(** C14. The CORS configuration is fully open for the application's two
    routes: a preflight for the method of either route is answered 200
    from every origin with any requested headers, and a preflight for any
    other method is rejected with 400 ["Disallowed CORS method"]. *)
Theorem cors_preflight_open (origin : pystr) (requested : option pystr) :
  (forall rq, preflight CORS_CONFIG origin (route_method rq) requested = (200%Z, lit "OK")) /\
  (forall m, m ∉ [lit "POST"; lit "GET"] ->
     preflight CORS_CONFIG origin m requested = (400%Z, lit "Disallowed CORS method")).
Proof.
  split.
  - intros rq. rewrite preflight_config, bool_decide_eq_true_2; [done|].
    destruct rq; [apply list_elem_of_here | apply list_elem_of_further, list_elem_of_here].
  - intros m Hm. by rewrite preflight_config, bool_decide_eq_false_2.
Qed.

End Cors.
