(* ===== verification/Logging.v ===== *)
(** * Logging: what the handlers write to the log (main.py, lines 17-19 and
    the [logger] calls of every handler)

    [logging.basicConfig(level=logging.INFO)] installs one stream handler
    on the root logger, at level [INFO], with the format
    ["%(levelname)s:%(name)s:%(message)s"]; [logger] is the module's
    logger, which passes its records to it.  A record is its level, its
    message, and whether it carries the traceback of the exception being
    handled ([logger.exception]).  The [str(e)] of an f-string is
    [App.exc_message]: the message of the exception ([KeyError] and
    [IndexError] carry no payload in the model and print as empty).

    The handlers are written again here in the monad [wres] of results
    with a log: [let@] runs a step and appends its records, [wtry] is
    [try/except] that keeps the records of the failed part, and [info],
    [warning], [error] and [exception] are the [logger] calls.  Each
    [*_w] definition is the code of its function with its [logger] calls;
    the erasure lemmas connect the two models: forgetting the log gives
    back the definitions of the other files; [run_w] is the log of a
    whole run, startup then every request.  The theorems show what is
    logged when startup aborts, in which order the model search is
    logged, and which [/predict] failures are logged; a lemma shows that
    the handler of lines 310-311 never writes its record. *)

From stdpp Require Import base list gmap strings.
From Stdlib Require Import Ascii ZArith QArith Lia.
From S2P Require Import Prelude PyStr Advisory GeminiConfig ClassIndex Classifier Preprocess Checkpoint App Server.
Import PyStr.

Module Logging.

#[local] Open Scope py_scope.

(** ** Records, levels and the configured handler *)

Inductive level := DEBUG | INFO | WARNING | ERROR | CRITICAL.

#[export] Instance level_eq_dec : EqDecision level.
Proof. solve_decision. Qed.

Definition levelno (l : level) : nat :=
  match l with DEBUG => 10 | INFO => 20 | WARNING => 30 | ERROR => 40 | CRITICAL => 50 end.

Definition levelname (l : level) : pystr :=
  match l with
  | DEBUG => lit "DEBUG" | INFO => lit "INFO" | WARNING => lit "WARNING"
  | ERROR => lit "ERROR" | CRITICAL => lit "CRITICAL"
  end.

Record log_record := {
  lvl : level;
  msg : pystr;
  exc_info : bool
}.

(** Line 18: [basicConfig(level=logging.INFO)]. *)
Definition LOG_LEVEL : level := INFO.

(** Line 19: [logging.getLogger(__name__)], the module run as a script
    (lines 339-341). *)
Definition LOGGER_NAME : pystr := lit "__main__".

(** The records the handler writes: those at [LOG_LEVEL] or above. *)
Definition emitted (log : list log_record) : list log_record :=
  filter (fun r => (levelno LOG_LEVEL <= levelno (lvl r))%nat) log.

(** The first line of a written record, in the format of [basicConfig];
    the traceback that follows an [exception] record is not modelled. *)
Definition render (r : log_record) : pystr :=
  levelname (lvl r) ++ ":"%char :: LOGGER_NAME ++ ":"%char :: msg r.

(** ** Results with a log *)

Definition wres (A : Type) : Type := list log_record * res A.

Definition wret {A} (a : A) : wres A := ([], Ok a).
Definition wraise {A} (e : exc) : wres A := ([], Raise e).

(** A step that logs nothing. *)
Definition wlift {A} (c : res A) : wres A := ([], c).

Definition wbind {A B} (c : wres A) (k : A -> wres B) : wres B :=
  match c.2 with
  | Ok a => (c.1 ++ (k a).1, (k a).2)
  | Raise e => (c.1, Raise e)
  end.

(** [try: c except Exception as e: h(e)]. *)
Definition wtry {A} (c : wres A) (h : exc -> wres A) : wres A :=
  match c.2 with
  | Ok a => (c.1, Ok a)
  | Raise e => (c.1 ++ (h e).1, (h e).2)
  end.

Notation "'let@' x ':=' c 'in' k" := (wbind c (fun x => k))
  (at level 10, x name, c at level 100, k at level 200) : py_scope.

Definition record (l : level) (m : pystr) (tb : bool) : log_record :=
  {| lvl := l; msg := m; exc_info := tb |}.

Definition wlog (l : level) (m : pystr) (tb : bool) : wres unit := ([record l m tb], Ok tt).

Definition info (m : pystr) : wres unit := wlog INFO m false.
Definition warning (m : pystr) : wres unit := wlog WARNING m false.
Definition error (m : pystr) : wres unit := wlog ERROR m false.
(** [logger.exception]: [ERROR] with the traceback. *)
Definition exception (m : pystr) : wres unit := wlog ERROR m true.

(** ** Laws of [wres] *)

Lemma wbind_ret_l {A B} (a : A) (k : A -> wres B) : wbind (wret a) k = k a.
Proof. unfold wbind. cbn. by destruct (k a). Qed.

Lemma wbind_ret_r {A} (c : wres A) : wbind c wret = c.
Proof. destruct c as [l [a|e]]; unfold wbind; cbn; [by rewrite app_nil_r | done]. Qed.

Lemma wbind_assoc {A B C} (c : wres A) (k : A -> wres B) (g : B -> wres C) :
  wbind (wbind c k) g = wbind c (fun a => wbind (k a) g).
Proof.
  destruct c as [l [a|e]]; unfold wbind; cbn; [|done].
  destruct (k a) as [l' [b|e]]; cbn; [by rewrite app_assoc | done].
Qed.

(** Forgetting the log: [wbind] is [let!], [wtry] is [try_except]. *)
Lemma wbind_erase {A B} (c : wres A) (k : A -> wres B) :
  (wbind c k).2 = res_bind c.2 (fun a => (k a).2).
Proof. unfold wbind. by destruct c.2. Qed.

Lemma wtry_erase {A} (c : wres A) (h : exc -> wres A) :
  (wtry c h).2 = try_except c.2 (fun e => (h e).2).
Proof. unfold wtry. by destruct c.2. Qed.

Lemma wbind_log {A B} (c : wres A) (k : A -> wres B) :
  (wbind c k).1 = c.1 ++ match c.2 with Ok a => (k a).1 | Raise _ => [] end.
Proof. unfold wbind. destruct c.2; [done|]. by rewrite app_nil_r. Qed.

Lemma wtry_log {A} (c : wres A) (h : exc -> wres A) :
  (wtry c h).1 = c.1 ++ match c.2 with Ok _ => [] | Raise e => (h e).1 end.
Proof. unfold wtry. destruct c.2; [by rewrite app_nil_r | done]. Qed.

(** Erase the log of a goal about results, step by step. *)
Ltac wsimpl :=
  repeat progress (rewrite ?wbind_erase, ?wtry_erase;
                   cbn [wret wraise wlift wlog info warning error exception fst snd
                        res_bind try_except]).

(** Every record of the program is at [INFO] or above, so the handler of
    line 18 writes every record of a log made of the four calls. *)
Definition program_level (r : log_record) : Prop := lvl r <> DEBUG.

Lemma emitted_all (log : list log_record) :
  Forall program_level log -> emitted log = log.
Proof.
  unfold emitted. induction 1 as [|r log Hr _ IH]; [done|].
  rewrite filter_cons_True, IH; [done|].
  unfold program_level in Hr. destruct (lvl r); cbn; lia || done.
Qed.

(** ** Startup with its log *)

Section Startup.

Context `{GenAI}.

Import App.

(** Lines 54-71, with the records of lines 67 and 70. *)
Definition load_class_mapping_w (class_data : res json) : wres (gmap Z json) :=
  wtry
    (let@ data := wlift class_data in
     let@ tbl :=
       wlift (match data with
              | JList l => Ok (ClassIndex.enumerate_into 0 l ∅)
              | JDict kv => ClassIndex.int_keys_into kv ∅
              | _ => Raise (ValueError (lit "Invalid class names format"))
              end) in
     let@ _ := info (lit "Loaded " ++ ClassIndex.py_str_Z (Z.of_nat (size tbl)) ++
                     lit " classes from " ++ CLASS_NAMES_PATH) in
     wret tbl)
    (fun e =>
       let@ _ := exception (lit "Class mapping failed: " ++ exc_message e) in
       wraise ClassIndex.CLASS_LOAD_ERROR).

Definition on_load_class_mapping_w (inp : startup_inputs) (st : app_state) : wres app_state :=
  let@ tbl := load_class_mapping_w (class_file inp) in
  wret {| idx_to_class := Some tbl; model := model st; gemini_model := gemini_model st |}.

(** Lines 75-109, with the records of lines 104-105 and 108. *)
Definition on_load_model_w (inp : startup_inputs) (st : app_state) : wres app_state :=
  wtry
    (let@ st1 :=
       match idx_to_class st with
       | Some _ => wret st
       | None => on_load_class_mapping_w inp st
       end in
     match idx_to_class st1 with
     | None => wraise (LibError (lit "'State' object has no attribute 'idx_to_class'"))
     | Some tbl =>
         let@ vit := wlift (Checkpoint.build_model (app_device inp) (size tbl) (hub inp)
                              (checkpoint_file inp)) in
         let@ _ := info (lit "Model loaded successfully on " ++ app_device inp) in
         let@ _ := info (lit "Class mapping: " ++ ClassIndex.py_str_Z (Z.of_nat (size tbl)) ++
                         lit " classes") in
         wret {| idx_to_class := idx_to_class st1; model := Some vit;
                 gemini_model := gemini_model st1 |}
     end)
    (fun e =>
       let@ _ := exception (lit "Model loading failed: " ++ exc_message e) in
       wraise Checkpoint.MODEL_LOAD_ERROR).

(** Lines 122-127: the first path that exists, and its assignments. *)
Fixpoint first_env_path (files : pystr -> option (list (pystr * pystr)))
    (paths : list pystr) : option (pystr * list (pystr * pystr)) :=
  match paths with
  | [] => None
  | p :: ps => match files p with Some kv => Some (p, kv) | None => first_env_path files ps end
  end.

(** Lines 121-130, with the records of lines 125 and 130. *)
Definition load_env_w (w : GeminiConfig.world) : wres (gmap pystr pystr) :=
  match first_env_path (GeminiConfig.env_file w) GeminiConfig.ENV_PATHS with
  | Some (path, kv) =>
      let@ _ := info (lit "Loaded environment variables from " ++ path) in
      wret (GeminiConfig.load_dotenv kv (GeminiConfig.environ w))
  | None =>
      let@ _ := warning (lit "No .env.local file found in expected locations") in
      wret (GeminiConfig.environ w)
  end.

(** Lines 147-159, with the records of lines 154, 157 and 159: a test
    answer that raises (in [generate_content] or in [.text]) is logged by
    the [except] of line 158. *)
Fixpoint try_models_w (cfg : genai_config) (names : list pystr) : wres (option gen_model) :=
  match names with
  | [] => wret None
  | name :: names' =>
      match GenerativeModel cfg name with
      | Ok model =>
          let answer := generate_content model GeminiConfig.TEST_PROMPT in
          if GeminiConfig.accepts answer then
            let@ _ := info (lit "Successfully initialized Gemini with model: " ++ name) in
            wret (Some model)
          else
            let@ _ :=
              match answer with
              | Ok text => warning (lit "Model " ++ name ++ lit " test failed: " ++ text)
              | Raise e => warning (lit "Model " ++ name ++ lit " failed: " ++ exc_message e)
              end in
            try_models_w cfg names'
      | Raise e =>
          let@ _ := warning (lit "Model " ++ name ++ lit " failed: " ++ exc_message e) in
          try_models_w cfg names'
      end
  end.

(** Lines 113-166, with the record of line 165; the value is
    [app.state.gemini_model]. *)
Definition configure_gemini_w (w : GeminiConfig.world) : wres (option gen_model) :=
  wtry
    (let@ env := load_env_w w in
     match env !! GeminiConfig.GEMINI_API_KEY with
     | None | Some [] => wraise (ValueError (lit "GEMINI_API_KEY not found in environment"))
     | Some api_key =>
         let cfg := genai_configure api_key None in
         let@ m := try_models_w cfg GeminiConfig.MODEL_NAMES in
         match m with
         | Some model => wret (Some model)
         | None => wraise (RuntimeError (lit "All Gemini models failed to initialize"))
         end
     end)
    (fun e =>
       let@ _ := error (lit "Gemini configuration failed: " ++ exc_message e) in
       wret None).

Definition on_configure_gemini_w (inp : startup_inputs) (st : app_state) : wres app_state :=
  let@ gm := configure_gemini_w (env_world inp) in
  wret {| idx_to_class := idx_to_class st; model := model st; gemini_model := gm |}.

(** The three handlers in order, and the log they write. *)
Definition startup_w (inp : startup_inputs) : wres app_state :=
  let@ st1 := on_load_class_mapping_w inp initial_state in
  let@ st2 := on_load_model_w inp st1 in
  on_configure_gemini_w inp st2.

End Startup.

(** ** Logging changes no result: startup *)

Section StartupErasure.

Context `{GenAI}.

Import App.

Lemma load_class_mapping_erase (d : res json) :
  (load_class_mapping_w d).2 = ClassIndex.load_class_mapping d.
Proof.
  unfold load_class_mapping_w, ClassIndex.load_class_mapping.
  destruct d as [[]|]; try reflexivity. cbn. by destruct (ClassIndex.int_keys_into _ _).
Qed.

Lemma on_load_class_mapping_erase (inp : startup_inputs) (st : app_state) :
  (on_load_class_mapping_w inp st).2 = on_load_class_mapping inp st.
Proof.
  unfold on_load_class_mapping_w, on_load_class_mapping. rewrite wbind_erase.
  by rewrite load_class_mapping_erase.
Qed.

Lemma on_load_model_erase (inp : startup_inputs) (st : app_state) :
  (on_load_model_w inp st).2 = on_load_model inp st.
Proof.
  unfold on_load_model_w, on_load_model. wsimpl.
  destruct (idx_to_class st) as [tbl|] eqn:Hst; wsimpl; rewrite ?Hst; wsimpl.
  - by destruct (Checkpoint.build_model _ _ _ _).
  - rewrite on_load_class_mapping_erase.
    destruct (on_load_class_mapping inp st) as [st1|e]; wsimpl; [|done].
    destruct (idx_to_class st1); wsimpl; [|done].
    by destruct (Checkpoint.build_model _ _ _ _).
Qed.

Lemma first_env_path_file (files : pystr -> option (list (pystr * pystr))) (paths : list pystr) :
  GeminiConfig.first_env_file files paths = snd <$> first_env_path files paths.
Proof. induction paths as [|p ps IH]; cbn; [done|]. by destruct (files p). Qed.

Lemma load_env_erase (w : GeminiConfig.world) :
  (load_env_w w).2 = Ok (GeminiConfig.loaded_environ w).
Proof.
  unfold load_env_w, GeminiConfig.loaded_environ. rewrite first_env_path_file.
  by destruct (first_env_path _ _) as [[p kv]|].
Qed.

Lemma try_models_erase (cfg : genai_config) (names : list pystr) :
  (try_models_w cfg names).2 = Ok (GeminiConfig.try_models cfg names).
Proof.
  induction names as [|n ns IH]; cbn; [done|].
  destruct (GenerativeModel cfg n) as [m|e]; cbn; [|by rewrite IH].
  destruct (GeminiConfig.accepts _); cbn; [done|].
  by destruct (generate_content m _); cbn; rewrite IH.
Qed.

Lemma configure_gemini_erase (w : GeminiConfig.world) :
  (configure_gemini_w w).2 = Ok (GeminiConfig.configure_gemini w).2.
Proof.
  rewrite GeminiConfig.configure_gemini_unfold. unfold configure_gemini_w.
  rewrite wtry_erase, wbind_erase, load_env_erase. cbn [res_bind snd].
  destruct (GeminiConfig.loaded_environ w !! _) as [[|c key]|]; [done| |done].
  wsimpl. rewrite try_models_erase. wsimpl.
  by destruct (GeminiConfig.try_models (genai_configure (c :: key) None) _).
Qed.

Lemma startup_erase (inp : startup_inputs) : (startup_w inp).2 = startup inp.
Proof.
  unfold startup_w, startup. rewrite wbind_erase, on_load_class_mapping_erase.
  destruct (on_load_class_mapping inp initial_state) as [st1|e]; cbn [res_bind]; [|done].
  rewrite wbind_erase, on_load_model_erase.
  destruct (on_load_model inp st1) as [st2|e]; cbn [res_bind]; [|done].
  unfold on_configure_gemini_w. rewrite wbind_erase, configure_gemini_erase. done.
Qed.

End StartupErasure.

(** ** Requests with their log *)

Section Requests.

Context `{GenAI} `{ImageLib} `{Network}.
Context (exp : Q -> Q).

Import App.

(** Lines 226-234, with the record of line 233. *)
Definition preprocess_image_w (img : image) : wres tensor :=
  wtry
    (wlift (let! rgb :=
              if decide (image_mode img = lit "RGB") then Ok img else image_convert_rgb img in
            Preprocess.transform rgb))
    (fun e =>
       let@ _ := error (lit "Image processing failed: " ++ exc_message e) in
       wraise (HTTPException 422 (lit "Invalid image format"))).

(** Lines 202-223, with the record of line 222.  A missing attribute of
    [app.state] raises [AttributeError] inside the [try]; the model checks
    both attributes before the forward pass (a state with a model and no
    class table is not reachable, [Server.serving_invariant]). *)
Definition predict_image_w (st : app_state) (x : tensor) : wres (list Classifier.prediction) :=
  wtry
    (match model st, idx_to_class st with
     | Some vit, Some tbl =>
         let@ outputs := wlift (forward vit x) in
         let probabilities := Classifier.softmax exp outputs in
         let@ top3 := wlift (Classifier.topk 3 probabilities) in
         wlift (Classifier.predictions_of tbl top3)
     | None, _ => wraise (LibError (lit "'State' object has no attribute 'model'"))
     | Some _, None => wraise (LibError (lit "'State' object has no attribute 'idx_to_class'"))
     end)
    (fun e =>
       let@ _ := error (lit "Prediction failed: " ++ exc_message e) in
       wraise Classifier.INFERENCE_ERROR).

(** Lines 239-284, with the records of lines 255, 261 and 281. *)
Definition generate_gemini_content_w (gm : gen_model) (disease_name : pystr)
    : wres (pystr * pystr * pystr) :=
  wtry
    (let@ _ := info (lit "Sending prompt to Gemini for disease: " ++ disease_name) in
     let@ text := wlift (generate_content gm (Advisory.build_prompt disease_name)) in
     if decide (text = []) then wraise (ValueError (lit "Empty response from Gemini"))
     else
       let@ _ := info (lit "Gemini response: " ++ text) in
       wlift (Advisory.extract_sections text))
    (fun e =>
       let@ _ := error (lit "Gemini content generation failed: " ++ exc_message e) in
       wret Advisory.placeholders).

(** Lines 298-313, with the records of lines 311 and 313. *)
Definition advisory_for_w (st : app_state) (predictions : list Classifier.prediction)
    : wres (pystr * pystr * pystr) :=
  let top_prediction :=
    match predictions with
    | p :: _ => Classifier.pred_class p
    | [] => JStr (lit "Unknown disease")
    end in
  match gemini_model st with
  | Some gm =>
      wtry (generate_gemini_content_w gm (py_str_json top_prediction))
        (fun gemini_e =>
           let@ _ := error (lit "Gemini API call failed: " ++ exc_message gemini_e) in
           wret Advisory.placeholders)
  | None =>
      let@ _ := warning (lit "Gemini model not configured, skipping API call") in
      wret Advisory.placeholders
  end.

(** The body of the outer [try] (lines 290-323). *)
Definition predict_body_w (st : app_state) (file : upload) : wres predict_response :=
  let@ contents := wlift (file_read file) in
  if decide (contents = []) then wraise (HTTPException 400 (lit "Empty file uploaded"))
  else
    let@ img := wlift (image_open contents) in
    let@ processed_tensor := preprocess_image_w img in
    let@ predictions := predict_image_w st processed_tensor in
    let@ advice := advisory_for_w st predictions in
    wret (response_of file predictions advice).

(** Lines 325-329, with the record of line 328. *)
Definition predict_handler_w (e : exc) : wres predict_response :=
  match e with
  | HTTPException code detail => wraise (HTTPException code detail)
  | _ =>
      let@ _ := exception (lit "Prediction failed: " ++ exc_message e) in
      wraise (HTTPException 500 (lit "Internal server error"))
  end.

Definition predict_w (st : app_state) (file : upload) : wres predict_response :=
  wtry (predict_body_w st file) predict_handler_w.

(** The log of one request; [/test-gemini] logs nothing. *)
Definition request_log (st : app_state) (rq : Server.request) : list log_record :=
  match rq with
  | Server.RPredict file => (predict_w st file).1
  | Server.RTestGemini => []
  end.

End Requests.

(** ** Logging changes no result: requests *)

Section RequestsErasure.

Context `{GenAI} `{ImageLib} `{Network}.
Context (exp : Q -> Q).

Import App.

Lemma preprocess_image_erase (img : image) :
  (preprocess_image_w img).2 = preprocess_image img.
Proof. unfold preprocess_image_w, preprocess_image. wsimpl. by destruct (res_bind _ _). Qed.

Lemma predict_image_erase (st : app_state) (x : tensor) :
  (predict_image_w exp st x).2 = predict_image_state exp st x.
Proof.
  unfold predict_image_w, predict_image_state, Classifier.predict_image.
  destruct (model st) as [vit|], (idx_to_class st) as [tbl|]; wsimpl; [|done..].
  destruct (forward vit x); wsimpl; [|done].
  destruct (Classifier.topk _ _); wsimpl; [|done]. by destruct (Classifier.predictions_of _ _).
Qed.

Lemma generate_gemini_content_erase (gm : gen_model) (d : pystr) :
  (generate_gemini_content_w gm d).2 = Advisory.generate_gemini_content gm d.
Proof.
  unfold generate_gemini_content_w, Advisory.generate_gemini_content. wsimpl.
  destruct (generate_content gm _) as [text|e]; wsimpl; [|done].
  case_decide; wsimpl; [done|]. by destruct (Advisory.extract_sections text).
Qed.

Lemma advisory_for_erase (st : app_state) (preds : list Classifier.prediction) :
  (advisory_for_w st preds).2 = advisory_for st preds.
Proof.
  unfold advisory_for_w, advisory_for. destruct (gemini_model st); wsimpl; [|done].
  by rewrite generate_gemini_content_erase.
Qed.

Lemma predict_body_erase (st : app_state) (file : upload) :
  (predict_body_w exp st file).2 = predict_body exp st file.
Proof.
  unfold predict_body_w, predict_body. wsimpl.
  destruct (file_read file) as [contents|e]; wsimpl; [|done].
  case_decide; wsimpl; [done|].
  destruct (image_open contents) as [img|e]; wsimpl; [|done].
  rewrite preprocess_image_erase. destruct (preprocess_image img) as [x|e]; wsimpl; [|done].
  rewrite predict_image_erase. destruct (predict_image_state exp st x) as [ps|e]; wsimpl; [|done].
  rewrite advisory_for_erase. by destruct (advisory_for st ps).
Qed.

Lemma predict_handler_erase (e : exc) : (predict_handler_w e).2 = predict_handler e.
Proof. by destruct e. Qed.

Lemma predict_erase (st : app_state) (file : upload) :
  (predict_w exp st file).2 = predict exp st file.
Proof.
  unfold predict_w, predict. rewrite wtry_erase, predict_body_erase.
  destruct (predict_body exp st file); [done|]. apply predict_handler_erase.
Qed.

End RequestsErasure.

(** ** The log of startup *)

Section StartupLog.

Context `{GenAI}.

Import App.

(** The record of line 67. *)
Definition loaded_record (tbl : gmap Z json) : log_record :=
  record INFO (lit "Loaded " ++ ClassIndex.py_str_Z (Z.of_nat (size tbl)) ++
               lit " classes from " ++ CLASS_NAMES_PATH) false.

Lemma load_class_mapping_w_cases (d : res json) :
  (exists tbl, ClassIndex.load_class_mapping d = Ok tbl /\
     load_class_mapping_w d = ([loaded_record tbl], Ok tbl)) \/
  (exists m, ClassIndex.load_class_mapping d = Raise ClassIndex.CLASS_LOAD_ERROR /\
     load_class_mapping_w d =
       ([record ERROR (lit "Class mapping failed: " ++ m) true], Raise ClassIndex.CLASS_LOAD_ERROR)).
Proof.
  destruct d as [[]|]; try (right; eexists; split; reflexivity); [left; eexists; split; reflexivity|].
  unfold load_class_mapping_w, ClassIndex.load_class_mapping.
  cbn [res_bind try_except wtry wbind wlift wret wraise info exception wlog fst snd app].
  destruct (ClassIndex.int_keys_into _ _); [left|right]; eexists; split; reflexivity.
Qed.

(** Lines 104-105 after a successful load. *)
Definition model_records (inp : startup_inputs) (tbl : gmap Z json) : list log_record :=
  [record INFO (lit "Model loaded successfully on " ++ app_device inp) false;
   record INFO (lit "Class mapping: " ++ ClassIndex.py_str_Z (Z.of_nat (size tbl)) ++
                lit " classes") false].

Lemma on_load_model_w_cases (inp : startup_inputs) (st : app_state) (tbl : gmap Z json) :
  idx_to_class st = Some tbl ->
  (exists vit, Checkpoint.build_model (app_device inp) (size tbl) (hub inp) (checkpoint_file inp) = Ok vit /\
     on_load_model_w inp st =
       (model_records inp tbl,
        Ok {| idx_to_class := Some tbl; model := Some vit; gemini_model := gemini_model st |})) \/
  (exists e0, Checkpoint.build_model (app_device inp) (size tbl) (hub inp) (checkpoint_file inp) = Raise e0 /\
     on_load_model_w inp st =
       ([record ERROR (lit "Model loading failed: " ++ exc_message e0) true],
        Raise Checkpoint.MODEL_LOAD_ERROR)).
Proof.
  intros Hst. unfold on_load_model_w. rewrite Hst. cbn [wret wbind fst snd app]. rewrite Hst.
  destruct (Checkpoint.build_model _ _ _ _) as [vit|e0]; [left|right]; eexists; split; try done.
Qed.

(** The three outcomes of startup and their logs. *)
Lemma startup_w_cases (inp : startup_inputs) :
  (exists m, startup inp = Raise ClassIndex.CLASS_LOAD_ERROR /\
     (startup_w inp).1 = [record ERROR (lit "Class mapping failed: " ++ m) true]) \/
  (exists tbl e0, ClassIndex.load_class_mapping (class_file inp) = Ok tbl /\
     Checkpoint.build_model (app_device inp) (size tbl) (hub inp) (checkpoint_file inp) = Raise e0 /\
     startup inp = Raise Checkpoint.MODEL_LOAD_ERROR /\
     (startup_w inp).1 =
       [loaded_record tbl; record ERROR (lit "Model loading failed: " ++ exc_message e0) true]) \/
  (exists tbl st, startup inp = Ok st /\
     (startup_w inp).1 = loaded_record tbl :: model_records inp tbl ++
                         (configure_gemini_w (env_world inp)).1).
Proof.
  rewrite <- startup_erase. unfold startup_w, on_load_class_mapping_w.
  destruct (load_class_mapping_w_cases (class_file inp)) as [(tbl & Hl & Hw) | (m & _ & Hw)];
    rewrite Hw; cbn [wbind wret fst snd app]; [|left; exists m; split; reflexivity].
  set (st1 := {| idx_to_class := Some tbl; model := model initial_state;
                 gemini_model := gemini_model initial_state |}).
  destruct (on_load_model_w_cases inp st1 tbl eq_refl) as [(vit & _ & Hm) | (e0 & Hb & Hm)];
    rewrite Hm; cbn [wbind wret fst snd app].
  - right; right. exists tbl. unfold on_configure_gemini_w. rewrite wbind_log, wbind_erase.
    rewrite configure_gemini_erase. eexists; split; [reflexivity|]. cbn [wret fst]. by rewrite app_nil_r.
  - right; left. exists tbl, e0. by repeat split.
Qed.

(** C15. When startup aborts, the log says why, and the configured
    handler writes it: after a class table that does not load, the one
    [ERROR] record with traceback ["Class mapping failed: ..."]; after a
    model that does not load, the record ["Loaded N classes from ..."] and
    then the [ERROR] record with traceback ["Model loading failed: ..."]
    naming the exception of the loading.  The Gemini handler has written
    nothing. *)
Theorem startup_abort_log (inp : startup_inputs) (e : exc) :
  startup inp = Raise e ->
  emitted (startup_w inp).1 = (startup_w inp).1 /\
  ((e = ClassIndex.CLASS_LOAD_ERROR /\
    exists m, (startup_w inp).1 = [record ERROR (lit "Class mapping failed: " ++ m) true]) \/
   (e = Checkpoint.MODEL_LOAD_ERROR /\
    exists tbl e0, ClassIndex.load_class_mapping (class_file inp) = Ok tbl /\
      Checkpoint.build_model (app_device inp) (size tbl) (hub inp) (checkpoint_file inp) = Raise e0 /\
      (startup_w inp).1 =
        [loaded_record tbl; record ERROR (lit "Model loading failed: " ++ exc_message e0) true])).
Proof.
  intros He.
  destruct (startup_w_cases inp) as [(m & Hs & ->) | [(tbl & e0 & Hl & Hb & Hs & ->) | (? & ? & Hs & _)]];
    rewrite He in Hs; try discriminate Hs; injection Hs as ->.
  - split; [done|]. left. split; [done|]. by exists m.
  - split; [done|]. right. split; [done|]. by exists tbl, e0.
Qed.

End StartupLog.

(** ** The log of the model search *)

Section GeminiLog.

Context `{GenAI}.

Import App.

(** A record of lines 157 or 159 about the model name [n]. *)
Definition model_warning (n : pystr) (r : log_record) : Prop :=
  lvl r = WARNING /\ exists t, msg r = lit "Model " ++ n ++ t.

Definition success_record (name : pystr) : log_record :=
  record INFO (lit "Successfully initialized Gemini with model: " ++ name) false.

Lemma try_models_w_some (cfg : genai_config) (names : list pystr) (m : gen_model) :
  (try_models_w cfg names).2 = Ok (Some m) ->
  exists pre name post warnings, names = pre ++ name :: post /\
    GenerativeModel cfg name = Ok m /\ Forall2 model_warning pre warnings /\
    (try_models_w cfg names).1 = warnings ++ [success_record name].
Proof.
  induction names as [|n ns IH]; cbn; [done|].
  assert (Hstep : forall t, (try_models_w cfg ns).2 = Ok (Some m) ->
    exists pre name post warnings, n :: ns = pre ++ name :: post /\
      GenerativeModel cfg name = Ok m /\ Forall2 model_warning pre warnings /\
      record WARNING (lit "Model " ++ n ++ t) false :: (try_models_w cfg ns).1 =
        warnings ++ [success_record name]).
  { intros t Hs. destruct (IH Hs) as (pre & name & post & ws & -> & Hm & Hw & ->).
    exists (n :: pre), name, post, (record WARNING (lit "Model " ++ n ++ t) false :: ws).
    repeat split; [done | constructor; [split; [done | by eexists] | done]]. }
  destruct (GenerativeModel cfg n) as [model|e] eqn:Hn.
  - destruct (GeminiConfig.accepts _) eqn:Ha.
    + intros [= ->]. exists [], n, ns, []. by repeat split.
    + destruct (generate_content model _) as [text|e]; cbn; apply Hstep.
  - cbn. apply Hstep.
Qed.

(** C17. The model search is logged in the order it runs: when
    [configure_gemini] binds a model, its log is the record of the
    [.env.local] search, then one [WARNING] about each model name tried
    before, in the order of the list, then the [INFO] record naming the
    bound model; when it binds none, the log ends with the [ERROR] record
    ["Gemini configuration failed: ..."]. *)
Theorem configure_gemini_log (w : GeminiConfig.world) :
  (forall model, (configure_gemini_w w).2 = Ok (Some model) ->
   exists env_rec pre name post warnings,
     GeminiConfig.MODEL_NAMES = pre ++ name :: post /\ (load_env_w w).1 = [env_rec] /\
     Forall2 model_warning pre warnings /\
     (configure_gemini_w w).1 = env_rec :: warnings ++ [success_record name]) /\
  ((configure_gemini_w w).2 = Ok None ->
   exists pre m, (configure_gemini_w w).1 =
     pre ++ [record ERROR (lit "Gemini configuration failed: " ++ m) false]).
Proof.
  assert (Henv : exists env_rec env, load_env_w w = ([env_rec], Ok env)).
  { unfold load_env_w. destruct (first_env_path _ _) as [[p kv]|]; by do 2 eexists. }
  destruct Henv as (env_rec & env & Henv).
  unfold configure_gemini_w. rewrite Henv. cbn [wbind wtry fst snd app].
  destruct (env !! GeminiConfig.GEMINI_API_KEY) as [[|c key]|]; cbn [wbind wtry wraise fst snd app].
  - split; [done|]. intros _. by exists [env_rec], (exc_message (ValueError (lit "GEMINI_API_KEY not found in environment"))).
  - destruct (try_models_w _ _) as [l [[model|]|e]] eqn:Ht; cbn [wbind wtry wret wraise fst snd app].
    + split; [|done]. intros model' [= <-].
      destruct (try_models_w_some (genai_configure (c :: key) None) GeminiConfig.MODEL_NAMES model)
        as (pre & name & post & ws & Hn & _ & Hw & Hl); [by rewrite Ht|].
      rewrite Ht in Hl. cbn in Hl. exists env_rec, pre, name, post, ws.
      rewrite Hl, app_nil_r. by repeat split.
    + split; [done|]. intros _.
      exists (env_rec :: l ++ []), (lit "All Gemini models failed to initialize"). reflexivity.
    + pose proof (try_models_erase (genai_configure (c :: key) None) GeminiConfig.MODEL_NAMES) as He.
      rewrite Ht in He. discriminate He.
  - split; [done|]. intros _. by eexists [env_rec], _.
Qed.

End GeminiLog.

(** ** The log of [/predict] *)

Section PredictLog.

Context `{GenAI} `{ImageLib} `{Network}.
Context (exp : Q -> Q).

Import App.

Lemma generate_gemini_content_w_ok (gm : gen_model) (d : pystr) :
  exists r, (generate_gemini_content_w gm d).2 = Ok r.
Proof.
  rewrite generate_gemini_content_erase. unfold Advisory.generate_gemini_content.
  apply (try_except_total _ (fun _ => Advisory.placeholders)).
Qed.

(** The [except] of lines 310-311 never runs: [generate_gemini_content]
    catches every exception itself, so the advisory step of [/predict]
    writes exactly the log of [generate_gemini_content] (or the warning
    of line 313 without Gemini), and the record ["Gemini API call failed:
    ..."] is never written. *)
Theorem gemini_api_failed_dead (st : app_state) (preds : list Classifier.prediction) :
  advisory_for_w st preds =
    match gemini_model st with
    | Some gm =>
        generate_gemini_content_w gm
          (py_str_json (match preds with
                        | p :: _ => Classifier.pred_class p
                        | [] => JStr (lit "Unknown disease")
                        end))
    | None =>
        ([record WARNING (lit "Gemini model not configured, skipping API call") false],
         Ok Advisory.placeholders)
    end.
Proof.
  unfold advisory_for_w. destruct (gemini_model st) as [gm|]; [|reflexivity].
  match goal with |- wtry (generate_gemini_content_w gm ?d) _ = _ =>
    destruct (generate_gemini_content_w_ok gm d) as [r Hr];
    destruct (generate_gemini_content_w gm d) as [l r'] end.
  cbn in Hr. subst r'. reflexivity.
Qed.

(** C16. How a failed [/predict] is logged: an exception that is not an
    [HTTPException] ends the log with the [ERROR] record with traceback
    ["Prediction failed: ..."] naming it, an [HTTPException] adds nothing
    to the log of the body, and an empty upload is answered without any
    record. *)
Theorem predict_failure_log (st : app_state) (file : upload) (e : exc) :
  predict_body exp st file = Raise e ->
  exists pre, (predict_w exp st file).1 =
    pre ++ match e with
           | HTTPException _ _ => []
           | _ => [record ERROR (lit "Prediction failed: " ++ exc_message e) true]
           end /\
    (file_read file = Ok [] -> pre = []).
Proof.
  intros He. unfold predict_w. rewrite wtry_log, predict_body_erase, He.
  exists (predict_body_w exp st file).1. split.
  - f_equal. destruct e; cbn; by rewrite ?app_nil_r.
  - intros Hf. unfold predict_body_w. rewrite Hf. reflexivity.
Qed.

End PredictLog.

(** ** Logging changes no result *)

Section Erasure.

Context `{GenAI} `{ImageLib} `{Network}.
Context (exp : Q -> Q).

Import App.

(** Logging changes no result: startup written with its [logger]
    calls computes, once its log is forgotten, exactly the state or the
    exception of [App.startup], and [/predict] with its [logger] calls
    exactly the response or the exception of [App.predict], on every
    state and upload. *)
Theorem logging_preserves_results (inp : startup_inputs) :
  (startup_w inp).2 = startup inp /\
  forall st file, (predict_w exp st file).2 = predict exp st file.
Proof. split; [apply startup_erase | intros st file; apply predict_erase]. Qed.

End Erasure.

(** ** A whole run of the process *)

Section Run.

Context `{GenAI} `{ImageLib} `{Network}.
Context (exp : Q -> Q).

Import App.

(** [uvicorn.run(app)] (lines 339-341): the startup log, then the log of
    every request served, in order; an aborted startup serves nothing. *)
Definition run_w (inp : startup_inputs) (rqs : list Server.request)
    : list log_record * (Server.server * list (Server.request * Server.answer)) :=
  match startup_w inp with
  | (l, Ok st) => (l ++ mjoin (request_log exp st <$> rqs), (Server.Serving st, Server.answers exp st rqs))
  | (l, Raise e) => (l, (Server.Aborted e, []))
  end.

(** Forgetting the log of a run gives [Server.run]. *)
Lemma run_w_erase (inp : startup_inputs) (rqs : list Server.request) :
  (run_w inp rqs).2 = Server.run exp inp rqs.
Proof.
  unfold run_w, Server.run. rewrite <- startup_erase.
  by destruct (startup_w inp) as [l [st|e]].
Qed.

(** The log of a run starts with the log of startup, and a request adds
    the records of its handler at the end. *)
Lemma run_w_snoc (inp : startup_inputs) (rqs : list Server.request) (rq : Server.request) :
  (run_w inp (rqs ++ [rq])).1 =
    (run_w inp rqs).1 ++
      match startup inp with Ok st => request_log exp st rq | Raise _ => [] end.
Proof.
  unfold run_w. rewrite <- startup_erase.
  destruct (startup_w inp) as [l [st|e]]; cbn [fst snd]; [|by rewrite app_nil_r].
  rewrite fmap_app, join_app, app_assoc. cbn [fmap list_fmap mjoin list_join]. by rewrite app_nil_r.
Qed.

End Run.

(** ** Witnesses *)

Lemma startup_abort_log_witness :
  emitted (@startup_w App.demo_genai Server.broken_inputs).1 =
    (@startup_w App.demo_genai Server.broken_inputs).1 /\
  ((ClassIndex.CLASS_LOAD_ERROR = ClassIndex.CLASS_LOAD_ERROR /\
    exists m, (@startup_w App.demo_genai Server.broken_inputs).1 =
                [record ERROR (lit "Class mapping failed: " ++ m) true]) \/
   (ClassIndex.CLASS_LOAD_ERROR = Checkpoint.MODEL_LOAD_ERROR /\
    exists tbl e0, ClassIndex.load_class_mapping (App.class_file Server.broken_inputs) = Ok tbl /\
      Checkpoint.build_model (App.app_device Server.broken_inputs) (size tbl)
        (App.hub Server.broken_inputs) (App.checkpoint_file Server.broken_inputs) = Raise e0 /\
      (@startup_w App.demo_genai Server.broken_inputs).1 =
        [loaded_record tbl; record ERROR (lit "Model loading failed: " ++ App.exc_message e0) true])).
Proof.
  apply (@startup_abort_log App.demo_genai Server.broken_inputs ClassIndex.CLASS_LOAD_ERROR).
  vm_compute. reflexivity.
Defined.

Lemma predict_failure_log_witness :
  exists pre,
    (@predict_w App.demo_genai App.demo_images App.demo_network Classifier.qexp
       App.demo_state App.empty_upload).1 = pre ++ [] /\
    (App.file_read App.empty_upload = Ok [] -> pre = []).
Proof.
  apply (@predict_failure_log App.demo_genai App.demo_images App.demo_network Classifier.qexp
           App.demo_state App.empty_upload (HTTPException 400 (lit "Empty file uploaded"))).
  reflexivity.
Defined.

End Logging.
